(** * Chapyter: the cell-linking plugin of [src/index.ts]

    A shallow embedding of the JupyterLab front-end plugin: the cell
    locator, the magic detector, the selection navigator, the cell deleter
    and the two execution-event handlers, followed by the properties of the
    specification that they satisfy or refute.

    - Cell widgets are JavaScript objects: the handlers receive a reference
      to a cell, compare cells with [===] and mutate them in place.  A cell
      is therefore a reference into a store of cell objects, and the
      notebook's widget array is a list of references.
    - The handlers run in a state monad with exceptions: the [TypeError]
      of [notebook.widgets[i].inputHidden] for an index outside the array,
      in the loops of [selectCellById] and inside the host's [selectBelow].
    - The state keeps the calls made on the host, in order, so that "no
      request to run" or "no step issued" can be stated.
    - The host's [selectBelow] and [selectAbove] are not part of the
      plugin.  They do nothing without an active cell, and [selectBelow]
      looks for the last cell whose input is shown and reads a property of
      [undefined] when every input is hidden; otherwise the index that they
      assign to the cursor is a parameter ([Host]), of which the steps of
      JupyterLab, which pass over the cells whose input is hidden, are one
      instance ([jupyterHost]).  Every assignment to [activeCellIndex] is
      clamped by the host's setter, as the comment in [deleteCell] says.
    - The [ChapyterCell] metadata has the type that the source declares for
      it, and the notebook has a model ([notebook.model!]). *)

From Stdlib Require Import ZArith List String Ascii Bool Lia DecimalString.
From Stdlib Require Decimal DecimalZ Sorted.
Import ListNotations.

Local Open Scope string_scope.
Local Open Scope list_scope.
Local Open Scope Z_scope.

(** ** Strings *)

Module Str.

(** [s.startsWith(p)] *)
Definition startsWith (s p : string) : bool := String.prefix p s.

Definition newline : ascii := "010"%char.

(** [s.split('\n')[0]]: the characters before the first line feed. *)
Fixpoint firstLine (s : string) : string :=
  match s with
  | EmptyString => EmptyString
  | String c rest =>
      if Ascii.eqb c newline then EmptyString else String c (firstLine rest)
  end.

(** [s.includes(sub)] *)
Fixpoint includes (s sub : string) : bool :=
  String.prefix sub s ||
  match s with
  | EmptyString => false
  | String _ rest => includes rest sub
  end.

(** JavaScript truthiness of a string: only the empty string is falsy. *)
Definition truthy (s : string) : bool :=
  match s with EmptyString => false | String _ _ => true end.

(** Decimal rendering of an integer inside a template literal: every
    digit, as JavaScript prints a number below [10^21]; an execution count
    is far below. *)
Definition ofZ (n : Z) : string := NilZero.string_of_int (Z.to_int n).

End Str.

(** ** Data model *)

(** Object identity of a cell widget. *)
Abbreviation ref := nat (only parsing).

(** [cell.model.type] *)
Inductive CellType : Type := code | markdown | raw.

Definition CellType_eqb (a b : CellType) : bool :=
  match a, b with
  | code, code | markdown, markdown | raw, raw => true
  | _, _ => false
  end.

Inductive ChapyterCellType : Type := generated | original.

(** [type ChapyterCellMetadata] *)
Record ChapyterCellMetadata : Type := mkMeta {
  linkedCellId : option string;
  cellType : ChapyterCellType
}.

(** A cell widget together with its model. *)
Record Cell : Type := mkCell {
  id : string;                              (* cell.model.id *)
  type : CellType;                          (* cell.model.type *)
  source : string;                          (* cell.model.sharedModel.getSource() *)
  executionCount : option Z;                (* cell.model.executionCount : number | null *)
  ChapyterCell : option ChapyterCellMetadata; (* cell.model.getMetadata('ChapyterCell') *)
  deletable : option bool;                  (* cell.model.getMetadata('deletable') *)
  inputHidden : bool;                       (* cell.inputHidden *)
  classes : list string                     (* CSS classes of the widget *)
}.

(** The argument [executionId : string | number | null]. *)
Inductive ExecutionId : Type :=
| EidString (s : string)
| EidNumber (n : Z)
| EidNull.

Definition ofExecutionCount (c : option Z) : ExecutionId :=
  match c with Some n => EidNumber n | None => EidNull end.

(** Calls made on the host, in the order they are made.  [SearchTemplate]
    and [SearchId] record that a handler ran a search; the others are
    requests to the notebook. *)
Inductive Call : Type :=
| SetMetadata (r : ref) (m : ChapyterCellMetadata)
| SetInputHidden (r : ref) (b : bool)
| AddClass (r : ref) (c : string)
| RemoveClass (r : ref) (c : string)
| ToggleClass (r : ref) (c : string)
| SearchTemplate (e : ExecutionId)
| SearchId (i : string)
| SelectBelow
| SelectAbove
| Run
| PushDeleted (i : string)
| TransactBegin
| DeleteCellAt (index : nat)
| TransactEnd
| SetActiveCellIndex (v : Z)
| DeselectAll.

(** The cell objects, the tracker's current notebook and the calls made so
    far. *)
Record State : Type := mkState {
  cells : ref -> Cell;          (* the cell objects *)
  currentWidget : bool;         (* tracker.currentWidget is not null *)
  widgets : list ref;           (* notebook.widgets *)
  activeCellIndex : Z;          (* notebook.activeCellIndex *)
  deletedCells : list string;   (* notebook.model.deletedCells *)
  trace : list Call
}.

(** Relative cursor movement belongs to the host: given the [inputHidden]
    flag of every widget, one of which at least is false, and the index of
    the active cell, the host chooses the index it assigns to the cursor. *)
Class Host : Type := mkHost {
  stepBelow : list bool -> Z -> Z;
  stepAbove : list bool -> Z -> Z
}.

(** *** The steps of JupyterLab

    [NotebookActions.selectBelow] and [NotebookActions.selectAbove] of
    [@jupyterlab/notebook], the package that the plugin imports: a step
    passes over the cells whose input is hidden.  No cell widget is itself
    hidden, and the focus is not on the notebook's footer. *)

(** [widgets[i].inputHidden], for [i] inside the list *)
Definition hiddenAt (hs : list bool) (i : Z) : bool := nth (Z.to_nat i) hs false.

(** [while (widgets[maxCellIndex].inputHidden) maxCellIndex -= 1] *)
Fixpoint lastShown (fuel : nat) (hs : list bool) (maxCellIndex : Z) : Z :=
  match fuel with
  | O => maxCellIndex
  | S fuel' =>
      if hiddenAt hs maxCellIndex then lastShown fuel' hs (maxCellIndex - 1)
      else maxCellIndex
  end.

(** [while (next < maxCellIndex) { if (!widgets[next].inputHidden) break;
    next += 1 }] *)
Fixpoint nextShown (fuel : nat) (hs : list bool) (next maxCellIndex : Z) : Z :=
  match fuel with
  | O => next
  | S fuel' =>
      if (next <? maxCellIndex) && hiddenAt hs next
      then nextShown fuel' hs (next + 1) maxCellIndex
      else next
  end.

(** [while (next >= 0) { if (!widgets[next].inputHidden) break; next -= 1 }] *)
Fixpoint previousShown (fuel : nat) (hs : list bool) (next : Z) : Z :=
  match fuel with
  | O => next
  | S fuel' =>
      if (0 <=? next) && hiddenAt hs next
      then previousShown fuel' hs (next - 1)
      else next
  end.

(** On the last cell whose input is shown [selectBelow] leaves the cursor
    where it is, and so does [selectAbove] on the first cell. *)
Definition jupyterHost : Host :=
  {| stepBelow := fun hs i =>
       let maxCellIndex :=
         lastShown (List.length hs) hs (Z.of_nat (List.length hs) - 1) in
       if i =? maxCellIndex then i
       else nextShown (List.length hs) hs (i + 1) maxCellIndex;
     stepAbove := fun hs i =>
       if i =? 0 then i else previousShown (List.length hs) hs (i - 1) |}.

(** ** Constants *)

Definition CHAPYTER_CHAT_CELL : string := "jp-chapyter-chat".
Definition CHAPYTER_CHAT_CELL_EXECUTING : string := "jp-chapyter-chat-executing".
Definition CHAPYTER_ASSISTANCE_CELL : string := "jp-chapyter-assistance".

(** ** Cell locator and magic detector (pure reads) *)

(** [child.model.getMetadata('deletable') !== false] *)
Definition isDeletable (c : Cell) : bool :=
  match deletable c with Some false => false | _ => true end.

(** [isCellNotGenerated] *)
Definition isCellNotGenerated (c : Cell) : bool :=
  if CellType_eqb (type c) code then
    match ChapyterCell c with
    | Some m => match cellType m with generated => false | original => true end
    | None => true
    end
  else true.

(** [findCellById] *)
Fixpoint findCellById_from (cs : ref -> Cell) (ws : list ref) (i : string)
  : option ref :=
  match ws with
  | [] => None
  | r :: rest =>
      if String.eqb (id (cs r)) i then Some r else findCellById_from cs rest i
  end.

Definition findCellById (w : State) (i : string) : option ref :=
  findCellById_from (cells w) (widgets w) i.

(** The template literal [`# Assistant Code for Cell [${executionId}]:`]. *)
Definition searchTemplate (e : ExecutionId) : string :=
  String.append "# Assistant Code for Cell ["
    (String.append
       match e with
       | EidString s => s
       | EidNumber n => Str.ofZ n
       | EidNull => "null"
       end
       "]:").

(** [if (executionId)]: [null], [0] and the empty string are falsy. *)
Definition truthyExecutionId (e : ExecutionId) : bool :=
  match e with
  | EidString s => Str.truthy s
  | EidNumber n => negb (n =? 0)
  | EidNull => false
  end.

Definition matchesTemplate (c : Cell) (e : ExecutionId) : bool :=
  CellType_eqb (type c) code &&
  Str.startsWith (Str.firstLine (source c)) (searchTemplate e).

(** [findCellByTemplateString] *)
Definition findCellByTemplateString (w : State) (e : ExecutionId) : option ref :=
  if truthyExecutionId e then
    find (fun r => matchesTemplate (cells w r) e) (widgets w)
  else None.

(** [findCellIndexById] *)
Fixpoint findCellIndexById_from (cs : ref -> Cell) (ws : list ref) (i : string)
  (index : Z) : Z :=
  match ws with
  | [] => -1
  | r :: rest =>
      if String.eqb (id (cs r)) i then index
      else findCellIndexById_from cs rest i (index + 1)
  end.

Definition findCellIndexById (w : State) (i : string) : Z :=
  findCellIndexById_from (cells w) (widgets w) i 0.

(** [isCellChapyterMagicCell] *)
Definition isCellChapyterMagicCell (c : Cell) (strict : bool) : bool :=
  let codeCellText := source c in
  if Str.startsWith codeCellText "%chat" || Str.startsWith codeCellText "%%chat"
  then
    if negb (Str.startsWith codeCellText "%%chatonly") || negb strict
    then true else false
  else false.

(** [isCellChapyterMagicCellSafeMode] *)
Definition isCellChapyterMagicCellSafeMode (c : Cell) : bool :=
  let firstLine := Str.firstLine (source c) in
  Str.includes firstLine "-s" || Str.includes firstLine "--safe".

(** ** Mutation of the store and of the notebook *)

Definition updateCell (b : bool) (f : Cell -> Cell) (c : Cell) : Cell :=
  if b then f c else c.

(** The store after the object [r] is mutated by [f]. *)
Definition withCell (r : ref) (f : Cell -> Cell) (w : State) : State :=
  {| cells := fun r' => updateCell (Nat.eqb r' r) f (cells w r');
     currentWidget := currentWidget w;
     widgets := widgets w;
     activeCellIndex := activeCellIndex w;
     deletedCells := deletedCells w;
     trace := trace w |}.

Definition withWidgets (ws : list ref) (w : State) : State :=
  {| cells := cells w;
     currentWidget := currentWidget w;
     widgets := ws;
     activeCellIndex := activeCellIndex w;
     deletedCells := deletedCells w;
     trace := trace w |}.

Definition withActiveCellIndex (i : Z) (w : State) : State :=
  {| cells := cells w;
     currentWidget := currentWidget w;
     widgets := widgets w;
     activeCellIndex := i;
     deletedCells := deletedCells w;
     trace := trace w |}.

Definition withDeletedCells (d : list string) (w : State) : State :=
  {| cells := cells w;
     currentWidget := currentWidget w;
     widgets := widgets w;
     activeCellIndex := activeCellIndex w;
     deletedCells := d;
     trace := trace w |}.

Definition logCall (c : Call) (w : State) : State :=
  {| cells := cells w;
     currentWidget := currentWidget w;
     widgets := widgets w;
     activeCellIndex := activeCellIndex w;
     deletedCells := deletedCells w;
     trace := trace w ++ [c] |}.

Definition cell_setChapyterCell (m : ChapyterCellMetadata) (c : Cell) : Cell :=
  {| id := id c; type := type c; source := source c;
     executionCount := executionCount c;
     ChapyterCell := Some m;
     deletable := deletable c; inputHidden := inputHidden c;
     classes := classes c |}.

Definition cell_setInputHidden (b : bool) (c : Cell) : Cell :=
  {| id := id c; type := type c; source := source c;
     executionCount := executionCount c;
     ChapyterCell := ChapyterCell c;
     deletable := deletable c; inputHidden := b;
     classes := classes c |}.

Definition cell_setClasses (cl : list string) (c : Cell) : Cell :=
  {| id := id c; type := type c; source := source c;
     executionCount := executionCount c;
     ChapyterCell := ChapyterCell c;
     deletable := deletable c; inputHidden := inputHidden c;
     classes := cl |}.

Definition cell_setExecutionCount (n : option Z) (c : Cell) : Cell :=
  {| id := id c; type := type c; source := source c;
     executionCount := n;
     ChapyterCell := ChapyterCell c;
     deletable := deletable c; inputHidden := inputHidden c;
     classes := classes c |}.

Definition hasClass (c : string) (cl : list string) : bool :=
  existsb (String.eqb c) cl.

Definition classList_add (c : string) (cl : list string) : list string :=
  if hasClass c cl then cl else cl ++ [c].

Definition classList_remove (c : string) (cl : list string) : list string :=
  filter (fun c' => negb (String.eqb c c')) cl.

Definition classList_toggle (c : string) (cl : list string) : list string :=
  if hasClass c cl then classList_remove c cl else cl ++ [c].

(** The host's setter of [notebook.activeCellIndex] clamps the assigned
    value to the available cells (comment in [deleteCell]); with no cell
    there is no active cell. *)
Definition clampIndex (n : nat) (v : Z) : Z :=
  match n with
  | O => -1
  | S _ => Z.min (Z.max v 0) (Z.of_nat n - 1)
  end.

(** [array.splice(index, 1)] *)
Fixpoint removeAt {A : Type} (index : nat) (l : list A) : list A :=
  match l, index with
  | [], _ => []
  | _ :: rest, O => rest
  | x :: rest, S n => x :: removeAt n rest
  end.

(** ** Handlers run in a state monad with exceptions *)

Inductive JsError : Type := TypeError.

Inductive Completion (A : Type) : Type :=
| Normal (a : A)
| Thrown (e : JsError).

Arguments Normal {A} a.
Arguments Thrown {A} e.

Definition M (A : Type) : Type := State -> Completion A * State.

Definition ret {A : Type} (a : A) : M A := fun w => (Normal a, w).

Definition bind {A B : Type} (m : M A) (k : A -> M B) : M B :=
  fun w =>
    match m w with
    | (Normal a, w') => k a w'
    | (Thrown e, w') => (Thrown e, w')
    end.

Definition throw {A : Type} (e : JsError) : M A := fun w => (Thrown e, w).

Definition gets {A : Type} (f : State -> A) : M A := fun w => (Normal (f w), w).

Definition modify (f : State -> State) : M unit := fun w => (Normal tt, f w).

Declare Scope js_scope.
Delimit Scope js_scope with js.
Notation "x <- m ;; k" := (bind m (fun x => k))
  (at level 61, m at next level, right associativity) : js_scope.
Notation "m ;; k" := (bind m (fun _ => k))
  (at level 61, right associativity) : js_scope.

Definition when (b : bool) (m : M unit) : M unit := if b then m else ret tt.

Section Plugin.

Context {host : Host}.

Local Open Scope js_scope.

(** *** Primitives of the host *)

Definition setMetadata (r : ref) (m : ChapyterCellMetadata) : M unit :=
  modify (fun w => logCall (SetMetadata r m) (withCell r (cell_setChapyterCell m) w)).

Definition setInputHidden (r : ref) (b : bool) : M unit :=
  modify (fun w => logCall (SetInputHidden r b) (withCell r (cell_setInputHidden b) w)).

Definition addClass (r : ref) (c : string) : M unit :=
  modify (fun w =>
    logCall (AddClass r c)
      (withCell r (fun x => cell_setClasses (classList_add c (classes x)) x) w)).

Definition removeClass (r : ref) (c : string) : M unit :=
  modify (fun w =>
    logCall (RemoveClass r c)
      (withCell r (fun x => cell_setClasses (classList_remove c (classes x)) x) w)).

Definition toggleClass (r : ref) (c : string) : M unit :=
  modify (fun w =>
    logCall (ToggleClass r c)
      (withCell r (fun x => cell_setClasses (classList_toggle c (classes x)) x) w)).

(** [notebook.activeCellIndex = v] *)
Definition setActiveCellIndex (v : Z) : M unit :=
  modify (fun w =>
    logCall (SetActiveCellIndex v)
      (withActiveCellIndex (clampIndex (List.length (widgets w)) v) w)).

Definition hiddenFlags (w : State) : list bool :=
  map (fun r => inputHidden (cells w r)) (widgets w).

(** [notebook.activeCell] is not null *)
Definition hasActiveCell (w : State) : bool :=
  (0 <=? activeCellIndex w) &&
  (activeCellIndex w <? Z.of_nat (List.length (widgets w))).

(** [NotebookActions.selectBelow(notebook)]: it returns at once without an
    active cell; its search for the last cell whose input is shown reads
    [widgets[-1].inputHidden] when every input is hidden. *)
Definition selectBelow : M unit :=
  modify (logCall SelectBelow) ;;
  activeCell <- gets hasActiveCell ;;
  if activeCell then
    hidden <- gets hiddenFlags ;;
    if forallb (fun h => h) hidden then throw TypeError
    else
      modify (fun w =>
        withActiveCellIndex
          (clampIndex (List.length (widgets w))
             (stepBelow hidden (activeCellIndex w))) w)
  else ret tt.

(** [NotebookActions.selectAbove(notebook)]: it returns at once without an
    active cell. *)
Definition selectAbove : M unit :=
  modify (logCall SelectAbove) ;;
  activeCell <- gets hasActiveCell ;;
  if activeCell then
    hidden <- gets hiddenFlags ;;
    modify (fun w =>
      withActiveCellIndex
        (clampIndex (List.length (widgets w))
           (stepAbove hidden (activeCellIndex w))) w)
  else ret tt.

(** [NotebookActions.run(notebook, sessionContext)]: the request is
    recorded; the kernel's reply arrives as a later event. *)
Definition run : M unit := modify (logCall Run).

(** [notebook.deselectAll()] *)
Definition deselectAll : M unit := modify (logCall DeselectAll).

(** [sharedModel.deleteCell(index)]: the widget list follows the document. *)
Definition sharedModel_deleteCell (index : nat) : M unit :=
  modify (fun w =>
    logCall (DeleteCellAt index) (withWidgets (removeAt index (widgets w)) w)).

(** [sharedModel.transact(f)] *)
Definition sharedModel_transact (f : M unit) : M unit :=
  modify (logCall TransactBegin) ;; f ;; modify (logCall TransactEnd).

(** [array.forEach(f)] *)
Fixpoint forEach {A : Type} (l : list A) (f : A -> M unit) : M unit :=
  match l with
  | [] => ret tt
  | x :: rest => f x ;; forEach rest f
  end.

(** [notebook.widgets[i].inputHidden]: reading a property of [undefined]
    throws. *)
Definition widgetInputHidden (i : Z) : M bool :=
  widget <-
    gets (fun w => if i <? 0 then None else nth_error (widgets w) (Z.to_nat i)) ;;
  match widget with
  | Some r => gets (fun w => inputHidden (cells w r))
  | None => throw TypeError
  end.

(** *** Selection navigator *)

(** [for (let i = ...; i < targetCellIndex; i++)], with [n] iterations left *)
Fixpoint selectCellById_below (n : nat) (i : Z) : M unit :=
  match n with
  | O => ret tt
  | S n' =>
      hidden <- widgetInputHidden i ;;
      when (negb hidden) selectBelow ;;
      selectCellById_below n' (i + 1)
  end.

(** [for (let i = ...; i > targetCellIndex; i--)], with [n] iterations left *)
Fixpoint selectCellById_above (n : nat) (i : Z) : M unit :=
  match n with
  | O => ret tt
  | S n' =>
      hidden <- widgetInputHidden i ;;
      when (negb hidden) selectAbove ;;
      selectCellById_above n' (i - 1)
  end.

(** [selectCellById] *)
Definition selectCellById (i : string) : M unit :=
  activeCellIndex <- gets activeCellIndex ;;
  targetCellIndex <- gets (fun w => findCellIndexById w i) ;;
  if negb (targetCellIndex =? -1) then
    if negb (activeCellIndex =? targetCellIndex) then
      if activeCellIndex <? targetCellIndex then
        selectCellById_below (Z.to_nat (targetCellIndex - activeCellIndex))
          activeCellIndex
      else
        selectCellById_above (Z.to_nat (activeCellIndex - targetCellIndex))
          activeCellIndex
    else ret tt
  else ret tt.

(** *** Cell deleter *)

(** The [forEach] over [notebook.widgets]: the indices pushed to
    [toDelete], in increasing order. *)
Fixpoint toDelete_from (cs : ref -> Cell) (cell : ref) (ws : list ref)
  (index : nat) : list nat :=
  match ws with
  | [] => []
  | child :: rest =>
      if Nat.eqb child cell then
        let deletable := isDeletable (cs child) in
        if deletable then index :: toDelete_from cs cell rest (S index)
        else toDelete_from cs cell rest (S index)
      else toDelete_from cs cell rest (S index)
  end.

Definition toDelete (w : State) (cell : ref) : list nat :=
  toDelete_from (cells w) cell (widgets w) 0.

Definition pushDeleted (i : string) : M unit :=
  modify (fun w => logCall (PushDeleted i) (withDeletedCells (deletedCells w ++ [i]) w)).

(** [deleteCell] *)
Definition deleteCell (cell : ref) : M unit :=
  toDelete <- gets (fun w => toDelete w cell) ;;
  cellId <- gets (fun w => id (cells w cell)) ;;
  forEach toDelete (fun _ => pushDeleted cellId) ;;
  when (0 <? Z.of_nat (List.length toDelete))
    (let toDelete := rev toDelete in
     sharedModel_transact (forEach toDelete sharedModel_deleteCell) ;;
     setActiveCellIndex
       (Z.of_nat (hd O toDelete) - Z.of_nat (List.length toDelete) + 1)) ;;
  deselectAll.

(** *** Orchestrator *)

Record ExecutedArgs : Type := mkArgs { cell : ref; success : bool }.

Definition getChapyterCell (r : ref) : M (option ChapyterCellMetadata) :=
  gets (fun w => ChapyterCell (cells w r)).

Definition getId (r : ref) : M string := gets (fun w => id (cells w r)).

(** The block under [if (assistanceCell)] of the [executed] handler; its
    [console.log] is left out. *)
Definition linkAssistanceCell (chatCell : ref) (inSafeMode : bool)
  (assistanceCell : ref) : M unit :=
  chatId <- getId chatCell ;;
  setMetadata assistanceCell (mkMeta (Some chatId) generated) ;;
  when (negb inSafeMode)
    (assistanceId <- getId assistanceCell ;;
     selectCellById assistanceId ;;
     run ;;
     setInputHidden assistanceCell true) ;;
  assistanceId <- getId assistanceCell ;;
  selectCellById assistanceId ;;
  when (negb inSafeMode) selectBelow ;;
  assistanceId <- getId assistanceCell ;;
  setMetadata chatCell (mkMeta (Some assistanceId) original) ;;
  addClass chatCell CHAPYTER_CHAT_CELL ;;
  removeClass chatCell CHAPYTER_CHAT_CELL_EXECUTING ;;
  addClass assistanceCell CHAPYTER_ASSISTANCE_CELL.

(** The handler connected to [NotebookActions.executed] *)
Definition onExecuted (args : ExecutedArgs) : M unit :=
  if success args then
    let chatCell := cell args in
    magic <- gets (fun w => isCellChapyterMagicCell (cells w chatCell) true) ;;
    notGenerated <- gets (fun w => isCellNotGenerated (cells w chatCell)) ;;
    if magic && notGenerated then
      metadata <- getChapyterCell chatCell ;;
      match metadata with
      | None => setMetadata chatCell (mkMeta None original)
      | Some _ => ret tt
      end ;;
      inSafeMode <-
        gets (fun w => isCellChapyterMagicCellSafeMode (cells w chatCell)) ;;
      notebook <- gets currentWidget ;;
      if notebook then
        executionCount <- gets (fun w => executionCount (cells w chatCell)) ;;
        (* the search is put on record *)
        modify (logCall (SearchTemplate (ofExecutionCount executionCount))) ;;
        assistanceCell <-
          gets (fun w =>
                  findCellByTemplateString w (ofExecutionCount executionCount)) ;;
        match assistanceCell with
        | Some assistanceCell => linkAssistanceCell chatCell inSafeMode assistanceCell
        | None => ret tt
        end
      else ret tt
    else ret tt
  else ret tt.

(** The handler connected to [NotebookActions.executionScheduled] *)
Definition onExecutionScheduled (chatCell : ref) : M unit :=
  magic <- gets (fun w => isCellChapyterMagicCell (cells w chatCell) false) ;;
  notGenerated <- gets (fun w => isCellNotGenerated (cells w chatCell)) ;;
  if magic && notGenerated then
    toggleClass chatCell CHAPYTER_CHAT_CELL_EXECUTING ;;
    metadata <- getChapyterCell chatCell ;;
    let linkedCellId :=
      match metadata with Some m => linkedCellId m | None => None end in
    notebook <- gets currentWidget ;;
    if notebook then
      match linkedCellId with
      | Some linkedCellId =>
          if Str.truthy linkedCellId then
            (* the search is put on record *)
            modify (logCall (SearchId linkedCellId)) ;;
            linkedCell <- gets (fun w => findCellById w linkedCellId) ;;
            match linkedCell with
            | Some linkedCell =>
                deleteCell linkedCell ;;
                chatId <- getId chatCell ;;
                selectCellById chatId
            | None => ret tt
            end
          else ret tt
      | None => ret tt
      end
    else ret tt
  else ret tt.

End Plugin.

(** ** Vocabulary of the specification *)

(** The cursor is on a cell, or the notebook is empty and there is none. *)
Definition cursor_wf (w : State) : Prop :=
  (widgets w = [] /\ activeCellIndex w = -1) \/
  (0 <= activeCellIndex w < Z.of_nat (List.length (widgets w))).

(** The input of the widget at position [j] is shown. *)
Definition shownIn (hs : list bool) (j : Z) : Prop :=
  0 <= j /\ nth_error hs (Z.to_nat j) = Some false.

(** A step of the host lands on the nearest cell, in its direction, whose
    input is shown, when there is one. *)
Definition skipsHidden (host : Host) : Prop :=
  forall (hs : list bool) (i j : Z),
    shownIn hs j ->
    (forall k, Z.min i j < k < Z.max i j -> ~ shownIn hs k) ->
    (0 <= i < j -> stepBelow hs i = j) /\
    (j < i < Z.of_nat (List.length hs) -> stepAbove hs i = j).

(** The widget at position [j] of the notebook shows its input. *)
Definition inputShownAt (w : State) (j : Z) : bool :=
  (0 <=? j) &&
  match nth_error (widgets w) (Z.to_nat j) with
  | Some r => negb (inputHidden (cells w r))
  | None => false
  end.

(** Every widget other than [a] has its input hidden. *)
Definition othersHidden (w : State) (a : ref) : bool :=
  forallb (fun r => Nat.eqb r a || inputHidden (cells w r)) (widgets w).

(** The cells whose input region is shown among the [n] widgets from
    position [lo] on. *)
Definition visibleFrom (w : State) (lo n : nat) : list ref :=
  filter (fun r => negb (inputHidden (cells w r))) (firstn n (skipn lo (widgets w))).

(** The steps that the navigation to the cell with id [i] calls for: one
    step towards the target for each position, from the cursor up to but
    excluding the target, whose cell shows its input. *)
Definition selectCellById_calls (w : State) (i : string) : list Call :=
  let a := activeCellIndex w in
  let t := findCellIndexById w i in
  if (t =? -1) || (a =? t) then []
  else if a <? t then
    repeat SelectBelow
      (List.length (visibleFrom w (Z.to_nat a) (Z.to_nat (t - a))))
  else
    repeat SelectAbove
      (List.length (visibleFrom w (Z.to_nat (t + 1)) (Z.to_nat (a - t)))).

(** A cell tagged as the generated cell of the trigger with id [tid]. *)
Definition isLinkedGenerated (c : Cell) (tid : string) : bool :=
  match ChapyterCell c with
  | Some m =>
      match cellType m, linkedCellId m with
      | generated, Some l => String.eqb l tid
      | _, _ => false
      end
  | None => false
  end.

(** The generated cells of the notebook linked to the trigger [tid]. *)
Definition linkedGenerated (w : State) (tid : string) : list ref :=
  filter (fun r => isLinkedGenerated (cells w r) tid) (widgets w).

(** Two states with the same cell objects, tracker and document: they differ
    at most in the cursor and in the record of calls. *)
Definition sameNotebook (w w' : State) : Prop :=
  cells w' = cells w /\
  currentWidget w' = currentWidget w /\
  widgets w' = widgets w /\
  deletedCells w' = deletedCells w.

(** The fields of the cells that the plugin never writes. *)
Definition sameCellData (w w' : State) : Prop :=
  forall r,
    id (cells w' r) = id (cells w r) /\
    type (cells w' r) = type (cells w r) /\
    source (cells w' r) = source (cells w r) /\
    executionCount (cells w' r) = executionCount (cells w r) /\
    deletable (cells w' r) = deletable (cells w r).

(** ** Final states

    The states in which the loops of [deleteCell], [deleteCell] itself and
    the first step of the [executed] handler end. *)

Definition deleteAll (l : list nat) (w : State) : State :=
  fold_left
    (fun w index =>
       logCall (DeleteCellAt index) (withWidgets (removeAt index (widgets w)) w))
    l w.

Definition pushAll (n : nat) (i : string) (w : State) : State :=
  Nat.iter n
    (fun w => logCall (PushDeleted i) (withDeletedCells (deletedCells w ++ [i]) w))
    w.

Definition deleteCell_final (cell : ref) (w : State) : State :=
  let toDelete := toDelete w cell in
  let w1 := pushAll (List.length toDelete) (id (cells w cell)) w in
  let w2 :=
    if 0 <? Z.of_nat (List.length toDelete) then
      let toDelete := rev toDelete in
      let w3 := logCall TransactEnd (deleteAll toDelete (logCall TransactBegin w1)) in
      let v := Z.of_nat (hd O toDelete) - Z.of_nat (List.length toDelete) + 1 in
      logCall (SetActiveCellIndex v)
        (withActiveCellIndex (clampIndex (List.length (widgets w3)) v) w3)
    else w1 in
  logCall DeselectAll w2.

(** The state after the [executed] handler has tagged a trigger that had
    no [ChapyterCell] metadata. *)
Definition tagOriginal (t : ref) (w : State) : State :=
  match ChapyterCell (cells w t) with
  | None =>
      logCall (SetMetadata t (mkMeta None original))
        (withCell t (cell_setChapyterCell (mkMeta None original)) w)
  | Some _ => w
  end.

(** The calls of that tagging. *)
Definition tagOriginal_calls (t : ref) (w : State) : list Call :=
  match ChapyterCell (cells w t) with
  | None => [SetMetadata t (mkMeta None original)]
  | Some _ => []
  end.

(** ** Weakest preconditions

    [wp m w Q]: from [w] the computation [m] returns normally, with a value
    and in a state that satisfy [Q]. *)
Definition wp {A : Type} (m : M A) (w : State) (Q : A -> State -> Prop) : Prop :=
  exists a w', m w = (Normal a, w') /\ Q a w'.

(** [wpx m w Q E]: from [w] the computation [m] returns normally, with a
    value and in a state that satisfy [Q], or throws in a state that
    satisfies [E]. *)
Definition wpx {A : Type} (m : M A) (w : State) (Q : A -> State -> Prop)
  (E : State -> Prop) : Prop :=
  match m w with
  | (Normal a, w') => Q a w'
  | (Thrown _, w') => E w'
  end.

(** ** Sample notebooks *)

Module Sample.

Definition plain (i src : string) : Cell :=
  mkCell i code src None None None false [].

(** The cell objects [0], [1], ... are the cells of [l]. *)
Definition store (l : list Cell) : ref -> Cell :=
  fun r => nth r l (plain "" "").

Definition notebook (l : list Cell) (ws : list ref) (active : Z) : State :=
  mkState (store l) true ws active [] [].

End Sample.

Module Rerun.

(** A trigger cell that has been run once: it is linked to the generated
    cell [1]; the cell [2] is the answer of the second run, not yet in the
    notebook.  [answerDeletable] is the [deletable] metadata of the first
    generated cell. *)
Definition store (answerDeletable : option bool) : ref -> Cell :=
  Sample.store
    [mkCell "t" code "%chat plot the data" (Some 1)
       (Some (mkMeta (Some "g1") original)) None false [];
     mkCell "g1" code "# Assistant Code for Cell [1]:
plot(data)" None
       (Some (mkMeta (Some "t") generated)) answerDeletable false [];
     mkCell "g2" code "# Assistant Code for Cell [2]:
plot(data, style)" None None None false []].

Definition before (answerDeletable : option bool) : State :=
  mkState (store answerDeletable) true [0%nat; 1%nat] 0 [] [].

(** The host has run the trigger a second time: its execution count is 2
    and, when [answered], the new answer sits right below it. *)
Definition kernelRan (answered : bool) (w : State) : State :=
  withWidgets
    (match widgets w with
     | trigger :: rest => if answered then trigger :: 2%nat :: rest else widgets w
     | [] => []
     end)
    (withCell 0%nat (cell_setExecutionCount (Some 2)) w).

End Rerun.

(** ** Vocabulary of the further properties *)

(** No character of [s] is a closing bracket. *)
Fixpoint noClosingBracket (s : string) : bool :=
  match s with
  | EmptyString => true
  | String c rest => negb (Ascii.eqb c "]"%char) && noClosingBracket rest
  end.

(** [cell.model.getMetadata('ChapyterCell')?.linkedCellId] *)
Definition linkedCellIdOf (c : Cell) : option string :=
  match ChapyterCell c with
  | Some m => linkedCellId m
  | None => None
  end.

(** The cell that the [executionScheduled] handler of the trigger [t] hands
    to [deleteCell], if any. *)
Definition scheduledTarget (w : State) (t : ref) : option ref :=
  if currentWidget w then
    match linkedCellIdOf (cells w t) with
    | Some l => if Str.truthy l then findCellById w l else None
    | None => None
    end
  else None.

(** * Properties *)

(** ** The monad *)

Lemma bind_gets {A B : Type} (f : State -> A) (k : A -> M B) (w : State) :
  bind (gets f) k w = k (f w) w.
Proof. reflexivity. Qed.

Lemma bind_modify {B : Type} (f : State -> State) (k : unit -> M B) (w : State) :
  bind (modify f) k w = k tt (f w).
Proof. reflexivity. Qed.

Lemma bind_normal {A B : Type} (m : M A) (k : A -> M B) (w w' : State) (a : A) :
  m w = (Normal a, w') -> bind m k w = k a w'.
Proof. intros H. unfold bind. rewrite H. reflexivity. Qed.

Lemma bind_thrown {A B : Type} (m : M A) (k : A -> M B) (w w' : State)
  (e : JsError) :
  m w = (Thrown e, w') -> bind m k w = (Thrown e, w').
Proof. intros H. unfold bind. rewrite H. reflexivity. Qed.

(** ** Strings *)

Lemma prefix_append_l (p q s : string) :
  String.prefix (String.append p q) s = true -> String.prefix p s = true.
Proof.
  revert s; induction p as [|a p IH]; intros s H.
  - destruct s; reflexivity.
  - destruct s as [|b s]; simpl in *; [discriminate|].
    destruct (ascii_dec a b); [auto | discriminate].
Qed.

Lemma startsWith_chatonly_chat (s : string) :
  Str.startsWith s "%%chatonly" = true -> Str.startsWith s "%%chat" = true.
Proof.
  unfold Str.startsWith. apply (prefix_append_l "%%chat" "only").
Qed.

Lemma prefix_head (a b : ascii) (p s : string) :
  a <> b -> String.prefix (String a p) (String b s) = false.
Proof.
  intros Hab; simpl. destruct (ascii_dec a b); [contradiction | reflexivity].
Qed.

Lemma prefix_inv_head (a : ascii) (p s : string) :
  String.prefix (String a p) s = true -> exists rest, s = String a rest.
Proof.
  destruct s as [|b s]; simpl; [discriminate|].
  destruct (ascii_dec a b); [subst; eauto | discriminate].
Qed.

(** A magic cell begins with a percent sign, the marker with a hash: no
    cell is both. *)
Lemma magic_not_template (c : Cell) (strict : bool) (e : ExecutionId) :
  isCellChapyterMagicCell c strict = true -> matchesTemplate c e = false.
Proof.
  unfold isCellChapyterMagicCell, matchesTemplate, Str.startsWith.
  intros H.
  assert (Hs : exists rest, source c = String "%"%char rest).
  { destruct (String.prefix "%chat" (source c)) eqn:E1.
    - apply prefix_inv_head in E1; exact E1.
    - destruct (String.prefix "%%chat" (source c)) eqn:E2.
      + apply prefix_inv_head in E2; exact E2.
      + simpl in H; discriminate. }
  destruct Hs as [rest ->].
  apply andb_false_intro2.
  cbn [Str.firstLine].
  replace (Ascii.eqb "%"%char Str.newline) with false by reflexivity.
  unfold searchTemplate. cbn [String.append].
  apply prefix_head. discriminate.
Qed.

(** ** Magic detector *)

(** C2: [isCellChapyterMagicCell] is true exactly when the text starts
    with [%chat] or [%%chat] and, besides, it does not start with
    [%%chatonly] or [strict] is false.  So a [%%chatonly] cell is a magic
    cell without [strict] and none with it, and without [strict] the
    [%chat]/[%%chat] prefix alone decides. *)
Theorem isCellChapyterMagicCell_spec (c : Cell) (strict : bool) :
  (isCellChapyterMagicCell c strict = true <->
     (Str.startsWith (source c) "%chat" = true \/
      Str.startsWith (source c) "%%chat" = true) /\
     (Str.startsWith (source c) "%%chatonly" = false \/ strict = false)) /\
  (Str.startsWith (source c) "%%chatonly" = true ->
     isCellChapyterMagicCell c true = false /\
     isCellChapyterMagicCell c false = true) /\
  (Str.startsWith (source c) "%chat" = true \/
   Str.startsWith (source c) "%%chat" = true ->
     isCellChapyterMagicCell c false = true).
Proof.
  unfold isCellChapyterMagicCell; cbv zeta.
  split; [|split].
  - destruct (Str.startsWith (source c) "%chat") eqn:E1,
             (Str.startsWith (source c) "%%chat") eqn:E2,
             (Str.startsWith (source c) "%%chatonly") eqn:E3,
             strict; simpl; intuition congruence.
  - intros H. rewrite H, (startsWith_chatonly_chat _ H).
    rewrite orb_true_r. simpl. auto.
  - intros [H|H]; rewrite H; [|rewrite orb_true_r]; simpl;
      rewrite orb_true_r; reflexivity.
Qed.

Lemma isCellChapyterMagicCell_spec_witness :
  let c := Sample.plain "a" "%%chatonly what is 2+2" in
  Str.startsWith (source c) "%%chatonly" = true /\
  isCellChapyterMagicCell c true = false /\
  isCellChapyterMagicCell c false = true.
Proof.
  intros c. split; [reflexivity|].
  apply (proj1 (proj2 (isCellChapyterMagicCell_spec c true))). reflexivity.
Defined.

(** ** Cell locator *)

(** C10: [findCellByTemplateString] returns [null] for every falsy
    [executionId], in particular for the number 0, even when a code cell of
    the notebook begins with the marker for cell 0. *)
Theorem findCellByTemplateString_zero :
  (forall w, findCellByTemplateString w (EidNumber 0) = None) /\
  (forall w e, truthyExecutionId e = false -> findCellByTemplateString w e = None) /\
  (let w := Sample.notebook
              [Sample.plain "a" "%chat hello";
               Sample.plain "b" "# Assistant Code for Cell [0]:
print(1)"] [0%nat; 1%nat] 0 in
   In 1%nat (widgets w) /\
   type (cells w 1%nat) = code /\
   Str.startsWith (Str.firstLine (source (cells w 1%nat)))
     "# Assistant Code for Cell [0]:" = true /\
   matchesTemplate (cells w 1%nat) (EidNumber 0) = true /\
   findCellByTemplateString w (EidNumber 0) = None).
Proof.
  split; [|split].
  - reflexivity.
  - intros w e H. unfold findCellByTemplateString. rewrite H. reflexivity.
  - cbv zeta. repeat split; try reflexivity. simpl; auto.
Qed.

(** ** Events that the plugin ignores *)

(** C6: an [executed] event whose success flag is false changes nothing:
    the handler returns with the cell store, the notebook and the record of
    calls (metadata writes, searches, steps, runs) as they were. *)
Theorem onExecuted_failure_noop (host : Host) (w : State) (r : ref) :
  onExecuted (mkArgs r false) w = (Normal tt, w).
Proof. reflexivity. Qed.

(** C7: for a cell whose text starts with neither [%chat] nor [%%chat],
    both handlers return with the cell store, the widget list, the cursor
    and the record of calls as they were. *)
Theorem non_magic_cell_untouched (host : Host) (w : State) (r : ref) (ok : bool) :
  Str.startsWith (source (cells w r)) "%chat" = false ->
  Str.startsWith (source (cells w r)) "%%chat" = false ->
  onExecutionScheduled r w = (Normal tt, w) /\
  onExecuted (mkArgs r ok) w = (Normal tt, w).
Proof.
  intros H1 H2.
  assert (Hm : forall s, isCellChapyterMagicCell (cells w r) s = false).
  { intros s. unfold isCellChapyterMagicCell. cbv zeta. rewrite H1, H2. reflexivity. }
  split.
  - unfold onExecutionScheduled, bind, gets. rewrite Hm. reflexivity.
  - unfold onExecuted. destruct ok; [|reflexivity].
    cbn [success cell]. unfold bind, gets. rewrite Hm. reflexivity.
Qed.

Lemma non_magic_cell_untouched_witness :
  let w := Sample.notebook
             [Sample.plain "a" "print(1)"; Sample.plain "b" "x = 2"]
             [0%nat; 1%nat] 0 in
  onExecutionScheduled (host := jupyterHost) 0%nat w = (Normal tt, w) /\
  onExecuted (host := jupyterHost) (mkArgs 0%nat true) w = (Normal tt, w).
Proof.
  intros w. apply (non_magic_cell_untouched jupyterHost w 0%nat true); reflexivity.
Defined.

(** ** Cell deleter *)

Lemma removeAt_app {A : Type} (pre : list A) (x : A) (l : list A) :
  removeAt (List.length pre) (pre ++ x :: l) = pre ++ l.
Proof. induction pre as [|y pre IH]; simpl; [reflexivity | now rewrite IH]. Qed.

Lemma hd_rev_last {A : Type} (l : list A) (d : A) : hd d (rev l) = last l d.
Proof.
  destruct l as [|x l] using rev_ind; [reflexivity|].
  rewrite rev_app_distr, last_last. reflexivity.
Qed.

Lemma toDelete_from_undeletable cs cell ws k :
  isDeletable (cs cell) = false -> toDelete_from cs cell ws k = [].
Proof.
  intros Hd; revert k; induction ws as [|x ws IH]; intros k; simpl; [reflexivity|].
  destruct (Nat.eqb_spec x cell) as [->|_]; [|apply IH].
  rewrite Hd. apply IH.
Qed.

Lemma toDelete_from_nil_iff cs cell ws k :
  toDelete_from cs cell ws k = [] <->
  (isDeletable (cs cell) = false \/ ~ In cell ws).
Proof.
  split.
  - revert k; induction ws as [|x ws IH]; intros k H; simpl in *; [tauto|].
    destruct (Nat.eqb_spec x cell) as [->|Hne].
    + destruct (isDeletable (cs cell)); [discriminate | auto].
    + destruct (IH _ H) as [Hd|Hn]; [auto | right; intros [?|?]; auto].
  - intros [Hd|Hn]; [now apply toDelete_from_undeletable|].
    revert k; induction ws as [|x ws IH]; intros k; simpl; [reflexivity|].
    destruct (Nat.eqb_spec x cell) as [->|Hne]; [exfalso; apply Hn; now left|].
    apply IH. intros Hin; apply Hn; now right.
Qed.

(** Deleting the collected positions, highest first, removes every
    occurrence of the cell and nothing else. *)
Lemma removeAt_toDelete_from cs cell ws pre :
  isDeletable (cs cell) = true ->
  fold_left (fun l i => removeAt i l)
    (rev (toDelete_from cs cell ws (List.length pre))) (pre ++ ws)
  = pre ++ filter (fun r => negb (Nat.eqb r cell)) ws.
Proof.
  intros Hd; revert pre; induction ws as [|x ws IH]; intros pre; simpl;
    [reflexivity|].
  specialize (IH (pre ++ [x])).
  rewrite length_app, Nat.add_1_r, <- app_assoc in IH; simpl in IH.
  destruct (Nat.eqb_spec x cell) as [->|Hne]; simpl.
  - rewrite Hd; simpl; rewrite fold_left_app, IH; simpl.
    rewrite <- app_assoc; simpl; apply removeAt_app.
  - rewrite IH, <- app_assoc. reflexivity.
Qed.

Lemma toDelete_from_length cs cell ws k :
  (List.length (toDelete_from cs cell ws k)
   + List.length (filter (fun r => negb (Nat.eqb r cell)) ws)
   <= List.length ws)%nat.
Proof.
  revert k; induction ws as [|x ws IH]; intros k; simpl; [lia|].
  specialize (IH (S k)).
  destruct (Nat.eqb_spec x cell) as [->|Hne]; simpl;
    [destruct (isDeletable (cs cell)); simpl|]; lia.
Qed.

Lemma toDelete_from_length_deletable cs cell ws k :
  isDeletable (cs cell) = true ->
  (List.length (toDelete_from cs cell ws k)
   + List.length (filter (fun r => negb (Nat.eqb r cell)) ws)
   = List.length ws)%nat.
Proof.
  intros Hd; revert k; induction ws as [|x ws IH]; intros k; simpl; [lia|].
  specialize (IH (S k)).
  destruct (Nat.eqb_spec x cell) as [->|Hne]; simpl;
    [rewrite Hd; simpl|]; lia.
Qed.

(** The collected positions increase: the last one is at least the first
    plus the number of the others, and lies inside the list. *)
Lemma toDelete_from_last cs cell ws k :
  toDelete_from cs cell ws k <> [] ->
  (k + List.length (toDelete_from cs cell ws k) - 1
   <= last (toDelete_from cs cell ws k) O < k + List.length ws)%nat.
Proof.
  revert k; induction ws as [|x ws IH]; intros k; simpl; [congruence|].
  specialize (IH (S k)).
  assert (Hcons : forall t, t = toDelete_from cs cell ws (S k) ->
            (t <> [] -> (S k + List.length t - 1 <= last t O < S k + List.length ws)%nat) ->
            (k + List.length (k :: t) - 1 <= last (k :: t) O < k + S (List.length ws))%nat).
  { intros t _ Ht. destruct t as [|y t]; [simpl; lia|].
    change (last (k :: y :: t) O) with (last (y :: t) O).
    assert (y :: t <> []) by discriminate. specialize (Ht H).
    simpl List.length in *. lia. }
  destruct (Nat.eqb_spec x cell) as [->|Hne].
  - destruct (isDeletable (cs cell)); intros H;
      solve [ apply (Hcons _ eq_refl IH) | specialize (IH H); lia ].
  - intros H; specialize (IH H); lia.
Qed.

Lemma forEach_pushDeleted (l : list nat) (i : string) (w : State) :
  forEach l (fun _ => pushDeleted i) w = (Normal tt, pushAll (List.length l) i w).
Proof.
  revert w; induction l as [|x l IH]; intros w; [reflexivity|].
  simpl forEach. unfold bind. unfold pushDeleted at 1, modify at 1.
  rewrite IH. unfold pushAll. simpl List.length. rewrite Nat.iter_succ_r.
  reflexivity.
Qed.

Lemma forEach_sharedModel_deleteCell (l : list nat) (w : State) :
  forEach l sharedModel_deleteCell w = (Normal tt, deleteAll l w).
Proof.
  revert w; induction l as [|x l IH]; intros w; [reflexivity|].
  simpl forEach. unfold bind. unfold sharedModel_deleteCell at 1, modify at 1.
  rewrite IH. reflexivity.
Qed.

Lemma deleteCell_eq (cell : ref) (w : State) :
  deleteCell cell w = (Normal tt, deleteCell_final cell w).
Proof.
  unfold deleteCell, deleteCell_final, bind, gets.
  rewrite forEach_pushDeleted. cbv zeta.
  destruct (0 <? Z.of_nat (List.length (toDelete w cell))); simpl when.
  - unfold sharedModel_transact, bind, modify, setActiveCellIndex, modify, deselectAll.
    rewrite forEach_sharedModel_deleteCell. reflexivity.
  - reflexivity.
Qed.

Lemma pushAll_frame n i w :
  cells (pushAll n i w) = cells w /\
  currentWidget (pushAll n i w) = currentWidget w /\
  widgets (pushAll n i w) = widgets w /\
  activeCellIndex (pushAll n i w) = activeCellIndex w.
Proof.
  unfold pushAll. induction n as [|n IH]; [auto|].
  rewrite Nat.iter_succ. simpl. exact IH.
Qed.

Lemma deleteAll_frame l w :
  cells (deleteAll l w) = cells w /\
  currentWidget (deleteAll l w) = currentWidget w /\
  widgets (deleteAll l w) = fold_left (fun ws i => removeAt i ws) l (widgets w) /\
  activeCellIndex (deleteAll l w) = activeCellIndex w.
Proof.
  unfold deleteAll. revert w; induction l as [|x l IH]; intros w; [simpl; auto|].
  simpl fold_left. destruct (IH (logCall (DeleteCellAt x)
                                   (withWidgets (removeAt x (widgets w)) w)))
    as (H1 & H2 & H3 & H4).
  rewrite H1, H2, H3, H4. simpl. auto.
Qed.

Lemma clampIndex_wf (ws : list ref) (v : Z) :
  (ws = [] /\ clampIndex (List.length ws) v = -1) \/
  (0 <= clampIndex (List.length ws) v < Z.of_nat (List.length ws)).
Proof.
  destruct ws as [|x ws]; [left; auto|right].
  unfold clampIndex. cbn [List.length]. lia.
Qed.

Lemma clampIndex_id (n : nat) (v : Z) :
  0 <= v < Z.of_nat n -> clampIndex n v = v.
Proof. destruct n; unfold clampIndex; lia. Qed.

Lemma toDelete_nonempty_deletable w cell :
  toDelete w cell <> [] -> isDeletable (cells w cell) = true /\ In cell (widgets w).
Proof.
  intros H. unfold toDelete in H.
  destruct (isDeletable (cells w cell)) eqn:Hd.
  - split; [reflexivity|].
    destruct (in_dec Nat.eq_dec cell (widgets w)) as [Hin|Hn]; [exact Hin|].
    exfalso; apply H. apply toDelete_from_nil_iff; auto.
  - exfalso; apply H. apply toDelete_from_nil_iff; auto.
Qed.

Lemma filter_not_in (cell : ref) (ws : list ref) :
  ~ In cell ws -> filter (fun r => negb (Nat.eqb r cell)) ws = ws.
Proof.
  induction ws as [|x ws IH]; intros Hn; simpl; [reflexivity|].
  destruct (Nat.eqb_spec x cell) as [->|Hne]; simpl.
  - exfalso; apply Hn; now left.
  - rewrite IH; [reflexivity | intros Hin; apply Hn; now right].
Qed.

Lemma deleteCell_final_frame (cell : ref) (w : State) :
  cells (deleteCell_final cell w) = cells w /\
  currentWidget (deleteCell_final cell w) = currentWidget w.
Proof.
  unfold deleteCell_final. cbv zeta.
  destruct (0 <? Z.of_nat (List.length (toDelete w cell))); simpl;
    repeat match goal with
           | |- context [cells (deleteAll ?l ?x)] =>
               rewrite (proj1 (deleteAll_frame l x))
           | |- context [currentWidget (deleteAll ?l ?x)] =>
               rewrite (proj1 (proj2 (deleteAll_frame l x)))
           end; simpl;
    split; apply pushAll_frame.
Qed.

(** The widgets left by [deleteCell]: every occurrence of a deletable cell
    is gone, an undeletable cell stays. *)
Lemma deleteCell_final_widgets (cell : ref) (w : State) :
  widgets (deleteCell_final cell w) =
  if isDeletable (cells w cell)
  then filter (fun r => negb (Nat.eqb r cell)) (widgets w)
  else widgets w.
Proof.
  unfold deleteCell_final. cbv zeta.
  destruct (0 <? Z.of_nat (List.length (toDelete w cell))) eqn:E; simpl.
  - assert (Hne : toDelete w cell <> []).
    { intros H0; rewrite H0 in E; discriminate. }
    destruct (toDelete_nonempty_deletable _ _ Hne) as [Hd _]. rewrite Hd.
    rewrite (proj1 (proj2 (proj2 (deleteAll_frame _ _)))). simpl.
    rewrite (proj1 (proj2 (proj2 (pushAll_frame _ _ _)))).
    apply (removeAt_toDelete_from (cells w) cell (widgets w) [] Hd).
  - rewrite (proj1 (proj2 (proj2 (pushAll_frame _ _ _)))).
    destruct (isDeletable (cells w cell)) eqn:Hd; [|reflexivity].
    symmetry; apply filter_not_in.
    assert (H0 : toDelete w cell = []).
    { destruct (toDelete w cell); [reflexivity | simpl in E; discriminate]. }
    apply toDelete_from_nil_iff in H0. destruct H0; [congruence | assumption].
Qed.

Lemma deleteCell_final_activeCellIndex (cell : ref) (w : State) :
  activeCellIndex (deleteCell_final cell w) =
  match toDelete w cell with
  | [] => activeCellIndex w
  | _ :: _ =>
      clampIndex (List.length (widgets (deleteCell_final cell w)))
        (Z.of_nat (last (toDelete w cell) O)
         - Z.of_nat (List.length (toDelete w cell)) + 1)
  end.
Proof.
  unfold deleteCell_final. cbv zeta.
  destruct (toDelete w cell) as [|i l] eqn:E.
  - reflexivity.
  - replace (0 <? Z.of_nat (List.length (i :: l))) with true
      by (symmetry; apply Z.ltb_lt; simpl List.length; lia).
    cbn [activeCellIndex widgets logCall withActiveCellIndex].
    rewrite hd_rev_last, length_rev. reflexivity.
Qed.

Lemma deleteCell_final_cursor_wf (cell : ref) (w : State) :
  cursor_wf w -> cursor_wf (deleteCell_final cell w).
Proof.
  intros Hwf. unfold cursor_wf.
  rewrite deleteCell_final_activeCellIndex.
  destruct (toDelete w cell) as [|i l] eqn:E.
  - rewrite deleteCell_final_widgets.
    destruct (isDeletable (cells w cell)) eqn:Hd; [|exact Hwf].
    rewrite filter_not_in; [exact Hwf|].
    apply toDelete_from_nil_iff in E. destruct E; [congruence | assumption].
  - apply clampIndex_wf.
Qed.

(** The note in the source: when the last cell is deleted the value
    assigned is one past the end, and the previous cell becomes active. *)
Example deleteCell_last_cell :
  let w := Sample.notebook
             [Sample.plain "a" "1"; Sample.plain "b" "2"; Sample.plain "c" "3"]
             [0%nat; 1%nat; 2%nat] 0 in
  trace (deleteCell_final 2%nat w) =
    [PushDeleted "c"; TransactBegin; DeleteCellAt 2; TransactEnd;
     SetActiveCellIndex 2; DeselectAll] /\
  widgets (deleteCell_final 2%nat w) = [0%nat; 1%nat] /\
  activeCellIndex (deleteCell_final 2%nat w) = 1.
Proof. repeat split. Qed.

(** C1, amended: when [deleteCell] removes at least one position, it
    returns with every occurrence of the cell removed and the cursor set to
    [lastDeletedIndex - deletedCount + 1], where [lastDeletedIndex] is the
    largest original index deleted; the host clamps the value to the cells
    left, so the cursor is exactly that value whenever a cell follows the
    last deleted position. *)
Theorem deleteCell_activeCellIndex (w : State) (c : ref) :
  toDelete w c <> [] ->
  exists w',
    deleteCell c w = (Normal tt, w') /\
    let lastDeletedIndex := Z.of_nat (last (toDelete w c) O) in
    let deletedCount := Z.of_nat (List.length (toDelete w c)) in
    widgets w' = filter (fun r => negb (Nat.eqb r c)) (widgets w) /\
    Z.of_nat (List.length (widgets w')) =
      Z.of_nat (List.length (widgets w)) - deletedCount /\
    activeCellIndex w' =
      clampIndex (List.length (widgets w')) (lastDeletedIndex - deletedCount + 1) /\
    (lastDeletedIndex + 1 < Z.of_nat (List.length (widgets w)) ->
     activeCellIndex w' = lastDeletedIndex - deletedCount + 1).
Proof.
  intros Hne. exists (deleteCell_final c w). split; [apply deleteCell_eq|].
  cbv zeta.
  destruct (toDelete_nonempty_deletable _ _ Hne) as [Hd _].
  pose proof (deleteCell_final_widgets c w) as Hw. rewrite Hd in Hw.
  pose proof (toDelete_from_length_deletable (cells w) c (widgets w) O Hd) as Hlen.
  pose proof (toDelete_from_last (cells w) c (widgets w) O Hne) as Hlast.
  fold (toDelete w c) in Hlen, Hlast.
  pose proof (deleteCell_final_activeCellIndex c w) as Ha.
  assert (Hc : activeCellIndex (deleteCell_final c w) =
               clampIndex (List.length (widgets (deleteCell_final c w)))
                 (Z.of_nat (last (toDelete w c) O)
                  - Z.of_nat (List.length (toDelete w c)) + 1)).
  { destruct (toDelete w c); [congruence | exact Ha]. }
  assert (Hl : Z.of_nat (List.length (widgets (deleteCell_final c w))) =
               Z.of_nat (List.length (widgets w))
               - Z.of_nat (List.length (toDelete w c))).
  { rewrite Hw. lia. }
  repeat split; try assumption.
  intros Hlt. rewrite Hc. apply clampIndex_id. lia.
Qed.

Lemma deleteCell_activeCellIndex_witness :
  let w := Sample.notebook
             [Sample.plain "a" "1"; Sample.plain "b" "2"; Sample.plain "c" "3"]
             [0%nat; 1%nat; 2%nat] 0 in
  exists w', deleteCell 1%nat w = (Normal tt, w') /\
             widgets w' = [0%nat; 2%nat] /\ activeCellIndex w' = 1.
Proof.
  intros w.
  destruct (deleteCell_activeCellIndex w 1%nat) as (w' & He & Hw & _ & _ & Ha).
  - discriminate.
  - exists w'. split; [exact He|]. split; [exact Hw|].
    apply Ha. reflexivity.
Defined.

(** C1 as stated fails: with the same cell at positions 1 and 3 of a
    notebook of five cells, one call deletes both positions and leaves the
    cursor on 2, not on [1 - 2 + 1 = 0]. *)
Lemma deleteCell_first_index_counterexample :
  ~ (forall (w w' : State) (c : ref),
       toDelete w c <> [] ->
       deleteCell c w = (Normal tt, w') ->
       activeCellIndex w' =
         Z.of_nat (hd O (toDelete w c)) - Z.of_nat (List.length (toDelete w c)) + 1).
Proof.
  intros H.
  set (w := Sample.notebook
              [Sample.plain "a" "1"; Sample.plain "b" "2"; Sample.plain "c" "3";
               Sample.plain "d" "4"; Sample.plain "e" "5"]
              [0%nat; 1%nat; 2%nat; 1%nat; 4%nat] 0).
  specialize (H w (deleteCell_final 1%nat w) 1%nat).
  assert (Ht : toDelete w 1%nat = [1%nat; 3%nat]) by reflexivity.
  rewrite Ht in H.
  specialize (H ltac:(discriminate) (deleteCell_eq _ _)).
  vm_compute in H. discriminate.
Qed.

(** ** Cell locator: index and cell found agree *)

Lemma findCellIndexById_from_spec cs ws i k :
  let t := findCellIndexById_from cs ws i k in
  (t = -1 /\ findCellById_from cs ws i = None /\
   forall r, In r ws -> id (cs r) <> i) \/
  (k <= t < k + Z.of_nat (List.length ws) /\
   exists r, nth_error ws (Z.to_nat (t - k)) = Some r /\
             id (cs r) = i /\ findCellById_from cs ws i = Some r).
Proof.
  cbv zeta. revert k; induction ws as [|x ws IH]; intros k.
  - left. simpl. auto.
  - simpl findCellIndexById_from. simpl findCellById_from.
    destruct (String.eqb_spec (id (cs x)) i) as [He|Hne].
    + right. split; [simpl List.length; lia|].
      exists x. rewrite Z.sub_diag. simpl. auto.
    + destruct (IH (k + 1)) as [(H1 & H2 & H3)|(H1 & r & H2 & H3 & H4)].
      * left. split; [exact H1|]. split; [exact H2|].
        intros r [<-|Hin]; auto.
      * right. split; [simpl List.length; lia|].
        exists r. split; [|auto].
        replace (Z.to_nat (findCellIndexById_from cs ws i (k + 1) - k))
          with (S (Z.to_nat (findCellIndexById_from cs ws i (k + 1) - (k + 1))))
          by lia.
        exact H2.
Qed.

Lemma findCellIndexById_spec w i :
  (findCellIndexById w i = -1 /\ findCellById w i = None /\
   forall r, In r (widgets w) -> id (cells w r) <> i) \/
  (0 <= findCellIndexById w i < Z.of_nat (List.length (widgets w)) /\
   exists r, nth_error (widgets w) (Z.to_nat (findCellIndexById w i)) = Some r /\
             id (cells w r) = i /\ findCellById w i = Some r).
Proof.
  pose proof (findCellIndexById_from_spec (cells w) (widgets w) i 0) as H.
  cbv zeta in H. rewrite Z.sub_0_r in H. exact H.
Qed.

(** ** Selection navigator *)

Lemma sameNotebook_refl w : sameNotebook w w.
Proof. repeat split. Qed.

Lemma sameNotebook_trans w1 w2 w3 :
  sameNotebook w1 w2 -> sameNotebook w2 w3 -> sameNotebook w1 w3.
Proof.
  unfold sameNotebook. intros (A1 & A2 & A3 & A4) (B1 & B2 & B3 & B4).
  repeat split; congruence.
Qed.

Lemma visibleFrom_same w w' lo n :
  sameNotebook w w' -> visibleFrom w' lo n = visibleFrom w lo n.
Proof.
  intros (H1 & _ & H3 & _). unfold visibleFrom. rewrite H1, H3. reflexivity.
Qed.

Lemma findCellIndexById_same w w' i :
  sameNotebook w w' -> findCellIndexById w' i = findCellIndexById w i.
Proof.
  intros (H1 & _ & H3 & _). unfold findCellIndexById. rewrite H1, H3. reflexivity.
Qed.

Lemma skipn_nth_error {A : Type} (l : list A) (k : nat) (x : A) :
  nth_error l k = Some x -> skipn k l = x :: skipn (S k) l.
Proof.
  revert k; induction l as [|y l IH]; intros [|k] H; simpl in *;
    try discriminate.
  - injection H as ->. reflexivity.
  - apply IH; exact H.
Qed.

Lemma nth_error_in_range {A : Type} (l : list A) (k : nat) :
  (k < List.length l)%nat -> exists x, nth_error l k = Some x.
Proof.
  intros H. destruct (nth_error l k) eqn:E; [eauto|].
  apply nth_error_None in E. lia.
Qed.

Lemma widgetInputHidden_at (w : State) (k : nat) (r : ref) :
  nth_error (widgets w) k = Some r ->
  widgetInputHidden (Z.of_nat k) w = (Normal (inputHidden (cells w r)), w).
Proof.
  intros H. unfold widgetInputHidden, bind, gets.
  replace (Z.of_nat k <? 0) with false by (symmetry; apply Z.ltb_ge; lia).
  rewrite Nat2Z.id, H. reflexivity.
Qed.

Lemma widgetInputHidden_atZ (w : State) (i : Z) (r : ref) :
  0 <= i ->
  nth_error (widgets w) (Z.to_nat i) = Some r ->
  widgetInputHidden i w = (Normal (inputHidden (cells w r)), w).
Proof.
  intros H0 H. rewrite <- (Z2Nat.id i H0). apply widgetInputHidden_at.
  exact H.
Qed.

Lemma hiddenFlags_length w : List.length (hiddenFlags w) = List.length (widgets w).
Proof. unfold hiddenFlags. apply length_map. Qed.

Lemma visibleFrom_step (w : State) (k n : nat) (r : ref) :
  nth_error (widgets w) k = Some r ->
  visibleFrom w k (S n) =
  if inputHidden (cells w r) then visibleFrom w (S k) n
  else r :: visibleFrom w (S k) n.
Proof.
  intros H. unfold visibleFrom. rewrite (skipn_nth_error _ _ _ H). simpl.
  destruct (inputHidden (cells w r)); reflexivity.
Qed.

(** *** The steps of the host *)

Lemma hasActiveCell_true (w : State) :
  hasActiveCell w = true <->
  0 <= activeCellIndex w < Z.of_nat (List.length (widgets w)).
Proof.
  unfold hasActiveCell. rewrite andb_true_iff, Z.leb_le, Z.ltb_lt. tauto.
Qed.

Lemma hasActiveCell_wf (w : State) :
  cursor_wf w -> widgets w <> [] -> hasActiveCell w = true.
Proof.
  intros [(Hnil & _)|H] Hne; [contradiction | apply hasActiveCell_true; exact H].
Qed.

(** Some input is shown as soon as one widget shows its input. *)
Lemma hiddenFlags_shown (w : State) (r : ref) :
  In r (widgets w) -> inputHidden (cells w r) = false ->
  forallb (fun h => h) (hiddenFlags w) = false.
Proof.
  intros Hin Hr. unfold hiddenFlags.
  destruct (forallb (fun h => h) (map (fun r => inputHidden (cells w r)) (widgets w)))
    eqn:E; [|reflexivity].
  rewrite forallb_forall in E.
  rewrite <- Hr. symmetry. apply E. apply in_map_iff. eauto.
Qed.

Lemma shownIn_inputShownAt (w : State) (j : Z) :
  shownIn (hiddenFlags w) j <-> inputShownAt w j = true.
Proof.
  unfold shownIn, inputShownAt, hiddenFlags.
  rewrite andb_true_iff, Z.leb_le, nth_error_map.
  destruct (nth_error (widgets w) (Z.to_nat j)) as [r|]; simpl.
  - destruct (inputHidden (cells w r)); simpl; intuition congruence.
  - intuition congruence.
Qed.

Lemma shownIn_range (hs : list bool) (j : Z) :
  shownIn hs j -> 0 <= j < Z.of_nat (List.length hs).
Proof.
  intros [H0 H]. split; [exact H0|].
  assert (Hlt : (Z.to_nat j < List.length hs)%nat)
    by (apply nth_error_Some; congruence).
  lia.
Qed.

Lemma shownIn_some (hs : list bool) (j : Z) :
  shownIn hs j -> forallb (fun h => h) hs = false.
Proof.
  intros [_ H]. destruct (forallb (fun h => h) hs) eqn:E; [|reflexivity].
  rewrite forallb_forall in E. apply nth_error_In in H.
  specialize (E _ H). discriminate.
Qed.

Lemma shownIn_dec (hs : list bool) (j : Z) : {shownIn hs j} + {~ shownIn hs j}.
Proof.
  unfold shownIn. destruct (Z_le_dec 0 j) as [H0|H0]; [|right; tauto].
  destruct (nth_error hs (Z.to_nat j)) as [[|]|];
    [right | left | right]; intuition congruence.
Qed.

(** What a step does to the state when it does not throw. *)
Lemma selectBelow_shown (host : Host) (w : State) :
  forallb (fun h => h) (hiddenFlags w) = false ->
  exists w',
    selectBelow w = (Normal tt, w') /\
    sameNotebook w w' /\
    (cursor_wf w -> cursor_wf w') /\
    trace w' = trace w ++ [SelectBelow] /\
    (hasActiveCell w = true ->
     activeCellIndex w' =
       clampIndex (List.length (widgets w))
         (stepBelow (hiddenFlags w) (activeCellIndex w))).
Proof.
  intros Hs. unfold selectBelow.
  rewrite bind_modify, bind_gets.
  change (hasActiveCell (logCall SelectBelow w)) with (hasActiveCell w).
  destruct (hasActiveCell w) eqn:Ea.
  - rewrite bind_gets.
    change (hiddenFlags (logCall SelectBelow w)) with (hiddenFlags w).
    rewrite Hs. eexists. split; [reflexivity|].
    split; [repeat split|]. split; [|split; [reflexivity|]].
    + intros _. unfold cursor_wf. simpl. apply clampIndex_wf.
    + intros _. reflexivity.
  - eexists. split; [reflexivity|].
    split; [repeat split|]. split; [|split; [reflexivity | discriminate]].
    intros H. exact H.
Qed.

Lemma selectBelow_hidden (host : Host) (w : State) :
  hasActiveCell w = true ->
  forallb (fun h => h) (hiddenFlags w) = true ->
  selectBelow w = (Thrown TypeError, logCall SelectBelow w).
Proof.
  intros Ha Hs. unfold selectBelow.
  rewrite bind_modify, bind_gets.
  change (hasActiveCell (logCall SelectBelow w)) with (hasActiveCell w).
  rewrite Ha, bind_gets.
  change (hiddenFlags (logCall SelectBelow w)) with (hiddenFlags w).
  rewrite Hs. reflexivity.
Qed.

Lemma selectAbove_run (host : Host) (w : State) :
  exists w',
    selectAbove w = (Normal tt, w') /\
    sameNotebook w w' /\
    (cursor_wf w -> cursor_wf w') /\
    trace w' = trace w ++ [SelectAbove] /\
    (hasActiveCell w = true ->
     activeCellIndex w' =
       clampIndex (List.length (widgets w))
         (stepAbove (hiddenFlags w) (activeCellIndex w))).
Proof.
  unfold selectAbove.
  rewrite bind_modify, bind_gets.
  change (hasActiveCell (logCall SelectAbove w)) with (hasActiveCell w).
  destruct (hasActiveCell w) eqn:Ea.
  - rewrite bind_gets. eexists. split; [reflexivity|].
    split; [repeat split|]. split; [|split; [reflexivity|]].
    + intros _. unfold cursor_wf. simpl. apply clampIndex_wf.
    + intros _. reflexivity.
  - eexists. split; [reflexivity|].
    split; [repeat split|]. split; [|split; [reflexivity | discriminate]].
    intros H. exact H.
Qed.

Lemma hiddenFlags_same (w w' : State) :
  sameNotebook w w' -> hiddenFlags w' = hiddenFlags w.
Proof. intros (H1 & _ & H3 & _). unfold hiddenFlags. rewrite H1, H3. reflexivity. Qed.

(** The nearest position after [i] whose input is shown, when one is shown
    at [t]. *)
Lemma next_shown (hs : list bool) (n : nat) (i t : Z) :
  t - i = Z.of_nat (S n) -> shownIn hs t ->
  exists j, i < j <= t /\ shownIn hs j /\ forall k, i < k < j -> ~ shownIn hs k.
Proof.
  revert i; induction n as [|n IH]; intros i Hd Ht.
  - exists t. split; [lia|]. split; [exact Ht|]. intros k Hk. lia.
  - destruct (shownIn_dec hs (i + 1)) as [Hs|Hs].
    + exists (i + 1). split; [lia|]. split; [exact Hs|]. intros k Hk. lia.
    + destruct (IH (i + 1) ltac:(lia) Ht) as (j & Hj & Hsj & Hb).
      exists j. split; [lia|]. split; [exact Hsj|].
      intros k Hk. destruct (Z.eq_dec k (i + 1)) as [->|Hne]; [exact Hs|].
      apply Hb. lia.
Qed.

(** The nearest position before [i] whose input is shown. *)
Lemma previous_shown (hs : list bool) (n : nat) (i t : Z) :
  i - t = Z.of_nat (S n) -> shownIn hs t ->
  exists j, t <= j < i /\ shownIn hs j /\ forall k, j < k < i -> ~ shownIn hs k.
Proof.
  revert i; induction n as [|n IH]; intros i Hd Ht.
  - exists t. split; [lia|]. split; [exact Ht|]. intros k Hk. lia.
  - destruct (shownIn_dec hs (i - 1)) as [Hs|Hs].
    + exists (i - 1). split; [lia|]. split; [exact Hs|]. intros k Hk. lia.
    + destruct (IH (i - 1) ltac:(lia) Ht) as (j & Hj & Hsj & Hb).
      exists j. split; [lia|]. split; [exact Hsj|].
      intros k Hk. destruct (Z.eq_dec k (i - 1)) as [->|Hne]; [exact Hs|].
      apply Hb. lia.
Qed.

Lemma nth_error_shownIn (w : State) (k : nat) (r : ref) :
  nth_error (widgets w) k = Some r ->
  (shownIn (hiddenFlags w) (Z.of_nat k) <-> inputHidden (cells w r) = false).
Proof.
  intros H. rewrite shownIn_inputShownAt. unfold inputShownAt.
  rewrite Nat2Z.id, H.
  replace (0 <=? Z.of_nat k) with true by (symmetry; apply Z.leb_le; lia).
  simpl. destruct (inputHidden (cells w r)); simpl; intuition congruence.
Qed.

(** *** The two loops *)

(** The loop towards a target below: one [selectBelow] for each position
    that shows its input.  On a host whose steps pass over the hidden
    inputs, a cursor on the first shown input from the loop's position on
    ends on the target, when the target shows its input. *)
Lemma selectCellById_below_spec (host : Host) (n k : nat) (w : State) :
  (k + n <= List.length (widgets w))%nat ->
  exists w',
    selectCellById_below n (Z.of_nat k) w = (Normal tt, w') /\
    sameNotebook w w' /\
    (cursor_wf w -> cursor_wf w') /\
    trace w' = trace w ++ repeat SelectBelow (List.length (visibleFrom w k n)) /\
    (List.length (visibleFrom w k n) = 0%nat ->
     activeCellIndex w' = activeCellIndex w) /\
    (skipsHidden host ->
     shownIn (hiddenFlags w) (Z.of_nat (k + n)) ->
     Z.of_nat k <= activeCellIndex w <= Z.of_nat (k + n) ->
     shownIn (hiddenFlags w) (activeCellIndex w) ->
     (forall j, Z.of_nat k <= j < activeCellIndex w -> ~ shownIn (hiddenFlags w) j) ->
     activeCellIndex w' = Z.of_nat (k + n)).
Proof.
  revert k w; induction n as [|n IH]; intros k w Hk.
  - exists w. split; [reflexivity|]. split; [apply sameNotebook_refl|].
    split; [auto|]. unfold visibleFrom; simpl. rewrite app_nil_r.
    split; [reflexivity|]. split; [reflexivity | intros; lia].
  - destruct (nth_error_in_range (widgets w) k ltac:(lia)) as [r Hr].
    cbn [selectCellById_below]. unfold bind at 1.
    rewrite (widgetInputHidden_at _ _ _ Hr).
    rewrite (visibleFrom_step _ _ n _ Hr).
    replace (Z.of_nat k + 1) with (Z.of_nat (S k)) by lia.
    pose proof (nth_error_shownIn w k r Hr) as Hshown.
    destruct (inputHidden (cells w r)) eqn:Eh; cbn [negb when]; unfold bind at 1.
    + cbn [ret].
      destruct (IH (S k) w ltac:(lia)) as (w' & He & Hsame & Hwf & Ht & Hz & Hc).
      exists w'. do 5 (split; [assumption|]).
      intros Hskip Htgt Hrange Hcur Hbefore.
      replace (k + S n)%nat with (S k + n)%nat by lia.
      replace (k + S n)%nat with (S k + n)%nat in Htgt, Hrange by lia.
      assert (Hne : activeCellIndex w <> Z.of_nat k).
      { intros E. rewrite E in Hcur. apply Hshown in Hcur. discriminate. }
      apply Hc; try assumption; [lia|].
      intros j Hj. apply Hbefore. lia.
    + destruct (selectBelow_shown host w
                  (hiddenFlags_shown w r (nth_error_In _ _ Hr) Eh))
        as (w1 & He1 & Hs & Hwf1 & Htr1 & Hc1).
      rewrite He1.
      destruct (IH (S k) w1 ltac:(destruct Hs as (_ & _ & -> & _); lia))
        as (w' & He & Hsame & Hwf & Ht & _ & Hc).
      exists w'. split; [exact He|].
      split; [exact (sameNotebook_trans _ _ _ Hs Hsame)|].
      rewrite (visibleFrom_same _ _ _ _ Hs) in Ht.
      rewrite (hiddenFlags_same _ _ Hs) in Hc.
      split; [auto|]. split; [|split].
      * rewrite Ht, Htr1. cbn [List.length repeat]. rewrite <- app_assoc.
        reflexivity.
      * cbn [List.length]. discriminate.
      * intros Hskip Htgt Hrange Hcur Hbefore.
        replace (k + S n)%nat with (S k + n)%nat by lia.
        replace (k + S n)%nat with (S k + n)%nat in Htgt, Hrange by lia.
        assert (Hat : activeCellIndex w = Z.of_nat k).
        { destruct (Z.eq_dec (activeCellIndex w) (Z.of_nat k)) as [E|E];
            [exact E|].
          exfalso. apply (Hbefore (Z.of_nat k)); [lia|].
          apply Hshown. reflexivity. }
        destruct (next_shown (hiddenFlags w) n (Z.of_nat k) (Z.of_nat (S k + n))
                    ltac:(lia) Htgt) as (j & Hj & Hsj & Hb).
        assert (Hstep : stepBelow (hiddenFlags w) (Z.of_nat k) = j).
        { apply (Hskip (hiddenFlags w) (Z.of_nat k) j Hsj); [|lia].
          intros x Hx. apply Hb. lia. }
        pose proof (shownIn_range _ _ Hsj) as Hjr.
        rewrite hiddenFlags_length in Hjr.
        assert (Hw1 : activeCellIndex w1 = j).
        { rewrite Hc1 by (apply hasActiveCell_true; lia).
          rewrite Hat, Hstep. apply clampIndex_id. exact Hjr. }
        apply Hc; try assumption.
        -- rewrite Hw1. lia.
        -- rewrite Hw1. exact Hsj.
        -- rewrite Hw1. intros x Hx. apply Hb. lia.
Qed.

Lemma firstn_succ_snoc {A : Type} (l : list A) (n : nat) (x : A) :
  nth_error l n = Some x -> firstn (S n) l = firstn n l ++ [x].
Proof.
  revert n; induction l as [|y l IH]; intros [|n] H; simpl in *;
    try discriminate.
  - injection H as ->. reflexivity.
  - f_equal. apply IH; exact H.
Qed.

Lemma visibleFrom_snoc (w : State) (lo n : nat) (r : ref) :
  nth_error (widgets w) (lo + n) = Some r ->
  List.length (visibleFrom w lo (S n)) =
  if inputHidden (cells w r) then List.length (visibleFrom w lo n)
  else S (List.length (visibleFrom w lo n)).
Proof.
  intros H. unfold visibleFrom.
  rewrite (firstn_succ_snoc _ _ r) by (rewrite nth_error_skipn; exact H).
  rewrite filter_app, length_app. simpl.
  destruct (inputHidden (cells w r)); simpl; lia.
Qed.

(** The loop towards a target above: one [selectAbove] for each position
    that shows its input. *)
Lemma selectCellById_above_spec (host : Host) (n : nat) (i : Z) (w : State) :
  Z.of_nat n <= i + 1 ->
  i < Z.of_nat (List.length (widgets w)) ->
  let lo := Z.to_nat (i + 1 - Z.of_nat n) in
  exists w',
    selectCellById_above n i w = (Normal tt, w') /\
    sameNotebook w w' /\
    (cursor_wf w -> cursor_wf w') /\
    trace w' = trace w ++ repeat SelectAbove (List.length (visibleFrom w lo n)) /\
    (List.length (visibleFrom w lo n) = 0%nat ->
     activeCellIndex w' = activeCellIndex w) /\
    (skipsHidden host ->
     shownIn (hiddenFlags w) (i - Z.of_nat n) ->
     i - Z.of_nat n <= activeCellIndex w <= i ->
     shownIn (hiddenFlags w) (activeCellIndex w) ->
     (forall j, activeCellIndex w < j <= i -> ~ shownIn (hiddenFlags w) j) ->
     activeCellIndex w' = i - Z.of_nat n).
Proof.
  cbv zeta. revert i w; induction n as [|n IH]; intros i w Hn Hi.
  - exists w. split; [reflexivity|]. split; [apply sameNotebook_refl|].
    split; [auto|]. unfold visibleFrom; simpl. rewrite app_nil_r.
    split; [reflexivity|]. split; [reflexivity | intros; lia].
  - assert (H0 : 0 <= i) by lia.
    destruct (nth_error_in_range (widgets w) (Z.to_nat i) ltac:(lia)) as [r Hr].
    cbn [selectCellById_above]. unfold bind at 1.
    rewrite (widgetInputHidden_atZ _ _ _ H0 Hr).
    replace (Z.to_nat (i + 1 - Z.of_nat (S n))) with (Z.to_nat (i - Z.of_nat n))
      by lia.
    rewrite (visibleFrom_snoc w (Z.to_nat (i - Z.of_nat n)) n r)
      by (replace (Z.to_nat (i - Z.of_nat n) + n)%nat with (Z.to_nat i) by lia;
          exact Hr).
    specialize (IH (i - 1)).
    replace (Z.to_nat (i - 1 + 1 - Z.of_nat n)) with (Z.to_nat (i - Z.of_nat n))
      in IH by lia.
    replace (i - Z.of_nat (S n)) with (i - 1 - Z.of_nat n) by lia.
    pose proof (nth_error_shownIn w (Z.to_nat i) r Hr) as Hshown.
    rewrite Z2Nat.id in Hshown by exact H0.
    destruct (inputHidden (cells w r)) eqn:Eh; cbn [negb when]; unfold bind at 1.
    + cbn [ret].
      destruct (IH w ltac:(lia) ltac:(lia)) as (w' & He & Hsame & Hwf & Ht & Hz & Hc).
      exists w'. do 5 (split; [assumption|]).
      intros Hskip Htgt Hrange Hcur Hbefore.
      assert (Hne : activeCellIndex w <> i).
      { intros E. rewrite E in Hcur. apply Hshown in Hcur. discriminate. }
      apply Hc; try assumption; [lia|].
      intros j Hj. apply Hbefore. lia.
    + destruct (selectAbove_run host w) as (w1 & He1 & Hs & Hwf1 & Htr1 & Hc1).
      rewrite He1.
      destruct (IH w1 ltac:(lia) ltac:(destruct Hs as (_ & _ & -> & _); lia))
        as (w' & He & Hsame & Hwf & Ht & _ & Hc).
      exists w'. split; [exact He|].
      split; [exact (sameNotebook_trans _ _ _ Hs Hsame)|].
      rewrite (visibleFrom_same _ _ _ _ Hs) in Ht.
      rewrite (hiddenFlags_same _ _ Hs) in Hc.
      split; [auto|]. split; [|split].
      * rewrite Ht, Htr1. rewrite <- app_assoc.
        change ([SelectAbove] ++ repeat SelectAbove ?n)
          with (repeat SelectAbove (S n)). reflexivity.
      * discriminate.
      * intros Hskip Htgt Hrange Hcur Hbefore.
        assert (Hat : activeCellIndex w = i).
        { destruct (Z.eq_dec (activeCellIndex w) i) as [E|E]; [exact E|].
          exfalso. apply (Hbefore i); [lia|]. apply Hshown. reflexivity. }
        destruct (previous_shown (hiddenFlags w) n i (i - 1 - Z.of_nat n)
                    ltac:(lia) Htgt) as (j & Hj & Hsj & Hb).
        assert (Hstep : stepAbove (hiddenFlags w) i = j).
        { apply (Hskip (hiddenFlags w) i j Hsj);
            [|rewrite hiddenFlags_length; lia].
          intros x Hx. apply Hb. lia. }
        pose proof (shownIn_range _ _ Hsj) as Hjr.
        rewrite hiddenFlags_length in Hjr.
        assert (Hw1 : activeCellIndex w1 = j).
        { rewrite Hc1 by (apply hasActiveCell_true; lia).
          rewrite Hat, Hstep. apply clampIndex_id. exact Hjr. }
        apply Hc; try assumption.
        -- rewrite Hw1. lia.
        -- rewrite Hw1. exact Hsj.
        -- rewrite Hw1. intros x Hx. apply Hb. lia.
Qed.

Lemma visibleFrom_le (w : State) (lo n : nat) :
  (List.length (visibleFrom w lo n) <= n)%nat.
Proof.
  unfold visibleFrom.
  pose proof (filter_length_le (fun r => negb (inputHidden (cells w r)))
                (firstn n (skipn lo (widgets w)))) as H.
  rewrite length_firstn in H. lia.
Qed.

(** What [selectCellById] does in every state whose cursor is on a cell. *)
Lemma selectCellById_run (host : Host) (w : State) (i : string) :
  cursor_wf w ->
  exists w',
    selectCellById i w = (Normal tt, w') /\
    sameNotebook w w' /\
    cursor_wf w' /\
    let a := activeCellIndex w in
    let t := findCellIndexById w i in
    (t = -1 \/ t = a -> w' = w) /\
    (t <> -1 -> a < t ->
     let steps := List.length (visibleFrom w (Z.to_nat a) (Z.to_nat (t - a))) in
     trace w' = trace w ++ repeat SelectBelow steps /\
     (steps = 0%nat -> activeCellIndex w' = a)) /\
    (t <> -1 -> t < a ->
     let steps := List.length (visibleFrom w (Z.to_nat (t + 1)) (Z.to_nat (a - t))) in
     trace w' = trace w ++ repeat SelectAbove steps /\
     (steps = 0%nat -> activeCellIndex w' = a)) /\
    (skipsHidden host -> t <> -1 ->
     inputShownAt w a = true -> inputShownAt w t = true ->
     activeCellIndex w' = t).
Proof.
  intros Hwf. cbv zeta.
  unfold selectCellById, bind, gets.
  destruct (findCellIndexById_spec w i) as [(Ht & _)|(Ht & _)].
  - rewrite Ht. simpl. exists w.
    split; [reflexivity|]. split; [apply sameNotebook_refl|].
    split; [exact Hwf|]. split; [auto|].
    split; [intros; congruence|]. split; intros; congruence.
  - set (t := findCellIndexById w i) in *.
    assert (Ha : 0 <= activeCellIndex w < Z.of_nat (List.length (widgets w))).
    { destruct Hwf as [(Hnil & _)|H]; [|exact H].
      rewrite Hnil in Ht. simpl in Ht. lia. }
    replace (t =? -1) with false by (symmetry; apply Z.eqb_neq; lia).
    cbn [negb].
    destruct (Z.eqb_spec (activeCellIndex w) t) as [He|Hne]; cbn [negb].
    + exists w. split; [reflexivity|]. split; [apply sameNotebook_refl|].
      split; [exact Hwf|]. split; [auto|].
      split; [intros; lia|]. split; [intros; lia|]. intros; exact He.
    + destruct (Z.ltb_spec (activeCellIndex w) t) as [Hlt|Hge].
      * destruct (selectCellById_below_spec host
                    (Z.to_nat (t - activeCellIndex w))
                    (Z.to_nat (activeCellIndex w)) w ltac:(lia))
          as (w' & He & Hs & Hw & Htr & Hz & Hc).
        rewrite Z2Nat.id in He, Hc by lia.
        replace (Z.of_nat (Z.to_nat (activeCellIndex w)
                           + Z.to_nat (t - activeCellIndex w))) with t in Hc by lia.
        exists w'. split; [exact He|]. split; [exact Hs|].
        split; [auto|]. split; [intros [?|?]; lia|].
        split; [intros _ _; split; [exact Htr | exact Hz]|].
        split; [intros; lia|].
        intros Hskip _ Hsa Hst.
        apply Hc; [exact Hskip | apply shownIn_inputShownAt; exact Hst | lia
                  | apply shownIn_inputShownAt; exact Hsa | intros; lia].
      * destruct (selectCellById_above_spec host
                    (Z.to_nat (activeCellIndex w - t)) (activeCellIndex w) w
                    ltac:(lia) ltac:(lia))
          as (w' & He & Hs & Hw & Htr & Hz & Hc).
        replace (Z.to_nat (activeCellIndex w + 1
                           - Z.of_nat (Z.to_nat (activeCellIndex w - t))))
          with (Z.to_nat (t + 1)) in Htr, Hz by lia.
        replace (activeCellIndex w - Z.of_nat (Z.to_nat (activeCellIndex w - t)))
          with t in Hc by lia.
        exists w'. split; [exact He|]. split; [exact Hs|].
        split; [auto|]. split; [intros [?|?]; lia|].
        split; [intros; lia|].
        split; [intros _ _; split; [exact Htr | exact Hz]|].
        intros Hskip _ Hsa Hst.
        apply Hc; [exact Hskip | apply shownIn_inputShownAt; exact Hst | lia
                  | apply shownIn_inputShownAt; exact Hsa | intros; lia].
Qed.

(** A cursor outside the widget list makes the loop read a property of
    [undefined]. *)
Example selectCellById_throws_off_the_end :
  let w := Sample.notebook [Sample.plain "a" "1"; Sample.plain "b" "2"]
             [0%nat; 1%nat] 2 in
  selectCellById (host := jupyterHost) "a" w = (Thrown TypeError, w).
Proof. reflexivity. Qed.

(** *** The steps of JupyterLab pass over the hidden inputs *)

Lemma shownIn_hiddenAt (hs : list bool) (j : Z) :
  shownIn hs j -> hiddenAt hs j = false.
Proof.
  intros [_ H]. unfold hiddenAt. apply (nth_error_nth hs _ false H).
Qed.

Lemma not_shownIn_hiddenAt (hs : list bool) (j : Z) :
  0 <= j < Z.of_nat (List.length hs) -> ~ shownIn hs j -> hiddenAt hs j = true.
Proof.
  intros Hr Hn. unfold hiddenAt, shownIn in *.
  destruct (nth_error hs (Z.to_nat j)) as [[|]|] eqn:E.
  - apply (nth_error_nth hs _ false E).
  - exfalso. apply Hn. split; [lia | reflexivity].
  - apply nth_error_None in E. lia.
Qed.

Lemma lastShown_ge (fuel : nat) (hs : list bool) (m j : Z) :
  shownIn hs j -> j <= m -> m < Z.of_nat fuel -> j <= lastShown fuel hs m.
Proof.
  intros Hj. revert m; induction fuel as [|fuel IH]; intros m Hjm Hm.
  - destruct Hj as [H0 _]. lia.
  - cbn [lastShown]. destruct (hiddenAt hs m) eqn:E; [|exact Hjm].
    apply IH; [|lia].
    destruct (Z.eq_dec j m) as [->|Hne]; [|lia].
    rewrite (shownIn_hiddenAt _ _ Hj) in E. discriminate.
Qed.

Lemma nextShown_finds (fuel : nat) (hs : list bool) (next maxCellIndex j : Z) :
  shownIn hs j ->
  0 <= next <= j -> j <= maxCellIndex ->
  (forall k, next <= k < j -> ~ shownIn hs k) ->
  j - next < Z.of_nat fuel ->
  nextShown fuel hs next maxCellIndex = j.
Proof.
  intros Hj. revert next; induction fuel as [|fuel IH]; intros next Hn Hm Hb Hf.
  - lia.
  - cbn [nextShown]. destruct (Z.eq_dec next j) as [->|Hne].
    + rewrite (shownIn_hiddenAt _ _ Hj), andb_false_r. reflexivity.
    + pose proof (shownIn_range _ _ Hj) as Hr.
      replace (next <? maxCellIndex) with true by (symmetry; apply Z.ltb_lt; lia).
      rewrite (not_shownIn_hiddenAt hs next) by (first [lia | apply Hb; lia]).
      cbn [andb]. apply IH; [lia | exact Hm | intros k Hk; apply Hb; lia | lia].
Qed.

Lemma previousShown_finds (fuel : nat) (hs : list bool) (next j : Z) :
  shownIn hs j ->
  j <= next < Z.of_nat (List.length hs) ->
  (forall k, j < k <= next -> ~ shownIn hs k) ->
  next - j < Z.of_nat fuel ->
  previousShown fuel hs next = j.
Proof.
  intros Hj. revert next; induction fuel as [|fuel IH]; intros next Hn Hb Hf.
  - lia.
  - cbn [previousShown]. pose proof (shownIn_range _ _ Hj) as Hr.
    replace (0 <=? next) with true by (symmetry; apply Z.leb_le; lia).
    destruct (Z.eq_dec next j) as [->|Hne].
    + rewrite (shownIn_hiddenAt _ _ Hj). reflexivity.
    + rewrite (not_shownIn_hiddenAt hs next) by (first [lia | apply Hb; lia]).
      cbn [andb]. apply IH; [lia | intros k Hk; apply Hb; lia | lia].
Qed.

Lemma jupyterHost_skipsHidden : skipsHidden jupyterHost.
Proof.
  intros hs i j Hj Hb. pose proof (shownIn_range _ _ Hj) as Hr. split.
  - intros Hi. cbn [stepBelow jupyterHost]. cbv zeta.
    pose proof (lastShown_ge (List.length hs) hs (Z.of_nat (List.length hs) - 1) j
                  Hj ltac:(lia) ltac:(lia)) as Hmax.
    replace (i =? lastShown (List.length hs) hs (Z.of_nat (List.length hs) - 1))
      with false by (symmetry; apply Z.eqb_neq; lia).
    apply nextShown_finds; [exact Hj | lia | exact Hmax | | lia].
    intros k Hk. apply Hb. lia.
  - intros Hi. cbn [stepAbove jupyterHost].
    replace (i =? 0) with false by (symmetry; apply Z.eqb_neq; lia).
    apply previousShown_finds; [exact Hj | lia | | lia].
    intros k Hk. apply Hb. lia.
Qed.

(** C8 fails on the code: with the cursor on a cell whose input is hidden
    and the target right below it, [selectCellById] issues no step and
    returns with the state as it was, whatever the host does on a step: the
    cursor is still on position 0 and the cell with the id on position 1.
    The loop leaves out the step of a position whose input is hidden, the
    position it starts from included. *)
Theorem selectCellById_misses_target (host : Host) :
  let w := Sample.notebook
             [mkCell "a" code "x = 1" None None None true [];
              Sample.plain "b" "x + 1"]
             [0%nat; 1%nat] 0 in
  cursor_wf w /\
  findCellIndexById w "b" = 1 /\
  activeCellIndex w = 0 /\
  selectCellById "b" w = (Normal tt, w).
Proof.
  intros w. split; [right; simpl; lia|]. repeat split.
Qed.

(** No host makes [selectCellById] end on the cell with the id in every
    state whose cursor is on a cell. *)
Lemma selectCellById_hidden_counterexample :
  ~ (exists host : Host,
       forall (w w' : State) (i : string),
         cursor_wf w ->
         findCellIndexById w i <> -1 ->
         selectCellById i w = (Normal tt, w') ->
         activeCellIndex w' = findCellIndexById w i).
Proof.
  intros [host H].
  set (w := Sample.notebook
              [mkCell "t" code "%chat -s plot" (Some 1) None None true [];
               Sample.plain "g" "# Assistant Code for Cell [1]:"]
              [0%nat; 1%nat] 0).
  specialize (H w w "g").
  assert (Hw : cursor_wf w) by (right; simpl; lia).
  assert (Ht : findCellIndexById w "g" <> -1) by (vm_compute; discriminate).
  specialize (H Hw Ht eq_refl).
  vm_compute in H. discriminate.
Qed.

(** ** Rules of the weakest precondition *)

Lemma wp_ret {A : Type} (a : A) (w : State) (Q : A -> State -> Prop) :
  Q a w -> wp (ret a) w Q.
Proof. intros H. exists a, w. auto. Qed.

Lemma wp_bind {A B : Type} (m : M A) (k : A -> M B) (w : State)
  (Q : B -> State -> Prop) :
  wp m w (fun a w' => wp (k a) w' Q) -> wp (bind m k) w Q.
Proof.
  intros (a & w' & Hm & b & w'' & Hk & HQ).
  exists b, w''. unfold bind. rewrite Hm. auto.
Qed.

Lemma wp_gets {A : Type} (f : State -> A) (w : State) (Q : A -> State -> Prop) :
  Q (f w) w -> wp (gets f) w Q.
Proof. intros H. exists (f w), w. auto. Qed.

Lemma wp_modify (f : State -> State) (w : State) (Q : unit -> State -> Prop) :
  Q tt (f w) -> wp (modify f) w Q.
Proof. intros H. exists tt, (f w). auto. Qed.

Lemma wp_unit (m : M unit) (w : State) (Q : unit -> State -> Prop) :
  wp m w Q <-> exists w', m w = (Normal tt, w') /\ Q tt w'.
Proof.
  split.
  - intros ([] & w' & H1 & H2). eauto.
  - intros (w' & H1 & H2). exists tt, w'. auto.
Qed.

Lemma wp_deleteCell (c : ref) (w : State) (Q : unit -> State -> Prop) :
  Q tt (deleteCell_final c w) -> wp (deleteCell c) w Q.
Proof. intros H. exists tt, (deleteCell_final c w). split; [apply deleteCell_eq | exact H]. Qed.

Ltac wp_step :=
  lazymatch goal with
  | |- wp (bind _ _) _ _ => apply wp_bind
  | |- wp (gets _) _ _ => apply wp_gets
  | |- wp (modify _) _ _ => apply wp_modify
  | |- wp (ret _) _ _ => apply wp_ret
  | |- wp (getId _) _ _ => apply wp_gets
  | |- wp (getChapyterCell _) _ _ => apply wp_gets
  | |- wp (setMetadata _ _) _ _ => apply wp_modify
  | |- wp (setInputHidden _ _) _ _ => apply wp_modify
  | |- wp (addClass _ _) _ _ => apply wp_modify
  | |- wp (removeClass _ _) _ _ => apply wp_modify
  | |- wp (toggleClass _ _) _ _ => apply wp_modify
  | |- wp run _ _ => apply wp_modify
  | |- wp (deleteCell _) _ _ => apply wp_deleteCell
  end.

Lemma find_ext {A : Type} (f g : A -> bool) (l : list A) :
  (forall x, f x = g x) -> find f l = find g l.
Proof.
  intros H. induction l as [|x l IH]; simpl; [reflexivity|].
  rewrite H, IH. reflexivity.
Qed.

(** The template search reads the widget list and, of each cell, its type
    and its text. *)
Lemma findCellByTemplateString_ext (w w' : State) (e : ExecutionId) :
  widgets w' = widgets w ->
  (forall r, type (cells w' r) = type (cells w r) /\
             source (cells w' r) = source (cells w r)) ->
  findCellByTemplateString w' e = findCellByTemplateString w e.
Proof.
  intros Hw Hc. unfold findCellByTemplateString. rewrite Hw.
  destruct (truthyExecutionId e); [|reflexivity].
  apply find_ext. intros r. unfold matchesTemplate.
  destruct (Hc r) as [-> ->]. reflexivity.
Qed.

Lemma findCellByTemplateString_found (w : State) (e : ExecutionId) (a : ref) :
  findCellByTemplateString w e = Some a ->
  In a (widgets w) /\ matchesTemplate (cells w a) e = true.
Proof.
  unfold findCellByTemplateString.
  destruct (truthyExecutionId e); [|discriminate].
  apply find_some.
Qed.

Lemma wp_unit_elim (m : M unit) (w : State) (Q : State -> Prop) :
  wp m w (fun _ w' => Q w') -> exists w', m w = (Normal tt, w') /\ Q w'.
Proof. intros ([] & w' & H1 & H2). eauto. Qed.

(** *** With an exceptional postcondition *)

Lemma wpx_wp {A : Type} (m : M A) (w : State) (Q : A -> State -> Prop)
  (E : State -> Prop) :
  wp m w Q -> wpx m w Q E.
Proof. intros (a & w' & Hm & HQ). unfold wpx. rewrite Hm. exact HQ. Qed.

Lemma wpx_bind {A B : Type} (m : M A) (k : A -> M B) (w : State)
  (Q : B -> State -> Prop) (E : State -> Prop) :
  wpx m w (fun a w' => wpx (k a) w' Q E) E -> wpx (bind m k) w Q E.
Proof. unfold wpx, bind. destruct (m w) as [[a|e] w']; auto. Qed.

Lemma wpx_gets {A : Type} (f : State -> A) (w : State) (Q : A -> State -> Prop)
  (E : State -> Prop) :
  Q (f w) w -> wpx (gets f) w Q E.
Proof. intros H. exact H. Qed.

Lemma wpx_modify (f : State -> State) (w : State) (Q : unit -> State -> Prop)
  (E : State -> Prop) :
  Q tt (f w) -> wpx (modify f) w Q E.
Proof. intros H. exact H. Qed.

Lemma wpx_ret {A : Type} (a : A) (w : State) (Q : A -> State -> Prop)
  (E : State -> Prop) :
  Q a w -> wpx (ret a) w Q E.
Proof. intros H. exact H. Qed.

(** The three ways of [selectBelow]: the throw, the step and the return
    without an active cell. *)
Lemma wpx_selectBelow (host : Host) (w : State) (Q : unit -> State -> Prop)
  (E : State -> Prop) :
  (hasActiveCell w = true -> forallb (fun h => h) (hiddenFlags w) = true ->
   E (logCall SelectBelow w)) ->
  (hasActiveCell w = true -> forallb (fun h => h) (hiddenFlags w) = false ->
   Q tt (withActiveCellIndex
           (clampIndex (List.length (widgets w))
              (stepBelow (hiddenFlags w) (activeCellIndex w)))
           (logCall SelectBelow w))) ->
  (hasActiveCell w = false -> Q tt (logCall SelectBelow w)) ->
  wpx selectBelow w Q E.
Proof.
  intros HE HQ Hno. unfold wpx, selectBelow.
  rewrite bind_modify, bind_gets.
  change (hasActiveCell (logCall SelectBelow w)) with (hasActiveCell w).
  destruct (hasActiveCell w) eqn:Ea; [|apply Hno; reflexivity].
  rewrite bind_gets.
  change (hiddenFlags (logCall SelectBelow w)) with (hiddenFlags w).
  destruct (forallb (fun h => h) (hiddenFlags w)) eqn:Eh.
  - apply HE; reflexivity.
  - apply HQ; reflexivity.
Qed.

Lemma wpx_elim (m : M unit) (w : State) (P : Completion unit -> State -> Prop) :
  wpx m w (fun _ w' => P (Normal tt) w') (fun w' => P (Thrown TypeError) w') ->
  exists c w', m w = (c, w') /\ P c w'.
Proof.
  unfold wpx. destruct (m w) as [[[]|[]] w']; eauto.
Qed.

Ltac wpx_step :=
  lazymatch goal with
  | |- wpx (bind _ _) _ _ _ => apply wpx_bind
  | |- wpx (gets _) _ _ _ => apply wpx_gets
  | |- wpx (modify _) _ _ _ => apply wpx_modify
  | |- wpx (ret _) _ _ _ => apply wpx_ret
  | |- wpx (getId _) _ _ _ => apply wpx_gets
  | |- wpx (getChapyterCell _) _ _ _ => apply wpx_gets
  | |- wpx (setMetadata _ _) _ _ _ => apply wpx_modify
  | |- wpx (setInputHidden _ _) _ _ _ => apply wpx_modify
  | |- wpx (addClass _ _) _ _ _ => apply wpx_modify
  | |- wpx (removeClass _ _) _ _ _ => apply wpx_modify
  | |- wpx (toggleClass _ _) _ _ _ => apply wpx_modify
  | |- wpx run _ _ _ => apply wpx_modify
  end.

(** ** Orchestrator: the [executed] handler *)

(** The cell found by the template search is not the trigger. *)
Lemma found_not_trigger (w : State) (t a : ref) (strict : bool) (e : ExecutionId) :
  isCellChapyterMagicCell (cells w t) strict = true ->
  findCellByTemplateString w e = Some a ->
  a <> t.
Proof.
  intros Hm Hf ->. apply findCellByTemplateString_found in Hf.
  rewrite (magic_not_template _ _ e Hm) in Hf. destruct Hf; discriminate.
Qed.

Lemma repeat_nil {A : Type} (x : A) (n : nat) : repeat x n = [] -> n = 0%nat.
Proof. destruct n; [reflexivity | discriminate]. Qed.

(** [selectCellById] returns normally, leaves the cells and the document
    alone, and issues exactly the steps of [selectCellById_calls]; without
    a step the cursor stays, and on a host whose steps pass over the hidden
    inputs it ends on the target when the active cell and the target show
    their input. *)
Lemma selectCellById_trace (host : Host) (w : State) (i : string) :
  cursor_wf w ->
  exists w',
    selectCellById i w = (Normal tt, w') /\
    sameNotebook w w' /\
    cursor_wf w' /\
    trace w' = trace w ++ selectCellById_calls w i /\
    (selectCellById_calls w i = [] -> activeCellIndex w' = activeCellIndex w) /\
    (skipsHidden host -> findCellIndexById w i <> -1 ->
     inputShownAt w (activeCellIndex w) = true ->
     inputShownAt w (findCellIndexById w i) = true ->
     activeCellIndex w' = findCellIndexById w i).
Proof.
  intros Hwf.
  destruct (selectCellById_run host w i Hwf)
    as (w' & He & Hs & Hw & Hnoop & Hb & Ha & Hc).
  exists w'. split; [exact He|]. split; [exact Hs|]. split; [exact Hw|].
  split; [|split; [|exact Hc]];
    unfold selectCellById_calls; cbv zeta;
    destruct (findCellIndexById_spec w i) as [(Hx & _)|(Hx & _)].
  - rewrite Hx. simpl. rewrite Hnoop by auto. rewrite app_nil_r. reflexivity.
  - set (t := findCellIndexById w i) in *.
    replace (t =? -1) with false by (symmetry; apply Z.eqb_neq; lia).
    cbn [orb].
    destruct (Z.eqb_spec (activeCellIndex w) t) as [E|E].
    + rewrite Hnoop by auto. rewrite app_nil_r. reflexivity.
    + destruct (Z.ltb_spec (activeCellIndex w) t) as [Hlt|Hge].
      * apply (Hb ltac:(lia) Hlt).
      * apply (Ha ltac:(lia) ltac:(lia)).
  - intros _. rewrite Hnoop by auto. reflexivity.
  - set (t := findCellIndexById w i) in *.
    replace (t =? -1) with false by (symmetry; apply Z.eqb_neq; lia).
    cbn [orb].
    destruct (Z.eqb_spec (activeCellIndex w) t) as [E|E].
    + intros _. rewrite Hnoop by auto. reflexivity.
    + destruct (Z.ltb_spec (activeCellIndex w) t) as [Hlt|Hge]; intros Hnil;
        apply repeat_nil in Hnil.
      * apply (Hb ltac:(lia) Hlt). exact Hnil.
      * apply (Ha ltac:(lia) ltac:(lia)). exact Hnil.
Qed.

Lemma wp_selectCellById (host : Host) (i : string) (w : State)
  (Q : unit -> State -> Prop) :
  cursor_wf w ->
  (forall w',
     sameNotebook w w' -> cursor_wf w' ->
     trace w' = trace w ++ selectCellById_calls w i ->
     (selectCellById_calls w i = [] -> activeCellIndex w' = activeCellIndex w) ->
     (skipsHidden host -> findCellIndexById w i <> -1 ->
      inputShownAt w (activeCellIndex w) = true ->
      inputShownAt w (findCellIndexById w i) = true ->
      activeCellIndex w' = findCellIndexById w i) ->
     Q tt w') ->
  wp (selectCellById i) w Q.
Proof.
  intros Hwf HQ.
  destruct (selectCellById_trace host w i Hwf)
    as (w' & He & Hs & Hw & Ht & Hz & Hc).
  exists tt, w'. split; [exact He|]. apply HQ; assumption.
Qed.

Lemma wpx_selectCellById (host : Host) (i : string) (w : State)
  (Q : unit -> State -> Prop) (E : State -> Prop) :
  cursor_wf w ->
  (forall w',
     sameNotebook w w' -> cursor_wf w' ->
     trace w' = trace w ++ selectCellById_calls w i ->
     (selectCellById_calls w i = [] -> activeCellIndex w' = activeCellIndex w) ->
     (skipsHidden host -> findCellIndexById w i <> -1 ->
      inputShownAt w (activeCellIndex w) = true ->
      inputShownAt w (findCellIndexById w i) = true ->
      activeCellIndex w' = findCellIndexById w i) ->
     Q tt w') ->
  wpx (selectCellById i) w Q E.
Proof. intros Hwf HQ. apply wpx_wp. apply (wp_selectCellById host); assumption. Qed.

(** ** Reading the states that the primitives build *)

Lemma updateCell_true (f : Cell -> Cell) (c : Cell) : updateCell true f c = f c.
Proof. reflexivity. Qed.

Lemma updateCell_false (f : Cell -> Cell) (c : Cell) : updateCell false f c = c.
Proof. reflexivity. Qed.

(** A field that [f] does not write reads the same after the update. *)
Lemma updateCell_field {A : Type} (proj : Cell -> A) (b : bool)
  (f : Cell -> Cell) (c : Cell) :
  (forall x, proj (f x) = proj x) -> proj (updateCell b f c) = proj c.
Proof. intros H. destruct b; simpl; auto. Qed.

Ltac st_simpl :=
  cbn [cells widgets currentWidget activeCellIndex deletedCells trace
       logCall withCell withActiveCellIndex withWidgets withDeletedCells
       id type source executionCount ChapyterCell deletable inputHidden classes
       cell_setChapyterCell cell_setInputHidden cell_setClasses
       cell_setExecutionCount] in *.

Ltac upd_frame :=
  repeat first
    [ rewrite (updateCell_field id) by (intros; reflexivity)
    | rewrite (updateCell_field type) by (intros; reflexivity)
    | rewrite (updateCell_field source) by (intros; reflexivity)
    | rewrite (updateCell_field executionCount) by (intros; reflexivity)
    | rewrite (updateCell_field deletable) by (intros; reflexivity)
    | rewrite (updateCell_field inputHidden) by (intros; reflexivity)
    | rewrite (updateCell_field ChapyterCell) by (intros; reflexivity)
    | rewrite updateCell_true
    | rewrite updateCell_false ].

Ltac upd_classes :=
  repeat first
    [ rewrite (updateCell_field classes) by (intros; reflexivity)
    | rewrite updateCell_true
    | rewrite updateCell_false ].

Lemma findCellIndexById_ext (w w' : State) (i : string) :
  widgets w' = widgets w ->
  (forall r, id (cells w' r) = id (cells w r)) ->
  findCellIndexById w' i = findCellIndexById w i.
Proof.
  intros Hw Hi. unfold findCellIndexById. rewrite Hw. clear Hw.
  generalize 0. induction (widgets w) as [|x l IH]; intros k; simpl;
    [reflexivity|].
  rewrite Hi, IH. reflexivity.
Qed.

Lemma findCellById_ext (w w' : State) (i : string) :
  widgets w' = widgets w ->
  (forall r, id (cells w' r) = id (cells w r)) ->
  findCellById w' i = findCellById w i.
Proof.
  intros Hw Hi. unfold findCellById. rewrite Hw. clear Hw.
  induction (widgets w) as [|x l IH]; simpl; [reflexivity|].
  rewrite Hi, IH. reflexivity.
Qed.

Lemma visibleFrom_ext (w w' : State) (lo n : nat) :
  widgets w' = widgets w ->
  (forall r, inputHidden (cells w' r) = inputHidden (cells w r)) ->
  visibleFrom w' lo n = visibleFrom w lo n.
Proof.
  intros Hw Hh. unfold visibleFrom. rewrite Hw.
  apply filter_ext. intros r. rewrite Hh. reflexivity.
Qed.

Lemma selectCellById_calls_ext (w w' : State) (i : string) :
  widgets w' = widgets w ->
  activeCellIndex w' = activeCellIndex w ->
  (forall r, id (cells w' r) = id (cells w r)) ->
  (forall r, inputHidden (cells w' r) = inputHidden (cells w r)) ->
  selectCellById_calls w' i = selectCellById_calls w i.
Proof.
  intros Hw Ha Hi Hh. unfold selectCellById_calls.
  rewrite Ha, (findCellIndexById_ext w w' i Hw Hi).
  rewrite !(visibleFrom_ext w w' _ _ Hw Hh). reflexivity.
Qed.

Lemma selectCellById_calls_at_target (w : State) (i : string) :
  activeCellIndex w = findCellIndexById w i -> selectCellById_calls w i = [].
Proof.
  intros E. unfold selectCellById_calls. cbv zeta.
  rewrite E, Z.eqb_refl, orb_true_r. reflexivity.
Qed.

Lemma selectCellById_calls_steps (w : State) (i : string) (c : Call) :
  In c (selectCellById_calls w i) -> c = SelectBelow \/ c = SelectAbove.
Proof.
  unfold selectCellById_calls. cbv zeta.
  destruct ((findCellIndexById w i =? -1) || (activeCellIndex w =? findCellIndexById w i));
    [intros []|].
  destruct (activeCellIndex w <? findCellIndexById w i);
    intros H; apply repeat_spec in H; auto.
Qed.

Lemma inputShownAt_ext (w w' : State) (j : Z) :
  widgets w' = widgets w ->
  (forall r, inputHidden (cells w' r) = inputHidden (cells w r)) ->
  inputShownAt w' j = inputShownAt w j.
Proof.
  intros Hw Hh. unfold inputShownAt. rewrite Hw.
  destruct (nth_error (widgets w) (Z.to_nat j)); [rewrite Hh|]; reflexivity.
Qed.

(** Once the input of [a] is hidden, every input is hidden exactly when the
    inputs of the other widgets were. *)
Lemma hiddenFlags_othersHidden (w w' : State) (a : ref) :
  widgets w' = widgets w ->
  (forall r, inputHidden (cells w' r) = Nat.eqb r a || inputHidden (cells w r)) ->
  forallb (fun h => h) (hiddenFlags w') = othersHidden w a.
Proof.
  intros Hw Hh. unfold hiddenFlags, othersHidden. rewrite Hw. clear Hw.
  induction (widgets w) as [|x l IH]; simpl; [reflexivity|].
  rewrite Hh, IH. reflexivity.
Qed.

Lemma othersHidden_ext (w w' : State) (a : ref) :
  widgets w' = widgets w ->
  (forall r, inputHidden (cells w' r) = inputHidden (cells w r)) ->
  othersHidden w' a = othersHidden w a.
Proof.
  intros Hw Hh. unfold othersHidden. rewrite Hw. clear Hw.
  induction (widgets w) as [|x l IH]; simpl; [reflexivity|].
  rewrite Hh, IH. reflexivity.
Qed.

Lemma findCellIndexById_found (w : State) (a : ref) :
  In a (widgets w) ->
  0 <= findCellIndexById w (id (cells w a)) < Z.of_nat (List.length (widgets w)).
Proof.
  intros Hin.
  destruct (findCellIndexById_spec w (id (cells w a)))
    as [(_ & _ & Hnone)|(Hr & _)]; [|exact Hr].
  exfalso. apply (Hnone a Hin). reflexivity.
Qed.

(** ** The linking block *)

(** What the block under [if (assistanceCell)] does, in safe mode and
    outside it.  It runs to its end in safe mode, and outside safe mode
    when some widget other than the generated cell shows its input;
    otherwise the [selectBelow] that follows the hiding of the generated
    cell's input throws, and the trigger is neither linked nor marked. *)
Lemma linkAssistanceCell_outcome (host : Host) (t a : ref) (safe : bool)
  (w : State) :
  cursor_wf w ->
  a <> t ->
  In a (widgets w) ->
  let ta := findCellIndexById w (id (cells w a)) in
  let completes := safe || negb (othersHidden w a) in
  exists c w',
    linkAssistanceCell t safe a w = (c, w') /\
    exists steps,
      c = (if completes then Normal tt else Thrown TypeError) /\
      widgets w' = widgets w /\
      currentWidget w' = currentWidget w /\
      deletedCells w' = deletedCells w /\
      cursor_wf w' /\
      sameCellData w w' /\
      (forall r, r <> t -> r <> a -> cells w' r = cells w r) /\
      ChapyterCell (cells w' a) = Some (mkMeta (Some (id (cells w t))) generated) /\
      inputHidden (cells w' a) = (if safe then inputHidden (cells w a) else true) /\
      inputHidden (cells w' t) = inputHidden (cells w t) /\
      ChapyterCell (cells w' t) =
        (if completes then Some (mkMeta (Some (id (cells w a))) original)
         else ChapyterCell (cells w t)) /\
      classes (cells w' t) =
        (if completes
         then classList_remove CHAPYTER_CHAT_CELL_EXECUTING
                (classList_add CHAPYTER_CHAT_CELL (classes (cells w t)))
         else classes (cells w t)) /\
      classes (cells w' a) =
        (if completes
         then classList_add CHAPYTER_ASSISTANCE_CELL (classes (cells w a))
         else classes (cells w a)) /\
      trace w' =
        trace w
        ++ [SetMetadata a (mkMeta (Some (id (cells w t))) generated)]
        ++ selectCellById_calls w (id (cells w a))
        ++ (if safe then []
            else [Run; SetInputHidden a true] ++ steps ++ [SelectBelow])
        ++ (if completes
            then [SetMetadata t (mkMeta (Some (id (cells w a))) original);
                  AddClass t CHAPYTER_CHAT_CELL;
                  RemoveClass t CHAPYTER_CHAT_CELL_EXECUTING;
                  AddClass a CHAPYTER_ASSISTANCE_CELL]
            else []) /\
      (forall x, In x steps -> x = SelectBelow \/ x = SelectAbove) /\
      (safe = true -> selectCellById_calls w (id (cells w a)) = [] ->
       activeCellIndex w' = activeCellIndex w) /\
      (skipsHidden host ->
       inputShownAt w (activeCellIndex w) = true -> inputShownAt w ta = true ->
       if safe then activeCellIndex w' = ta
       else
         steps = [] /\
         forall j, ta < j -> inputShownAt w' j = true ->
                   (forall k, ta < k < j -> inputShownAt w' k = false) ->
                   activeCellIndex w' = j).
Proof.
  intros Hwf Hat Hin. cbv zeta.
  assert (Hta : (t =? a)%nat = false) by (apply Nat.eqb_neq; congruence).
  assert (Hat' : (a =? t)%nat = false) by (apply Nat.eqb_neq; congruence).
  assert (Hrest : forall r, r <> t -> r <> a ->
            (r =? a)%nat = false /\ (r =? t)%nat = false).
  { intros r Hrt Hra. split; apply Nat.eqb_neq; assumption. }
  pose proof (findCellIndexById_found w a Hin) as Hfound.
  apply wpx_elim. unfold linkAssistanceCell.
  repeat wpx_step.
  set (w2 := logCall (SetMetadata a (mkMeta (Some (id (cells w t))) generated))
               (withCell a
                  (cell_setChapyterCell (mkMeta (Some (id (cells w t))) generated))
                  w)).
  assert (Hid2 : forall r, id (cells w2 r) = id (cells w r))
    by (intros r; unfold w2; st_simpl; upd_frame; reflexivity).
  assert (Hh2 : forall r, inputHidden (cells w2 r) = inputHidden (cells w r))
    by (intros r; unfold w2; st_simpl; upd_frame; reflexivity).
  assert (Hcalls : selectCellById_calls w2 (id (cells w2 a))
                   = selectCellById_calls w (id (cells w a))).
  { rewrite Hid2. apply selectCellById_calls_ext; auto. }
  assert (Hix2 : findCellIndexById w2 (id (cells w2 a))
                 = findCellIndexById w (id (cells w a))).
  { rewrite Hid2. apply findCellIndexById_ext; auto. }
  assert (Hsh2 : forall j, inputShownAt w2 j = inputShownAt w j)
    by (intros j; apply inputShownAt_ext; auto).
  destruct safe; cbn [negb when orb].
  - repeat wpx_step.
    apply (wpx_selectCellById host); [exact Hwf|].
    intros wA (HcA & HwA & HdA & HdelA) HwfA HtrA HzA HcurA.
    rewrite Hcalls in HtrA, HzA. rewrite Hix2, !Hsh2 in HcurA.
    repeat wpx_step.
    exists []. unfold sameCellData. st_simpl.
    rewrite HcA, HdelA. unfold w2. st_simpl.
    rewrite ?Nat.eqb_refl, ?Hta, ?Hat'.
    split; [reflexivity|]. split; [exact HdA|]. split; [exact HwA|].
    split; [reflexivity|]. split; [exact HwfA|].
    split; [intros r; upd_frame; auto|].
    split.
    { intros r Hrt Hra. destruct (Hrest r Hrt Hra) as [-> ->].
      rewrite !updateCell_false. reflexivity. }
    split; [upd_frame; reflexivity|].
    split; [upd_frame; reflexivity|].
    split; [upd_frame; reflexivity|].
    split; [upd_frame; reflexivity|].
    split; [upd_classes; reflexivity|].
    split; [upd_classes; reflexivity|].
    split.
    { upd_frame. rewrite HtrA. unfold w2. st_simpl.
      rewrite <- !app_assoc. reflexivity. }
    split; [intros x []|].
    split; [intros _ Hnil; apply HzA; exact Hnil|].
    intros Hskip Hsa Hst. apply HcurA; try assumption. lia.
  - repeat wpx_step.
    apply (wpx_selectCellById host); [exact Hwf|].
    intros wA (HcA & HwA & HdA & HdelA) HwfA HtrA HzA HcurA.
    rewrite Hcalls in HtrA, HzA. rewrite Hix2, !Hsh2 in HcurA.
    repeat wpx_step.
    set (w5 := logCall (SetInputHidden a true)
                 (withCell a (cell_setInputHidden true) (logCall Run wA))).
    assert (Hid5 : forall r, id (cells w5 r) = id (cells w r)).
    { intros r. unfold w5. st_simpl. rewrite HcA. upd_frame. apply Hid2. }
    assert (Hix5 : findCellIndexById w5 (id (cells w5 a))
                   = findCellIndexById w (id (cells w a))).
    { rewrite Hid5. apply findCellIndexById_ext; [exact HdA | exact Hid5]. }
    assert (Hh5 : forall r, inputHidden (cells w5 r)
                            = Nat.eqb r a || inputHidden (cells w r)).
    { intros r. unfold w5. st_simpl. rewrite HcA.
      destruct (Nat.eqb r a); [reflexivity|].
      rewrite updateCell_false. apply Hh2. }
    apply (wpx_selectCellById host); [exact HwfA|].
    intros wB (HcB & HwB & HdB & HdelB) HwfB HtrB HzB HcurB.
    pose proof (selectCellById_calls_steps w5 (id (cells w5 a))) as Hsteps.
    assert (Hnil5 : activeCellIndex w5 = findCellIndexById w5 (id (cells w5 a)) ->
                    selectCellById_calls w5 (id (cells w5 a)) = [])
      by apply selectCellById_calls_at_target.
    set (steps := selectCellById_calls w5 (id (cells w5 a))) in *.
    clearbody steps.
    assert (HflagsB : forallb (fun h => h) (hiddenFlags wB) = othersHidden w a).
    { apply hiddenFlags_othersHidden.
      - rewrite HdB. unfold w5. st_simpl. exact HdA.
      - intros r. rewrite HcB. apply Hh5. }
    assert (HactB : hasActiveCell wB = true).
    { apply hasActiveCell_wf; [exact HwfB|].
      rewrite HdB. unfold w5. st_simpl. rewrite HdA. unfold w2. st_simpl.
      intros E. rewrite E in Hin. exact Hin. }
    assert (HtrB' : trace wB =
              trace w
              ++ [SetMetadata a (mkMeta (Some (id (cells w t))) generated)]
              ++ selectCellById_calls w (id (cells w a))
              ++ [Run; SetInputHidden a true]
              ++ steps).
    { rewrite HtrB. unfold w5 at 1. st_simpl. rewrite HtrA.
      unfold w2. st_simpl. rewrite <- !app_assoc. reflexivity. }
    assert (Hcursor : skipsHidden host ->
              inputShownAt w (activeCellIndex w) = true ->
              inputShownAt w (findCellIndexById w (id (cells w a))) = true ->
              steps = [] /\
              activeCellIndex wB = findCellIndexById w (id (cells w a))).
    { intros Hskip Hsa Hst.
      assert (HA : activeCellIndex wA = findCellIndexById w (id (cells w a)))
        by (apply HcurA; try assumption; lia).
      assert (H5 : activeCellIndex w5 = findCellIndexById w5 (id (cells w5 a)))
        by (rewrite Hix5; exact HA).
      pose proof (Hnil5 H5) as Hnil.
      split; [exact Hnil|]. rewrite (HzB Hnil). exact HA. }
    apply wpx_bind. apply (wpx_selectBelow host).
    + intros _ Hall. rewrite HflagsB in Hall. rewrite Hall. cbn [negb].
      exists steps.
      unfold sameCellData, cursor_wf. st_simpl.
      rewrite HcB, HdelB, HdB, HwB. unfold w5. st_simpl.
      rewrite HcA, HdelA, HdA, HwA. unfold w2. st_simpl.
      rewrite ?Nat.eqb_refl, ?Hta, ?Hat'.
      split; [reflexivity|]. split; [reflexivity|]. split; [reflexivity|].
      split; [reflexivity|].
      split.
      { destruct HwfB as [HB|HB]; [left|right];
          rewrite HdB in HB; unfold w5 in HB; st_simpl; rewrite HdA in HB;
          exact HB. }
      split; [intros r; upd_frame; auto|].
      split.
      { intros r Hrt Hra. destruct (Hrest r Hrt Hra) as [Ea Et].
        rewrite ?Ea, ?Et, !updateCell_false. reflexivity. }
      split; [upd_frame; reflexivity|].
      split; [upd_frame; reflexivity|].
      split; [upd_frame; reflexivity|].
      split; [upd_frame; reflexivity|].
      split; [upd_classes; reflexivity|].
      split; [upd_classes; reflexivity|].
      split.
      { fold w2. fold w5. rewrite HtrB'. rewrite <- !app_assoc. cbn [app].
        rewrite ?app_nil_r. reflexivity. }
      split; [exact Hsteps|].
      split; [discriminate|].
      intros Hskip Hsa Hst. split; [apply (Hcursor Hskip Hsa Hst)|].
      intros j _ Hsj _. exfalso.
      assert (Hshown : shownIn (hiddenFlags wB) j).
      { apply shownIn_inputShownAt. rewrite <- Hsj.
        apply inputShownAt_ext; [reflexivity|].
        intros r. st_simpl. reflexivity. }
      apply shownIn_some in Hshown. rewrite HflagsB in Hshown. congruence.
    + intros _ Hsome. rewrite HflagsB in Hsome. rewrite Hsome. cbn [negb].
      repeat wpx_step.
      exists steps.
      unfold sameCellData, cursor_wf. st_simpl.
      rewrite HcB, HdelB, HdB, HwB. unfold w5. st_simpl.
      rewrite HcA, HdelA, HdA, HwA. unfold w2. st_simpl.
      rewrite ?Nat.eqb_refl, ?Hta, ?Hat'.
      split; [reflexivity|]. split; [reflexivity|]. split; [reflexivity|].
      split; [reflexivity|].
      split; [apply clampIndex_wf|].
      split; [intros r; upd_frame; auto|].
      split.
      { intros r Hrt Hra. destruct (Hrest r Hrt Hra) as [Ea Et].
        rewrite ?Ea, ?Et, !updateCell_false. reflexivity. }
      split; [upd_frame; reflexivity|].
      split; [upd_frame; reflexivity|].
      split; [upd_frame; reflexivity|].
      split; [upd_frame; reflexivity|].
      split; [upd_classes; reflexivity|].
      split; [upd_classes; reflexivity|].
      split.
      { fold w2. fold w5. upd_frame. rewrite HtrB'. rewrite <- !app_assoc.
        reflexivity. }
      split; [exact Hsteps|].
      split; [discriminate|].
      intros Hskip Hsa Hst.
      destruct (Hcursor Hskip Hsa Hst) as [Hnil HB].
      split; [exact Hnil|].
      intros j Hj Hsj Hbetween.
      set (wF := _ : State) in Hsj, Hbetween.
      assert (Hext : forall x, inputShownAt wF x = true <->
                               shownIn (hiddenFlags wB) x).
      { intros x. rewrite shownIn_inputShownAt.
        replace (inputShownAt wF x) with (inputShownAt wB x); [tauto|].
        symmetry. apply inputShownAt_ext.
        - unfold wF. st_simpl. reflexivity.
        - intros r. unfold wF. st_simpl. upd_frame. reflexivity. }
      apply Hext in Hsj.
      assert (Hstep : stepBelow (hiddenFlags wB) (activeCellIndex wB) = j).
      { rewrite HB. apply (Hskip (hiddenFlags wB) _ j Hsj); [|lia].
        intros k Hk Hsk. apply Hext in Hsk.
        rewrite Hbetween in Hsk by lia. discriminate. }
      rewrite Hstep. apply clampIndex_id.
      pose proof (shownIn_range _ _ Hsj) as Hr.
      rewrite hiddenFlags_length, HdB in Hr. unfold w5 in Hr. st_simpl.
      rewrite HdA in Hr. exact Hr.
    + intros Hno. rewrite HactB in Hno. discriminate.
Qed.

(** ** The [executed] handler of a trigger cell *)

Lemma tagOriginal_frame (t : ref) (w : State) :
  widgets (tagOriginal t w) = widgets w /\
  currentWidget (tagOriginal t w) = currentWidget w /\
  activeCellIndex (tagOriginal t w) = activeCellIndex w /\
  trace (tagOriginal t w) = trace w ++ tagOriginal_calls t w /\
  sameCellData w (tagOriginal t w) /\
  (forall r, inputHidden (cells (tagOriginal t w) r) = inputHidden (cells w r)) /\
  (forall r, r <> t ->
             ChapyterCell (cells (tagOriginal t w) r) = ChapyterCell (cells w r)) /\
  (forall m, ChapyterCell (cells w t) = Some m ->
             ChapyterCell (cells (tagOriginal t w) t) = Some m).
Proof.
  unfold tagOriginal, tagOriginal_calls, sameCellData.
  destruct (ChapyterCell (cells w t)) as [m|] eqn:E.
  - rewrite app_nil_r. repeat split; auto. congruence.
  - st_simpl. do 4 (split; [reflexivity|]).
    split; [intros r; upd_frame; auto|].
    split; [intros r; upd_frame; reflexivity|].
    split; [|discriminate].
    intros r Hr. rewrite (proj2 (Nat.eqb_neq r t) Hr). upd_frame. reflexivity.
Qed.

Lemma tagOriginal_more (t : ref) (w : State) :
  deletedCells (tagOriginal t w) = deletedCells w /\
  (forall r, classes (cells (tagOriginal t w) r) = classes (cells w r)) /\
  (forall r, r <> t -> cells (tagOriginal t w) r = cells w r) /\
  (ChapyterCell (cells w t) = None ->
   ChapyterCell (cells (tagOriginal t w) t) = Some (mkMeta None original)).
Proof.
  unfold tagOriginal. destruct (ChapyterCell (cells w t)) eqn:E.
  - repeat split; auto; discriminate.
  - st_simpl. split; [reflexivity|]. split; [intros r; upd_classes; reflexivity|].
    split.
    + intros r Hr. rewrite (proj2 (Nat.eqb_neq r t) Hr). reflexivity.
    + intros _. rewrite Nat.eqb_refl. reflexivity.
Qed.

(** The trigger's metadata after the tagging. *)
Lemma tagOriginal_metadata (t : ref) (w : State) :
  ChapyterCell (cells (tagOriginal t w) t) =
  match ChapyterCell (cells w t) with
  | Some m => Some m
  | None => Some (mkMeta None original)
  end.
Proof.
  destruct (ChapyterCell (cells w t)) as [m|] eqn:E.
  - apply (tagOriginal_frame t w). exact E.
  - apply (tagOriginal_more t w). exact E.
Qed.

(** Up to the search, the [executed] handler of a trigger cell tags the
    trigger if it has no metadata yet and records the search. *)
Lemma onExecuted_search (host : Host) (w : State) (t : ref) :
  currentWidget w = true ->
  isCellChapyterMagicCell (cells w t) true = true ->
  isCellNotGenerated (cells w t) = true ->
  let e := ofExecutionCount (executionCount (cells w t)) in
  let w1 := logCall (SearchTemplate e) (tagOriginal t w) in
  onExecuted (mkArgs t true) w =
  match findCellByTemplateString w e with
  | Some a => linkAssistanceCell t (isCellChapyterMagicCellSafeMode (cells w t)) a w1
  | None => (Normal tt, w1)
  end.
Proof.
  intros Hcur Hm Hn. cbv zeta.
  destruct (tagOriginal_frame t w) as (Hw & Hc & _ & _ & Hd & _).
  unfold onExecuted. cbn [success cell].
  rewrite !bind_gets, Hm, Hn. cbn [andb].
  unfold getChapyterCell. rewrite bind_gets.
  rewrite (bind_normal _ _ w (tagOriginal t w) tt)
    by (unfold tagOriginal; destruct (ChapyterCell (cells w t)); reflexivity).
  rewrite !bind_gets, Hc, Hcur, bind_gets, bind_modify, bind_gets.
  destruct (Hd t) as (_ & _ & Hs & He & _).
  unfold isCellChapyterMagicCellSafeMode. rewrite Hs, He.
  rewrite (findCellByTemplateString_ext w
             (logCall (SearchTemplate
                         (ofExecutionCount (executionCount (cells w t))))
                (tagOriginal t w)))
    by (st_simpl;
        first [exact Hw | intros r; destruct (Hd r) as (_ & ? & ? & _); auto]).
  destruct (findCellByTemplateString w
              (ofExecutionCount (executionCount (cells w t)))); reflexivity.
Qed.

Lemma sameCellData_trans (w1 w2 w3 : State) :
  sameCellData w1 w2 -> sameCellData w2 w3 -> sameCellData w1 w3.
Proof.
  intros H1 H2 r.
  destruct (H1 r) as (A1 & A2 & A3 & A4 & A5).
  destruct (H2 r) as (B1 & B2 & B3 & B4 & B5).
  repeat split; congruence.
Qed.

(** The [executed] handler on a trigger cell whose generated cell is found:
    how it ends and the state it leaves, read against the state it started
    from.  It runs to its end in safe mode, and outside safe mode when some
    widget other than the generated cell shows its input; otherwise it
    stops at the [selectBelow] that follows the hiding of the generated
    cell's input. *)
Lemma onExecuted_outcome (host : Host) (w : State) (t a : ref) :
  currentWidget w = true ->
  cursor_wf w ->
  isCellChapyterMagicCell (cells w t) true = true ->
  isCellNotGenerated (cells w t) = true ->
  findCellByTemplateString w (ofExecutionCount (executionCount (cells w t)))
    = Some a ->
  let safe := isCellChapyterMagicCellSafeMode (cells w t) in
  let ta := findCellIndexById w (id (cells w a)) in
  let completes := safe || negb (othersHidden w a) in
  exists c w',
    onExecuted (mkArgs t true) w = (c, w') /\
    exists steps,
      c = (if completes then Normal tt else Thrown TypeError) /\
      widgets w' = widgets w /\
      currentWidget w' = true /\
      deletedCells w' = deletedCells w /\
      cursor_wf w' /\
      sameCellData w w' /\
      (forall r, r <> t -> r <> a -> cells w' r = cells w r) /\
      ChapyterCell (cells w' a) = Some (mkMeta (Some (id (cells w t))) generated) /\
      inputHidden (cells w' a) = (if safe then inputHidden (cells w a) else true) /\
      inputHidden (cells w' t) = inputHidden (cells w t) /\
      ChapyterCell (cells w' t) =
        (if completes then Some (mkMeta (Some (id (cells w a))) original)
         else match ChapyterCell (cells w t) with
              | Some m => Some m
              | None => Some (mkMeta None original)
              end) /\
      classes (cells w' t) =
        (if completes
         then classList_remove CHAPYTER_CHAT_CELL_EXECUTING
                (classList_add CHAPYTER_CHAT_CELL (classes (cells w t)))
         else classes (cells w t)) /\
      classes (cells w' a) =
        (if completes
         then classList_add CHAPYTER_ASSISTANCE_CELL (classes (cells w a))
         else classes (cells w a)) /\
      trace w' =
        trace w
        ++ tagOriginal_calls t w
        ++ [SearchTemplate (ofExecutionCount (executionCount (cells w t)));
            SetMetadata a (mkMeta (Some (id (cells w t))) generated)]
        ++ selectCellById_calls w (id (cells w a))
        ++ (if safe then []
            else [Run; SetInputHidden a true] ++ steps ++ [SelectBelow])
        ++ (if completes
            then [SetMetadata t (mkMeta (Some (id (cells w a))) original);
                  AddClass t CHAPYTER_CHAT_CELL;
                  RemoveClass t CHAPYTER_CHAT_CELL_EXECUTING;
                  AddClass a CHAPYTER_ASSISTANCE_CELL]
            else []) /\
      (forall x, In x steps -> x = SelectBelow \/ x = SelectAbove) /\
      (safe = true -> selectCellById_calls w (id (cells w a)) = [] ->
       activeCellIndex w' = activeCellIndex w) /\
      (skipsHidden host ->
       inputShownAt w (activeCellIndex w) = true -> inputShownAt w ta = true ->
       if safe then activeCellIndex w' = ta
       else
         steps = [] /\
         forall j, ta < j -> inputShownAt w' j = true ->
                   (forall k, ta < k < j -> inputShownAt w' k = false) ->
                   activeCellIndex w' = j).
Proof.
  intros Hcur Hwf Hm Hn Hf. cbv zeta.
  pose proof (found_not_trigger _ _ _ _ _ Hm Hf) as Hat.
  pose proof (proj1 (findCellByTemplateString_found _ _ _ Hf)) as Hin.
  rewrite (onExecuted_search host w t Hcur Hm Hn). cbv zeta. rewrite Hf.
  destruct (tagOriginal_frame t w) as (Hw & Hc & Ha & Htr & Hd & Hh & Hmd & _).
  destruct (tagOriginal_more t w) as (Hdel & Hcl & Hrest & _).
  pose proof (tagOriginal_metadata t w) as Hmt.
  set (e := ofExecutionCount (executionCount (cells w t))) in *.
  set (w1 := logCall (SearchTemplate e) (tagOriginal t w)).
  assert (Hwf1 : cursor_wf w1).
  { unfold cursor_wf, w1. st_simpl. rewrite Hw, Ha. exact Hwf. }
  assert (Hid : forall r, id (cells w1 r) = id (cells w r))
    by (intros r; unfold w1; st_simpl; apply Hd).
  assert (Hh1 : forall r, inputHidden (cells w1 r) = inputHidden (cells w r))
    by (intros r; unfold w1; st_simpl; apply Hh).
  assert (Hw1 : widgets w1 = widgets w) by (unfold w1; st_simpl; exact Hw).
  assert (Ha1 : activeCellIndex w1 = activeCellIndex w)
    by (unfold w1; st_simpl; exact Ha).
  assert (Hix : findCellIndexById w1 (id (cells w a))
                = findCellIndexById w (id (cells w a)))
    by (apply findCellIndexById_ext; [exact Hw1 | exact Hid]).
  assert (Hcalls : selectCellById_calls w1 (id (cells w a))
                   = selectCellById_calls w (id (cells w a)))
    by (apply selectCellById_calls_ext; auto).
  assert (Hoth : othersHidden w1 a = othersHidden w a)
    by (apply othersHidden_ext; auto).
  assert (Hsh : forall j, inputShownAt w1 j = inputShownAt w j)
    by (intros j; apply inputShownAt_ext; auto).
  assert (Hin1 : In a (widgets w1)) by (rewrite Hw1; exact Hin).
  destruct (linkAssistanceCell_outcome host t a
              (isCellChapyterMagicCellSafeMode (cells w t)) w1 Hwf1 Hat Hin1)
    as (c & w' & He & steps & P1 & P2 & P3 & P4 & P5 & P6 & P7 & P8 & P9 & P10
        & P11 & P12 & P13 & P14 & P15 & P16 & P17).
  cbv zeta in *.
  rewrite !Hid, ?Hoth, ?Hix, ?Hcalls, ?Ha1, ?Hsh in *.
  exists c, w'. split; [exact He|]. exists steps.
  split; [exact P1|].
  split; [rewrite P2; exact Hw1|].
  split; [rewrite P3; unfold w1; st_simpl; rewrite Hc; exact Hcur|].
  split; [rewrite P4; unfold w1; st_simpl; exact Hdel|].
  split; [exact P5|].
  split; [apply (sameCellData_trans w w1 w'); [exact Hd | exact P6]|].
  split; [intros r Hrt Hra; rewrite (P7 r Hrt Hra); unfold w1; st_simpl;
          apply Hrest; exact Hrt|].
  split; [exact P8|].
  split; [rewrite P9, Hh1; reflexivity|].
  split; [rewrite P10, Hh1; reflexivity|].
  split; [rewrite P11; unfold w1; st_simpl; rewrite Hmt; reflexivity|].
  split; [rewrite P12; unfold w1; st_simpl; rewrite Hcl; reflexivity|].
  split; [rewrite P13; unfold w1; st_simpl; rewrite Hcl; reflexivity|].
  split.
  { rewrite P14. unfold w1 at 1. st_simpl. rewrite Htr, <- !app_assoc.
    reflexivity. }
  split; [exact P15|]. split; [exact P16 | exact P17].
Qed.

(** C4 fails on the code: a trigger cell whose own input is hidden is run
    with its generated cell as the only other cell.  Outside safe mode the
    handler tags the generated cell, requests its run and hides its input;
    no input is shown any more, [selectBelow] throws, and the handler stops
    before the trigger's metadata is written: the generated cell names the
    trigger and the trigger names no cell.  No step of the host is reached
    before the throw. *)
Theorem onExecuted_link_interrupted (host : Host) :
  let w := Sample.notebook
             [mkCell "t" code "%chat plot the data" (Some 3) None None true [];
              Sample.plain "g" "# Assistant Code for Cell [3]:
plot(data)"]
             [0%nat; 1%nat] 0 in
  let result := onExecuted (mkArgs 0%nat true) w in
  cursor_wf w /\
  isCellChapyterMagicCell (cells w 0%nat) true = true /\
  isCellNotGenerated (cells w 0%nat) = true /\
  findCellByTemplateString w (ofExecutionCount (executionCount (cells w 0%nat)))
    = Some 1%nat /\
  fst result = Thrown TypeError /\
  trace (snd result) =
    [SetMetadata 0%nat (mkMeta None original);
     SearchTemplate (EidNumber 3);
     SetMetadata 1%nat (mkMeta (Some "t") generated);
     Run;
     SetInputHidden 1%nat true;
     SelectBelow] /\
  ChapyterCell (cells (snd result) 1%nat) = Some (mkMeta (Some "t") generated) /\
  ChapyterCell (cells (snd result) 0%nat) = Some (mkMeta None original).
Proof.
  intros w result. split; [right; simpl; lia|].
  repeat split; vm_compute; reflexivity.
Qed.

Lemma tagOriginal_calls_metadata (t : ref) (w : State) (c : Call) :
  In c (tagOriginal_calls t w) -> c = SetMetadata t (mkMeta None original).
Proof.
  unfold tagOriginal_calls. destruct (ChapyterCell (cells w t)); simpl;
    intuition congruence.
Qed.

(** C5 fails on the code: a trigger cell in safe mode whose own input is
    hidden is run with its generated cell right below it.  The handler
    links the two cells, requests no run and hides nothing, but its
    navigation issues no step, whatever the host does on a step: the cursor
    stays on the trigger, at position 0, and the generated cell is at
    position 1. *)
Theorem onExecuted_safe_mode_misses_target (host : Host) :
  let w := Sample.notebook
             [mkCell "t" code "%chat -s plot the data" (Some 3) None None true [];
              Sample.plain "g" "# Assistant Code for Cell [3]:
plot(data)"]
             [0%nat; 1%nat] 0 in
  let result := onExecuted (mkArgs 0%nat true) w in
  cursor_wf w /\
  isCellChapyterMagicCell (cells w 0%nat) true = true /\
  isCellNotGenerated (cells w 0%nat) = true /\
  isCellChapyterMagicCellSafeMode (cells w 0%nat) = true /\
  findCellByTemplateString w (ofExecutionCount (executionCount (cells w 0%nat)))
    = Some 1%nat /\
  fst result = Normal tt /\
  trace (snd result) =
    [SetMetadata 0%nat (mkMeta None original);
     SearchTemplate (EidNumber 3);
     SetMetadata 1%nat (mkMeta (Some "t") generated);
     SetMetadata 0%nat (mkMeta (Some "g") original);
     AddClass 0%nat CHAPYTER_CHAT_CELL;
     RemoveClass 0%nat CHAPYTER_CHAT_CELL_EXECUTING;
     AddClass 1%nat CHAPYTER_ASSISTANCE_CELL] /\
  inputHidden (cells (snd result) 1%nat) = false /\
  widgets (snd result) = [0%nat; 1%nat] /\
  activeCellIndex (snd result) = 0.
Proof.
  intros w result. split; [right; simpl; lia|].
  repeat split; vm_compute; reflexivity.
Qed.

(** No host makes the handler end on the generated cell in every such
    state. *)
Lemma onExecuted_safe_mode_counterexample :
  ~ (exists host : Host,
       forall (w w' : State) (t a : ref),
         currentWidget w = true ->
         cursor_wf w ->
         isCellChapyterMagicCell (cells w t) true = true ->
         isCellNotGenerated (cells w t) = true ->
         isCellChapyterMagicCellSafeMode (cells w t) = true ->
         findCellByTemplateString w
           (ofExecutionCount (executionCount (cells w t))) = Some a ->
         onExecuted (mkArgs t true) w = (Normal tt, w') ->
         nth_error (widgets w') (Z.to_nat (activeCellIndex w')) = Some a).
Proof.
  intros [host H].
  set (w := Sample.notebook
              [mkCell "t" code "%chat -s plot the data" (Some 3) None None true [];
               Sample.plain "g" "# Assistant Code for Cell [3]:
plot(data)"]
              [0%nat; 1%nat] 0).
  specialize (H w (snd (onExecuted (mkArgs 0%nat true) w)) 0%nat 1%nat).
  assert (Hw : cursor_wf w) by (right; simpl; lia).
  specialize (H eq_refl Hw eq_refl eq_refl eq_refl eq_refl eq_refl).
  vm_compute in H. discriminate.
Qed.

(** ** Orchestrator: the [executionScheduled] handler *)

(** The [executionScheduled] handler on a trigger cell whose metadata names
    a cell of the notebook: the state in which it returns. *)
Lemma onExecutionScheduled_linked (host : Host) (w : State) (t g : ref)
  (l : string) (m : ChapyterCellMetadata) :
  currentWidget w = true ->
  cursor_wf w ->
  isCellChapyterMagicCell (cells w t) false = true ->
  isCellNotGenerated (cells w t) = true ->
  ChapyterCell (cells w t) = Some m ->
  linkedCellId m = Some l ->
  Str.truthy l = true ->
  findCellById w l = Some g ->
  exists w1,
    onExecutionScheduled t w = (Normal tt, w1) /\
    widgets w1 =
      (if isDeletable (cells w g)
       then filter (fun r => negb (Nat.eqb r g)) (widgets w)
       else widgets w) /\
    currentWidget w1 = currentWidget w /\
    cursor_wf w1 /\
    sameCellData w w1 /\
    (forall r, ChapyterCell (cells w1 r) = ChapyterCell (cells w r)) /\
    (forall r, inputHidden (cells w1 r) = inputHidden (cells w r)).
Proof.
  intros Hcur Hwf Hm Hn Hmd Hl Htruthy Hfind.
  apply wp_unit_elim. unfold onExecutionScheduled.
  repeat wp_step. rewrite Hm, Hn. cbn [andb].
  repeat wp_step.
  set (w0 := logCall (ToggleClass t CHAPYTER_CHAT_CELL_EXECUTING)
               (withCell t
                  (fun x => cell_setClasses
                              (classList_toggle CHAPYTER_CHAT_CELL_EXECUTING
                                 (classes x)) x) w)).
  assert (Hd0 : sameCellData w w0)
    by (intros r; unfold w0; st_simpl; upd_frame; auto).
  assert (Hmd0 : forall r, ChapyterCell (cells w0 r) = ChapyterCell (cells w r))
    by (intros r; unfold w0; st_simpl; upd_frame; reflexivity).
  assert (Hh0 : forall r, inputHidden (cells w0 r) = inputHidden (cells w r))
    by (intros r; unfold w0; st_simpl; upd_frame; reflexivity).
  rewrite Hmd0, Hmd, Hl.
  repeat wp_step. replace (currentWidget w0) with true by (symmetry; exact Hcur).
  rewrite Htruthy.
  repeat wp_step.
  set (w1 := logCall (SearchId l) w0).
  assert (Hf1 : findCellById w1 l = Some g).
  { rewrite <- Hfind. apply findCellById_ext; [reflexivity|].
    intros r. apply Hd0. }
  rewrite Hf1.
  repeat wp_step.
  destruct (deleteCell_final_frame g w1) as [Hc2 Hcw2].
  pose proof (deleteCell_final_widgets g w1) as Hw2.
  assert (Hwf2 : cursor_wf (deleteCell_final g w1))
    by (apply deleteCell_final_cursor_wf; exact Hwf).
  apply (wp_selectCellById host); [exact Hwf2|].
  intros w' (HcA & HwA & HdA & _) HwfA _ _ _.
  unfold sameCellData.
  rewrite HdA, HwA, HcA, Hc2, Hcw2, Hw2.
  assert (Hdel : deletable (cells w1 g) = deletable (cells w g)) by apply (Hd0 g).
  unfold isDeletable at 1. rewrite Hdel. fold (isDeletable (cells w g)).
  repeat split; try assumption; try apply Hd0; try apply Hmd0; try apply Hh0.
Qed.

(** ** Link census *)

Lemma isLinkedGenerated_ext (c c' : Cell) (tid : string) :
  ChapyterCell c' = ChapyterCell c ->
  isLinkedGenerated c' tid = isLinkedGenerated c tid.
Proof. intros H. unfold isLinkedGenerated. rewrite H. reflexivity. Qed.

Lemma filter_none {A : Type} (f : A -> bool) (l : list A) :
  (forall x, In x l -> f x = false) -> filter f l = [].
Proof.
  induction l as [|x l IH]; intros H; simpl; [reflexivity|].
  rewrite (H x) by (now left). apply IH. intros y Hy. apply H. now right.
Qed.

Lemma filter_unique {A : Type} (f : A -> bool) (l : list A) (a : A) :
  NoDup l -> In a l -> f a = true ->
  (forall x, In x l -> x <> a -> f x = false) ->
  filter f l = [a].
Proof.
  intros Hnd. induction Hnd as [|x l Hx Hnd IH]; intros Hin Ha Hf; [destruct Hin|].
  simpl. destruct Hin as [->|Hin].
  - rewrite Ha. f_equal. apply filter_none.
    intros y Hy. apply Hf; [now right|]. intros ->. contradiction.
  - rewrite (Hf x) by (try (now left); intros ->; contradiction).
    apply IH; auto. intros y Hy. apply Hf. now right.
Qed.

Lemma findCellById_none (w : State) (i : string) :
  (forall r, In r (widgets w) -> id (cells w r) <> i) -> findCellById w i = None.
Proof.
  unfold findCellById. induction (widgets w) as [|x l IH]; intros H; simpl;
    [reflexivity|].
  destruct (String.eqb_spec (id (cells w x)) i) as [E|_].
  - exfalso. apply (H x); [now left | exact E].
  - apply IH. intros r Hr. apply H. now right.
Qed.

(** After the [executed] handler has tagged the cell it found, that cell
    is the one generated cell linked to the trigger, provided none was
    linked before: the tag is written before any step of the cursor, so
    this holds whether the handler runs to its end or stops at
    [selectBelow]. *)
Lemma onExecuted_exactly_one (host : Host) (w : State) (t a : ref) :
  currentWidget w = true ->
  cursor_wf w ->
  NoDup (widgets w) ->
  isCellChapyterMagicCell (cells w t) true = true ->
  isCellNotGenerated (cells w t) = true ->
  linkedGenerated w (id (cells w t)) = [] ->
  findCellByTemplateString w (ofExecutionCount (executionCount (cells w t)))
    = Some a ->
  exists c w',
    onExecuted (mkArgs t true) w = (c, w') /\
    linkedGenerated w' (id (cells w t)) = [a] /\
    (isCellChapyterMagicCellSafeMode (cells w t) = true \/
     othersHidden w a = false -> c = Normal tt).
Proof.
  intros Hcur Hwf Hnd Hm Hn Hnone Hf.
  destruct (onExecuted_outcome host w t a Hcur Hwf Hm Hn Hf)
    as (c & w' & He & steps & Hc & Hw & _ & _ & _ & _ & Hother & Ha & _ & _
        & Ht & _).
  cbv zeta in *.
  exists c, w'. split; [exact He|]. split.
  - unfold linkedGenerated. rewrite Hw.
    apply filter_unique.
    + exact Hnd.
    + apply (findCellByTemplateString_found _ _ _ Hf).
    + unfold isLinkedGenerated. rewrite Ha. simpl. apply String.eqb_refl.
    + intros r Hr Hra.
      assert (Hbefore : isLinkedGenerated (cells w r) (id (cells w t)) = false).
      { destruct (isLinkedGenerated (cells w r) (id (cells w t))) eqn:E;
          [|reflexivity].
        exfalso.
        assert (Hin : In r (linkedGenerated w (id (cells w t))))
          by (apply filter_In; auto).
        rewrite Hnone in Hin. destruct Hin. }
      destruct (Nat.eq_dec r t) as [->|Hrt].
      * unfold isLinkedGenerated in *. rewrite Ht.
        destruct (isCellChapyterMagicCellSafeMode (cells w t)
                  || negb (othersHidden w a)); [reflexivity|].
        destruct (ChapyterCell (cells w t)); [exact Hbefore | reflexivity].
      * rewrite (Hother r Hrt Hra). exact Hbefore.
  - intros Hnormal. rewrite Hc.
    destruct Hnormal as [-> | ->]; [reflexivity|].
    cbn [negb]. rewrite orb_true_r. reflexivity.
Qed.

(** C3, amended: for a trigger cell (a magic cell not tagged as generated)
    of the tracker's current notebook whose metadata names an existing cell
    that is deletable, the [executionScheduled] handler removes that cell
    from the notebook; if it was the only generated cell linked to the
    trigger, none is linked afterwards, and from any such state the
    [executed] handler that finds a new generated cell leaves exactly that
    one linked to the trigger, whether it runs to its end, as it does in
    safe mode or when another cell shows its input, or stops at
    [selectBelow]. *)
Theorem rerun_keeps_one_generated_cell (host : Host) (w : State) (t g : ref)
  (l : string) (m : ChapyterCellMetadata) :
  currentWidget w = true ->
  cursor_wf w ->
  isCellChapyterMagicCell (cells w t) false = true ->
  isCellNotGenerated (cells w t) = true ->
  ChapyterCell (cells w t) = Some m ->
  linkedCellId m = Some l ->
  Str.truthy l = true ->
  findCellById w l = Some g ->
  isDeletable (cells w g) = true ->
  exists w1,
    onExecutionScheduled t w = (Normal tt, w1) /\
    ~ In g (widgets w1) /\
    ((forall r, In r (linkedGenerated w (id (cells w t))) -> r = g) ->
     linkedGenerated w1 (id (cells w t)) = []) /\
    (forall w2 a,
       currentWidget w2 = true ->
       cursor_wf w2 ->
       NoDup (widgets w2) ->
       isCellChapyterMagicCell (cells w2 t) true = true ->
       isCellNotGenerated (cells w2 t) = true ->
       linkedGenerated w2 (id (cells w2 t)) = [] ->
       findCellByTemplateString w2
         (ofExecutionCount (executionCount (cells w2 t))) = Some a ->
       exists c w3,
         onExecuted (mkArgs t true) w2 = (c, w3) /\
         linkedGenerated w3 (id (cells w2 t)) = [a] /\
         (isCellChapyterMagicCellSafeMode (cells w2 t) = true \/
          othersHidden w2 a = false -> c = Normal tt)).
Proof.
  intros Hcur Hwf Hm Hn Hmd Hl Htruthy Hfind Hdel.
  destruct (onExecutionScheduled_linked host w t g l m
              Hcur Hwf Hm Hn Hmd Hl Htruthy Hfind)
    as (w1 & He & Hw & _ & _ & Hd & Hmeta & _).
  rewrite Hdel in Hw.
  exists w1. split; [exact He|].
  split; [|split].
  - rewrite Hw. intros Hin. apply filter_In in Hin. destruct Hin as [_ Hneq].
    rewrite Nat.eqb_refl in Hneq. discriminate.
  - intros Honly. unfold linkedGenerated. apply filter_none.
    intros r Hr. rewrite Hw in Hr. apply filter_In in Hr. destruct Hr as [Hr Hneq].
    rewrite (isLinkedGenerated_ext (cells w r)) by apply Hmeta.
    destruct (isLinkedGenerated (cells w r) (id (cells w t))) eqn:E; [|reflexivity].
    assert (r = g) by (apply Honly; apply filter_In; auto). subst r.
    rewrite Nat.eqb_refl in Hneq. discriminate.
  - intros w2 a. apply onExecuted_exactly_one.
Qed.

Lemma rerun_keeps_one_generated_cell_witness :
  let w := Rerun.before None in
  exists w1 w3,
    onExecutionScheduled (host := jupyterHost) 0%nat w = (Normal tt, w1) /\
    ~ In 1%nat (widgets w1) /\
    onExecuted (host := jupyterHost) (mkArgs 0%nat true) (Rerun.kernelRan true w1)
      = (Normal tt, w3) /\
    linkedGenerated w3 "t" = [2%nat].
Proof.
  intros w.
  destruct (rerun_keeps_one_generated_cell jupyterHost w 0%nat 1%nat "g1"
              (mkMeta (Some "g1") original))
    as (w1 & He & Hgone & _ & Hexec); try (vm_compute; reflexivity).
  - right. vm_compute. split; [discriminate | reflexivity].
  - assert (E : w1 = snd (onExecutionScheduled (host := jupyterHost) 0%nat w))
      by (rewrite He; reflexivity).
    destruct (Hexec (Rerun.kernelRan true w1) 2%nat)
      as (c & w3 & He3 & Hone & Hnormal);
      try (rewrite E; vm_compute; reflexivity).
    + right. rewrite E. vm_compute. split; [discriminate | reflexivity].
    + rewrite E. vm_compute.
      apply NoDup_cons; [simpl; intuition discriminate|].
      apply NoDup_cons; [simpl; tauto | apply NoDup_nil].
    + assert (Hc : c = Normal tt)
        by (apply Hnormal; right; rewrite E; vm_compute; reflexivity).
      subst c.
      exists w1, w3. split; [exact He|]. split; [exact Hgone|].
      split; [exact He3|].
      replace (id (cells (Rerun.kernelRan true w1) 0%nat)) with "t" in Hone
        by (rewrite E; vm_compute; reflexivity).
      exact Hone.
Defined.

(** C3 as stated fails: when the generated cell carries the metadata
    [deletable: false], the [executionScheduled] handler leaves it in the
    notebook, and after the second run two generated cells are linked to
    the trigger. *)
Lemma rerun_undeletable_counterexample :
  let w := Rerun.before (Some false) in
  let scheduled := onExecutionScheduled (host := jupyterHost) 0%nat w in
  let executed :=
    onExecuted (host := jupyterHost) (mkArgs 0%nat true)
      (Rerun.kernelRan true (snd scheduled)) in
  isCellChapyterMagicCell (cells w 0%nat) false = true /\
  isCellNotGenerated (cells w 0%nat) = true /\
  ChapyterCell (cells w 0%nat) = Some (mkMeta (Some "g1") original) /\
  findCellById w "g1" = Some 1%nat /\
  fst scheduled = Normal tt /\
  In 1%nat (widgets (snd scheduled)) /\
  fst executed = Normal tt /\
  linkedGenerated (snd executed) "t" = [2%nat; 1%nat].
Proof.
  cbv zeta. repeat split; try (vm_compute; reflexivity).
  vm_compute. auto.
Qed.

(** ** A failed second run leaves a dangling link *)

(** When the template search finds nothing, or is not reached, the
    [executed] handler of a cell that already has metadata writes to no
    cell and leaves the widget list alone. *)
Lemma onExecuted_not_found (host : Host) (w : State) (t : ref) (ok : bool)
  (m : ChapyterCellMetadata) :
  ChapyterCell (cells w t) = Some m ->
  findCellByTemplateString w (ofExecutionCount (executionCount (cells w t)))
    = None ->
  exists w',
    onExecuted (mkArgs t ok) w = (Normal tt, w') /\
    cells w' = cells w /\
    widgets w' = widgets w.
Proof.
  intros Hmd Hf.
  destruct ok; [|exists w; auto].
  destruct (isCellChapyterMagicCell (cells w t) true) eqn:Hm;
    [|exists w; unfold onExecuted; cbn [success cell];
      rewrite !bind_gets, Hm; auto].
  destruct (isCellNotGenerated (cells w t)) eqn:Hn;
    [|exists w; unfold onExecuted; cbn [success cell];
      rewrite !bind_gets, Hm, Hn; auto].
  assert (Htag : tagOriginal t w = w) by (unfold tagOriginal; rewrite Hmd; reflexivity).
  destruct (currentWidget w) eqn:Hcur.
  - rewrite (onExecuted_search host w t Hcur Hm Hn). cbv zeta.
    rewrite Hf, Htag. eexists. split; [reflexivity|]. auto.
  - exists w. unfold onExecuted, getChapyterCell. cbn [success cell].
    rewrite !bind_gets, Hm, Hn. cbn [andb]. rewrite bind_gets, Hmd.
    unfold bind at 1. cbn [ret]. rewrite !bind_gets, Hcur. auto.
Qed.

(** C9: when the [executionScheduled] handler deletes the generated cell
    named by the trigger's metadata and the following [executed] handler
    finds no cell with the new marker, the trigger's metadata still holds
    the old [linkedCellId], and no cell of the notebook has that id. *)
Theorem failed_rerun_leaves_dangling_link (host : Host) (w : State) (t g : ref)
  (l : string) (m : ChapyterCellMetadata) :
  currentWidget w = true ->
  cursor_wf w ->
  isCellChapyterMagicCell (cells w t) false = true ->
  isCellNotGenerated (cells w t) = true ->
  ChapyterCell (cells w t) = Some m ->
  linkedCellId m = Some l ->
  Str.truthy l = true ->
  findCellById w l = Some g ->
  isDeletable (cells w g) = true ->
  (forall r, In r (widgets w) -> id (cells w r) = l -> r = g) ->
  exists w1,
    onExecutionScheduled t w = (Normal tt, w1) /\
    ~ In g (widgets w1) /\
    ChapyterCell (cells w1 t) = Some m /\
    findCellById w1 l = None /\
    (forall w2 ok,
       ChapyterCell (cells w2 t) = Some m ->
       findCellById w2 l = None ->
       findCellByTemplateString w2
         (ofExecutionCount (executionCount (cells w2 t))) = None ->
       exists w3,
         onExecuted (mkArgs t ok) w2 = (Normal tt, w3) /\
         ChapyterCell (cells w3 t) = Some m /\
         linkedCellId m = Some l /\
         findCellById w3 l = None).
Proof.
  intros Hcur Hwf Hm Hn Hmd Hl Htruthy Hfind Hdel Huniq.
  destruct (onExecutionScheduled_linked host w t g l m
              Hcur Hwf Hm Hn Hmd Hl Htruthy Hfind)
    as (w1 & He & Hw & _ & _ & Hd & Hmeta & _).
  rewrite Hdel in Hw.
  assert (Hgone : ~ In g (widgets w1)).
  { rewrite Hw. intros Hin. apply filter_In in Hin. destruct Hin as [_ Hneq].
    rewrite Nat.eqb_refl in Hneq. discriminate. }
  exists w1. split; [exact He|]. split; [exact Hgone|].
  split; [rewrite Hmeta; exact Hmd|].
  split.
  - apply findCellById_none. intros r Hr Hid.
    assert (Hrw : In r (widgets w)) by (rewrite Hw in Hr; apply filter_In in Hr; tauto).
    replace (id (cells w1 r)) with (id (cells w r)) in Hid by (symmetry; apply Hd).
    rewrite (Huniq r Hrw Hid) in Hr. contradiction.
  - intros w2 ok Hmd2 Hnone2 Hf2.
    destruct (onExecuted_not_found host w2 t ok m Hmd2 Hf2) as (w3 & He3 & Hc3 & Hw3).
    exists w3. split; [exact He3|]. split; [rewrite Hc3; exact Hmd2|].
    split; [exact Hl|].
    rewrite <- Hnone2. apply findCellById_ext; [exact Hw3|].
    intros r. rewrite Hc3. reflexivity.
Qed.

Lemma failed_rerun_leaves_dangling_link_witness :
  let w := Rerun.before None in
  exists w1 w3,
    onExecutionScheduled (host := jupyterHost) 0%nat w = (Normal tt, w1) /\
    ~ In 1%nat (widgets w1) /\
    onExecuted (host := jupyterHost) (mkArgs 0%nat true) (Rerun.kernelRan false w1)
      = (Normal tt, w3) /\
    ChapyterCell (cells w3 0%nat) = Some (mkMeta (Some "g1") original) /\
    findCellById w3 "g1" = None.
Proof.
  intros w.
  destruct (failed_rerun_leaves_dangling_link jupyterHost w 0%nat 1%nat "g1"
              (mkMeta (Some "g1") original))
    as (w1 & He & Hgone & _ & _ & Hexec); try (vm_compute; reflexivity).
  - right. vm_compute. split; [discriminate | reflexivity].
  - intros r [<-|[<-|[]]]; [discriminate | reflexivity].
  - assert (E : w1 = snd (onExecutionScheduled (host := jupyterHost) 0%nat w))
      by (rewrite He; reflexivity).
    destruct (Hexec (Rerun.kernelRan false w1) true)
      as (w3 & He3 & Hmd & _ & Hnone);
      try (rewrite E; vm_compute; reflexivity).
    exists w1, w3. repeat split; assumption.
Defined.

(** * Further properties of the code *)

(** ** Strings *)

Lemma prefix_iff_append (p s : string) :
  String.prefix p s = true <-> exists post, s = String.append p post.
Proof.
  revert s; induction p as [|a p IH]; intros s.
  - split; [intros _; exists s; reflexivity | destruct s; reflexivity].
  - destruct s as [|b s]; simpl.
    + split; [discriminate | intros [post H]; discriminate].
    + destruct (ascii_dec a b) as [->|Hne].
      * rewrite IH. split; intros [post H]; exists post; congruence.
      * split; [discriminate | intros [post H]; congruence].
Qed.

Lemma append_assoc (a b c : string) :
  String.append (String.append a b) c = String.append a (String.append b c).
Proof. induction a as [|x a IH]; simpl; [reflexivity | now rewrite IH]. Qed.

Lemma append_inj_l (p s1 s2 : string) :
  String.append p s1 = String.append p s2 -> s1 = s2.
Proof. induction p as [|x p IH]; simpl; intros H; [exact H | injection H; auto]. Qed.

(** [includes] is the substring test. *)
Lemma includes_iff (s sub : string) :
  Str.includes s sub = true <->
  exists pre post, s = String.append pre (String.append sub post).
Proof.
  induction s as [|c s IH].
  - cbn [Str.includes]. rewrite orb_false_r, prefix_iff_append. split.
    + intros [post H]. exists EmptyString, post. exact H.
    + intros (pre & post & H). destruct pre; [|discriminate]. eauto.
  - cbn [Str.includes]. rewrite orb_true_iff, IH, prefix_iff_append. split.
    + intros [[post H]|(pre & post & H)].
      * exists EmptyString, post. exact H.
      * exists (String c pre), post. simpl. now rewrite H.
    + intros (pre & post & H). destruct pre as [|x pre].
      * left. exists post. exact H.
      * right. simpl in H. injection H as _ H. eauto.
Qed.

(** ** Magic detector: safe mode *)

(** X4: the safe-mode test is true exactly when the text before the first
    line feed contains [-s]: the test for [--safe] adds nothing to it. *)
Theorem safe_mode_iff_dash_s (c : Cell) :
  (isCellChapyterMagicCellSafeMode c = true <->
   exists pre post,
     Str.firstLine (source c) = String.append pre (String.append "-s" post)) /\
  isCellChapyterMagicCellSafeMode c = Str.includes (Str.firstLine (source c)) "-s".
Proof.
  assert (H : Str.includes (Str.firstLine (source c)) "--safe" = true ->
              Str.includes (Str.firstLine (source c)) "-s" = true).
  { rewrite !includes_iff. intros (pre & post & E).
    exists (String.append pre "-"), (String.append "afe" post).
    rewrite E, append_assoc. reflexivity. }
  assert (E : isCellChapyterMagicCellSafeMode c
              = Str.includes (Str.firstLine (source c)) "-s").
  { unfold isCellChapyterMagicCellSafeMode. cbv zeta.
    destruct (Str.includes (Str.firstLine (source c)) "-s"); [reflexivity|].
    destruct (Str.includes (Str.firstLine (source c)) "--safe");
      [symmetry; apply H|]; reflexivity. }
  split; [|exact E]. rewrite E. apply includes_iff.
Qed.

(** ** Cell locator *)

Lemma findCellIndexById_from_first cs ws i k :
  let t := findCellIndexById_from cs ws i k in
  t <> -1 ->
  forall j r, (j < Z.to_nat (t - k))%nat -> nth_error ws j = Some r ->
              id (cs r) <> i.
Proof.
  cbv zeta. revert k; induction ws as [|x ws IH]; intros k Ht j r Hj Hr.
  - destruct j; discriminate.
  - simpl in Ht, Hj. destruct (String.eqb_spec (id (cs x)) i) as [He|Hne].
    + rewrite Z.sub_diag in Hj. simpl in Hj. lia.
    + destruct j as [|j]; simpl in Hr.
      * injection Hr as <-. exact Hne.
      * apply (IH (k + 1) Ht j r); [|exact Hr].
        destruct (findCellIndexById_from_spec cs ws i (k + 1))
          as [(H1 & _)|(H1 & _)]; [contradiction|]. cbv zeta in H1. lia.
Qed.

(** X1: [findCellIndexById] and [findCellById] agree.  The index is [-1]
    exactly when the cell is [null], which is exactly when no widget has
    the id; otherwise the index lies inside the widget list, the widget at
    it is the cell returned, it has the id, and no widget before it has. *)
Theorem findCellIndexById_first_match (w : State) (i : string) :
  let t := findCellIndexById w i in
  (t = -1 <-> findCellById w i = None) /\
  (t = -1 <-> forall r, In r (widgets w) -> id (cells w r) <> i) /\
  (t <> -1 ->
   0 <= t < Z.of_nat (List.length (widgets w)) /\
   exists r,
     nth_error (widgets w) (Z.to_nat t) = Some r /\
     findCellById w i = Some r /\
     id (cells w r) = i /\
     forall j r', (j < Z.to_nat t)%nat -> nth_error (widgets w) j = Some r' ->
                  id (cells w r') <> i).
Proof.
  cbv zeta.
  pose proof (findCellIndexById_from_first (cells w) (widgets w) i 0) as Hfirst.
  cbv zeta in Hfirst. rewrite Z.sub_0_r in Hfirst.
  fold (findCellIndexById w i) in Hfirst.
  destruct (findCellIndexById_spec w i)
    as [(Ht & Hn & Hall)|(Ht & r & Hr & Hid & Hf)].
  - split; [tauto|]. split; [tauto|]. contradiction.
  - split; [split; [lia | congruence]|].
    split.
    + split; [lia|]. intros Hall. exfalso.
      apply (Hall r (nth_error_In _ _ Hr) Hid).
    + intros Hne. split; [exact Ht|]. exists r.
      split; [exact Hr|]. split; [exact Hf|]. split; [exact Hid|].
      exact (Hfirst Hne).
Qed.

Lemma findCellIndexById_first_match_witness :
  let w := Sample.notebook
             [Sample.plain "a" "1"; Sample.plain "b" "2"; Sample.plain "b" "3"]
             [0%nat; 1%nat; 2%nat] 0 in
  findCellIndexById w "b" = 1 /\ findCellById w "b" = Some 1%nat.
Proof.
  intros w.
  destruct (proj2 (proj2 (findCellIndexById_first_match w "b")))
    as (_ & r & Hr & Hf & _).
  - vm_compute. discriminate.
  - split; [reflexivity|]. rewrite Hf. rewrite <- Hr. reflexivity.
Defined.

Lemma find_first {A : Type} (f : A -> bool) (l : list A) (a : A) :
  find f l = Some a ->
  exists k, nth_error l k = Some a /\ f a = true /\
            forall j x, (j < k)%nat -> nth_error l j = Some x -> f x = false.
Proof.
  induction l as [|y l IH]; simpl; [discriminate|].
  destruct (f y) eqn:Ey.
  - intros H; injection H as <-. exists O. repeat split; auto. intros; lia.
  - intros H. destruct (IH H) as (k & Hk & Hf & Hlt).
    exists (S k). repeat split; auto.
    intros [|j] x Hj Hx; simpl in Hx.
    + injection Hx as <-. exact Ey.
    + apply (Hlt j x); [lia | exact Hx].
Qed.

(** X2: the cell that [findCellByTemplateString] returns is a code cell of
    the notebook whose first line starts with the marker of a truthy
    [executionId], and it is the first such widget; [null] means that the
    [executionId] is falsy or that no code cell starts with the marker. *)
Theorem findCellByTemplateString_first_match (w : State) (e : ExecutionId) :
  match findCellByTemplateString w e with
  | Some a =>
      truthyExecutionId e = true /\
      type (cells w a) = code /\
      Str.startsWith (Str.firstLine (source (cells w a))) (searchTemplate e) = true /\
      exists k,
        nth_error (widgets w) k = Some a /\
        forall j r, (j < k)%nat -> nth_error (widgets w) j = Some r ->
                    matchesTemplate (cells w r) e = false
  | None =>
      truthyExecutionId e = false \/
      forall r, In r (widgets w) -> matchesTemplate (cells w r) e = false
  end.
Proof.
  unfold findCellByTemplateString.
  destruct (truthyExecutionId e); [|left; reflexivity].
  destruct (find (fun r => matchesTemplate (cells w r) e) (widgets w)) as [a|] eqn:E.
  - destruct (find_first _ _ _ E) as (k & Hk & Hm & Hlt).
    unfold matchesTemplate in Hm. apply andb_true_iff in Hm. destruct Hm as [Hc Hs].
    split; [reflexivity|]. split; [destruct (type (cells w a)); auto; discriminate|].
    split; [exact Hs|]. exists k. auto.
  - right. apply (find_none _ _ E).
Qed.

Lemma prefix_append_inv (p q s : string) :
  String.prefix (String.append p q) s = true ->
  exists rest, s = String.append p rest /\ String.prefix q rest = true.
Proof.
  intros H. apply prefix_iff_append in H. destruct H as [post H].
  rewrite append_assoc in H. exists (String.append q post). split; [exact H|].
  apply prefix_iff_append. eauto.
Qed.

Lemma noClosingBracket_separates (s1 s2 line : string) :
  noClosingBracket s1 = true ->
  noClosingBracket s2 = true ->
  String.prefix (String.append s1 "]:") line = true ->
  String.prefix (String.append s2 "]:") line = true ->
  s1 = s2.
Proof.
  revert s2 line; induction s1 as [|c s1 IH]; intros s2 line H1 H2 P1 P2;
    (destruct line as [|x line]; [destruct s2; discriminate|]);
    cbn [String.prefix String.append noClosingBracket] in P1, P2, H1, H2.
  - destruct s2 as [|c2 s2]; [reflexivity|].
    cbn [String.prefix String.append noClosingBracket] in P2, H2.
    destruct (ascii_dec "]"%char x) as [<-|]; [|discriminate].
    destruct (ascii_dec c2 "]"%char) as [->|]; [|discriminate].
    discriminate.
  - destruct (ascii_dec c x) as [<-|]; [|discriminate].
    apply andb_true_iff in H1. destruct H1 as [Hc H1].
    destruct s2 as [|c2 s2];
      cbn [String.prefix String.append noClosingBracket] in P2, H2.
    + destruct (ascii_dec "]"%char c) as [<-|]; [|discriminate]. discriminate.
    + destruct (ascii_dec c2 c) as [->|]; [|discriminate].
      apply andb_true_iff in H2. destruct H2 as [_ H2].
      f_equal. apply (IH s2 line); assumption.
Qed.

Lemma noClosingBracket_ofZ (n : Z) : noClosingBracket (Str.ofZ n) = true.
Proof.
  assert (Hu : forall d, noClosingBracket (NilEmpty.string_of_uint d) = true)
    by (induction d; simpl; auto).
  assert (Hz : forall d, noClosingBracket (NilZero.string_of_uint d) = true)
    by (intros d; destruct d; try apply Hu; reflexivity).
  unfold Str.ofZ. destruct (Z.to_int n); simpl; auto.
Qed.

Lemma ofZ_inj (n m : Z) : Str.ofZ n = Str.ofZ m -> n = m.
Proof.
  assert (Hnil : forall z, Z.to_int z <> Decimal.Pos Decimal.Nil /\ Z.to_int z <> Decimal.Neg Decimal.Nil).
  { intros z. split; intros H; pose proof (f_equal Z.of_int H) as H';
      rewrite DecimalZ.of_to in H'; subst z; vm_compute in H; discriminate. }
  unfold Str.ofZ. intros H.
  apply DecimalZ.to_int_inj.
  assert (E : Some (Z.to_int n) = Some (Z.to_int m)).
  { rewrite <- (NilZero.isi (Z.to_int n)) by apply Hnil.
    rewrite <- (NilZero.isi (Z.to_int m)) by apply Hnil.
    rewrite H. reflexivity. }
  injection E. auto.
Qed.

(** X3: the markers of two execution counts never match the same cell, so
    a generated cell is found for one execution count only: the marker
    ends with the closing bracket, and [12] is no match for [1]. *)
Theorem marker_names_one_execution (c : Cell) (n m : Z) :
  matchesTemplate c (EidNumber n) = true ->
  matchesTemplate c (EidNumber m) = true ->
  n = m.
Proof.
  unfold matchesTemplate, Str.startsWith, searchTemplate.
  intros Hn Hm.
  apply andb_true_iff in Hn, Hm. destruct Hn as [_ Hn], Hm as [_ Hm].
  apply prefix_append_inv in Hn, Hm.
  destruct Hn as (r1 & E1 & P1), Hm as (r2 & E2 & P2).
  rewrite E1 in E2. apply append_inj_l in E2. subst r2.
  apply ofZ_inj.
  apply (noClosingBracket_separates _ _ r1); auto using noClosingBracket_ofZ.
Qed.

Lemma marker_names_one_execution_witness :
  let c := Sample.plain "g" "# Assistant Code for Cell [12]:
x = 1" in
  matchesTemplate c (EidNumber 12) = true /\
  matchesTemplate c (EidNumber 1) = false.
Proof.
  intros c. split; [reflexivity|].
  destruct (matchesTemplate c (EidNumber 1)) eqn:E; [|reflexivity].
  pose proof (marker_names_one_execution c 12 1 eq_refl E). discriminate.
Defined.

(** ** Cell deleter *)

Lemma pushAll_log n i w :
  trace (pushAll n i w) = trace w ++ repeat (PushDeleted i) n /\
  deletedCells (pushAll n i w) = deletedCells w ++ repeat i n.
Proof.
  unfold pushAll. induction n as [|n [IH1 IH2]]; simpl.
  - rewrite !app_nil_r. auto.
  - rewrite IH1, IH2, <- !app_assoc.
    rewrite (repeat_cons n (PushDeleted i)), (repeat_cons n i). auto.
Qed.

Lemma deleteAll_log l w :
  trace (deleteAll l w) = trace w ++ map DeleteCellAt l /\
  deletedCells (deleteAll l w) = deletedCells w.
Proof.
  unfold deleteAll. revert w; induction l as [|x l IH]; intros w; simpl.
  - rewrite app_nil_r. auto.
  - destruct (IH (logCall (DeleteCellAt x)
                    (withWidgets (removeAt x (widgets w)) w))) as [H1 H2].
    rewrite H1, H2. simpl. rewrite <- app_assoc. auto.
Qed.

Lemma toDelete_from_positions cs cell ws k :
  isDeletable (cs cell) = true ->
  Sorted.StronglySorted lt (toDelete_from cs cell ws k) /\
  forall j, In j (toDelete_from cs cell ws k) <->
            (k <= j)%nat /\ nth_error ws (j - k) = Some cell.
Proof.
  intros Hd. revert k; induction ws as [|x ws IH]; intros k.
  - split; [constructor|]. intros j. simpl. split; [tauto|].
    intros [_ H]. destruct (j - k)%nat; discriminate.
  - destruct (IH (S k)) as [Hs Hin]. simpl.
    assert (Hshift : forall j, In j (toDelete_from cs cell ws (S k)) <->
                       (k < j)%nat /\ nth_error (x :: ws) (j - k) = Some cell).
    { intros j. rewrite Hin. split.
      - intros [Hle Hn]. split; [lia|].
        replace (j - k)%nat with (S (j - S k)) by lia. exact Hn.
      - intros [Hlt Hn]. split; [lia|].
        replace (j - k)%nat with (S (j - S k)) in Hn by lia. exact Hn. }
    destruct (Nat.eqb_spec x cell) as [->|Hne].
    + rewrite Hd. split.
      * constructor; [exact Hs|]. apply Forall_forall. intros j Hj.
        apply Hin in Hj. lia.
      * intros j. simpl. rewrite Hshift. split.
        -- intros [<-|[Hlt Hn]]; [rewrite Nat.sub_diag; auto | split; [lia | exact Hn]].
        -- intros [Hle Hn]. destruct (Nat.eq_dec k j) as [E|E]; [auto|].
           right. split; [lia | exact Hn].
    + split; [exact Hs|]. intros j. rewrite Hshift. split.
      * intros [Hlt Hn]. split; [lia | exact Hn].
      * intros [Hle Hn]. split; [|exact Hn].
        destruct (Nat.eq_dec k j) as [<-|E]; [|lia].
        rewrite Nat.sub_diag in Hn. simpl in Hn. congruence.
Qed.

Lemma deleteCell_empty (w : State) (c : ref) :
  toDelete w c = [] -> deleteCell c w = (Normal tt, logCall DeselectAll w).
Proof.
  intros E. rewrite deleteCell_eq. f_equal.
  unfold deleteCell_final. rewrite E. reflexivity.
Qed.

(** X5: when the cell is not in the notebook, or its [deletable] metadata
    is false, [deleteCell] deletes nothing and moves nothing: its one call
    on the host is [deselectAll]. *)
Theorem deleteCell_nothing_deletable (w : State) (c : ref) :
  isDeletable (cells w c) = false \/ ~ In c (widgets w) ->
  deleteCell c w = (Normal tt, logCall DeselectAll w).
Proof.
  intros H. apply deleteCell_empty. apply toDelete_from_nil_iff. exact H.
Qed.

Lemma deleteCell_nothing_deletable_witness :
  let w := Sample.notebook
             [Sample.plain "a" "1";
              mkCell "b" code "2" None None (Some false) false []]
             [0%nat; 1%nat] 0 in
  deleteCell 1%nat w = (Normal tt, logCall DeselectAll w) /\
  deleteCell 7%nat w = (Normal tt, logCall DeselectAll w).
Proof.
  intros w. split; apply deleteCell_nothing_deletable.
  - left. reflexivity.
  - right. simpl. intuition discriminate.
Defined.

(** X6: the positions that [deleteCell] deletes are the positions of the
    cell, in increasing order; the cell's id is pushed to [deletedCells]
    once for each, and the deletions are made inside one transaction, the
    highest position first, before the cursor is set and the selection
    cleared. *)
Theorem deleteCell_one_transaction (w : State) (c : ref) :
  toDelete w c <> [] ->
  let positions := toDelete w c in
  let n := List.length positions in
  Sorted.StronglySorted lt positions /\
  (forall j, In j positions <-> nth_error (widgets w) j = Some c) /\
  exists w',
    deleteCell c w = (Normal tt, w') /\
    deletedCells w' = deletedCells w ++ repeat (id (cells w c)) n /\
    trace w' =
      trace w
      ++ repeat (PushDeleted (id (cells w c))) n
      ++ [TransactBegin]
      ++ map DeleteCellAt (rev positions)
      ++ [TransactEnd;
          SetActiveCellIndex (Z.of_nat (last positions O) - Z.of_nat n + 1);
          DeselectAll].
Proof.
  intros Hne. cbv zeta.
  destruct (toDelete_nonempty_deletable _ _ Hne) as [Hd _].
  destruct (toDelete_from_positions (cells w) c (widgets w) O Hd) as [Hs Hin].
  fold (toDelete w c) in Hs, Hin.
  split; [exact Hs|]. split.
  - intros j. rewrite Hin, Nat.sub_0_r. split; [tauto | intros H; split; [lia | exact H]].
  - exists (deleteCell_final c w). split; [apply deleteCell_eq|].
    unfold deleteCell_final. cbv zeta.
    replace (0 <? Z.of_nat (List.length (toDelete w c))) with true
      by (symmetry; apply Z.ltb_lt; destruct (toDelete w c);
          [congruence | simpl List.length; lia]).
    cbn [deletedCells trace logCall withActiveCellIndex].
    rewrite (proj1 (deleteAll_log _ _)), (proj2 (deleteAll_log _ _)).
    cbn [deletedCells trace logCall].
    rewrite (proj1 (pushAll_log _ _ _)), (proj2 (pushAll_log _ _ _)).
    rewrite hd_rev_last, length_rev.
    split; [reflexivity|]. rewrite <- !app_assoc. reflexivity.
Qed.

Lemma deleteCell_one_transaction_witness :
  let w := Sample.notebook
             [Sample.plain "a" "1"; Sample.plain "b" "2"; Sample.plain "c" "3"]
             [0%nat; 1%nat; 2%nat] 0 in
  exists w',
    deleteCell 1%nat w = (Normal tt, w') /\
    deletedCells w' = ["b"] /\
    trace w' = [PushDeleted "b"; TransactBegin; DeleteCellAt 1; TransactEnd;
                SetActiveCellIndex 1; DeselectAll].
Proof.
  intros w.
  destruct (deleteCell_one_transaction w 1%nat) as (_ & _ & w' & He & Hd & Ht).
  - discriminate.
  - exists w'. split; [exact He|]. split; [exact Hd | exact Ht].
Defined.

(** X7: a second [deleteCell] of the same cell deletes nothing: after the
    first, the cell is no longer in the notebook or was not deletable, and
    the second only clears the selection. *)
Theorem deleteCell_twice (w : State) (c : ref) :
  exists w1,
    deleteCell c w = (Normal tt, w1) /\
    deleteCell c w1 = (Normal tt, logCall DeselectAll w1).
Proof.
  exists (deleteCell_final c w). split; [apply deleteCell_eq|].
  apply deleteCell_empty. apply toDelete_from_nil_iff.
  rewrite (proj1 (deleteCell_final_frame c w)), deleteCell_final_widgets.
  destruct (isDeletable (cells w c)); [right | left; reflexivity].
  intros Hin. apply filter_In in Hin. destruct Hin as [_ Hneq].
  rewrite Nat.eqb_refl in Hneq. discriminate.
Qed.

(** ** Selection navigator *)

Lemma widgetInputHidden_outside (w : State) (i : Z) :
  ~ (0 <= i < Z.of_nat (List.length (widgets w))) ->
  widgetInputHidden i w = (Thrown TypeError, w).
Proof.
  intros H. unfold widgetInputHidden, bind, gets, throw.
  destruct (Z.ltb_spec i 0) as [Hlt|Hge]; [reflexivity|].
  replace (nth_error (widgets w) (Z.to_nat i)) with (@None nat);
    [reflexivity|].
  symmetry. apply nth_error_None. lia.
Qed.

(** X8: [selectCellById] throws exactly when the id is in the notebook and
    the cursor is outside the widget list; it then throws a [TypeError]
    before any step is issued, with the state as it was. *)
Theorem selectCellById_throws (host : Host) (w : State) (i : string) :
  (findCellIndexById w i <> -1 /\
   ~ (0 <= activeCellIndex w < Z.of_nat (List.length (widgets w))) ->
   selectCellById i w = (Thrown TypeError, w)) /\
  ((exists e w', selectCellById i w = (Thrown e, w')) ->
   findCellIndexById w i <> -1 /\
   ~ (0 <= activeCellIndex w < Z.of_nat (List.length (widgets w)))).
Proof.
  split.
  - intros [Ht Ha].
    destruct (findCellIndexById_spec w i) as [(Hx & _)|(Hx & _)]; [contradiction|].
    unfold selectCellById. rewrite !bind_gets.
    replace (findCellIndexById w i =? -1) with false
      by (symmetry; apply Z.eqb_neq; exact Ht).
    replace (activeCellIndex w =? findCellIndexById w i) with false
      by (symmetry; apply Z.eqb_neq; lia).
    cbn [negb].
    destruct (Z.ltb_spec (activeCellIndex w) (findCellIndexById w i)) as [Hlt|Hge].
    + destruct (Z.to_nat (findCellIndexById w i - activeCellIndex w)) eqn:E; [lia|].
      cbn [selectCellById_below]. unfold bind at 1.
      rewrite (widgetInputHidden_outside w _ Ha). reflexivity.
    + destruct (Z.to_nat (activeCellIndex w - findCellIndexById w i)) eqn:E; [lia|].
      cbn [selectCellById_above]. unfold bind at 1.
      rewrite (widgetInputHidden_outside w _ Ha). reflexivity.
  - intros (e & w' & He).
    destruct (findCellIndexById_spec w i) as [(Hx & _)|(Hx & _)].
    + exfalso. unfold selectCellById in He. rewrite !bind_gets, Hx in He.
      discriminate.
    + split; [lia|]. intros Ha.
      destruct (selectCellById_trace host w i (or_intror Ha)) as (w2 & He2 & _).
      rewrite He2 in He. discriminate.
Qed.

Lemma selectCellById_throws_witness :
  let w := Sample.notebook [Sample.plain "a" "1"; Sample.plain "b" "2"]
             [0%nat; 1%nat] (-1) in
  selectCellById (host := jupyterHost) "b" w = (Thrown TypeError, w).
Proof.
  intros w. apply (proj1 (selectCellById_throws jupyterHost w "b")).
  split; [vm_compute; discriminate | simpl; lia].
Defined.

(** ** Orchestrator: every branch of the [executionScheduled] handler *)

(** The [executionScheduled] handler on a trigger cell, in every branch. *)
Lemma onExecutionScheduled_trigger (host : Host) (w : State) (t : ref) :
  cursor_wf w ->
  isCellChapyterMagicCell (cells w t) false = true ->
  isCellNotGenerated (cells w t) = true ->
  exists w',
    onExecutionScheduled t w = (Normal tt, w') /\
    cursor_wf w' /\
    sameCellData w w' /\
    currentWidget w' = currentWidget w /\
    (forall r, ChapyterCell (cells w' r) = ChapyterCell (cells w r)) /\
    (forall r, inputHidden (cells w' r) = inputHidden (cells w r)) /\
    (forall r, r <> t -> classes (cells w' r) = classes (cells w r)) /\
    classes (cells w' t) =
      classList_toggle CHAPYTER_CHAT_CELL_EXECUTING (classes (cells w t)) /\
    widgets w' =
      match scheduledTarget w t with
      | Some g =>
          if isDeletable (cells w g)
          then filter (fun r => negb (Nat.eqb r g)) (widgets w)
          else widgets w
      | None => widgets w
      end /\
    (scheduledTarget w t = None ->
     activeCellIndex w' = activeCellIndex w /\
     deletedCells w' = deletedCells w /\
     exists calls,
       trace w' = trace w ++ ToggleClass t CHAPYTER_CHAT_CELL_EXECUTING :: calls /\
       (calls = [] \/ exists l, calls = [SearchId l])).
Proof.
  intros Hwf Hm Hn.
  apply wp_unit_elim. unfold onExecutionScheduled.
  repeat wp_step. rewrite Hm, Hn. cbn [andb].
  repeat wp_step.
  set (w0 := logCall (ToggleClass t CHAPYTER_CHAT_CELL_EXECUTING)
               (withCell t
                  (fun x => cell_setClasses
                              (classList_toggle CHAPYTER_CHAT_CELL_EXECUTING
                                 (classes x)) x) w)).
  assert (Hd0 : sameCellData w w0)
    by (intros r; unfold w0; st_simpl; upd_frame; auto).
  assert (Hmd0 : forall r, ChapyterCell (cells w0 r) = ChapyterCell (cells w r))
    by (intros r; unfold w0; st_simpl; upd_frame; reflexivity).
  assert (Hh0 : forall r, inputHidden (cells w0 r) = inputHidden (cells w r))
    by (intros r; unfold w0; st_simpl; upd_frame; reflexivity).
  assert (Hc0 : forall r, r <> t -> classes (cells w0 r) = classes (cells w r)).
  { intros r Hr. unfold w0. st_simpl.
    rewrite (proj2 (Nat.eqb_neq r t) Hr). upd_classes. reflexivity. }
  assert (Hct : classes (cells w0 t) =
                classList_toggle CHAPYTER_CHAT_CELL_EXECUTING (classes (cells w t))).
  { unfold w0. st_simpl. rewrite Nat.eqb_refl. upd_classes. reflexivity. }
  assert (Hend : forall calls,
            calls = [] \/ (exists l, calls = [SearchId l]) ->
            scheduledTarget w t = None ->
            forall w1, cells w1 = cells w0 -> currentWidget w1 = currentWidget w ->
                       widgets w1 = widgets w ->
                       activeCellIndex w1 = activeCellIndex w ->
                       deletedCells w1 = deletedCells w ->
                       trace w1 = trace w0 ++ calls ->
            cursor_wf w1 /\
            sameCellData w w1 /\
            currentWidget w1 = currentWidget w /\
            (forall r, ChapyterCell (cells w1 r) = ChapyterCell (cells w r)) /\
            (forall r, inputHidden (cells w1 r) = inputHidden (cells w r)) /\
            (forall r, r <> t -> classes (cells w1 r) = classes (cells w r)) /\
            classes (cells w1 t) =
              classList_toggle CHAPYTER_CHAT_CELL_EXECUTING (classes (cells w t)) /\
            widgets w1 =
              match scheduledTarget w t with
              | Some g =>
                  if isDeletable (cells w g)
                  then filter (fun r => negb (Nat.eqb r g)) (widgets w)
                  else widgets w
              | None => widgets w
              end /\
            (scheduledTarget w t = None ->
             activeCellIndex w1 = activeCellIndex w /\
             deletedCells w1 = deletedCells w /\
             exists calls,
               trace w1 =
                 trace w ++ ToggleClass t CHAPYTER_CHAT_CELL_EXECUTING :: calls /\
               (calls = [] \/ exists l, calls = [SearchId l]))).
  { intros calls Hcalls Hnone w1 E1 E2 E3 E4 E5 E6.
    unfold cursor_wf, sameCellData. rewrite E1, E3, E4, Hnone.
    repeat split; try apply Hd0; auto.
    exists calls. split; [|exact Hcalls].
    rewrite E6. unfold w0. st_simpl. rewrite <- app_assoc. reflexivity. }
  rewrite Hmd0. fold (linkedCellIdOf (cells w t)).
  repeat wp_step.
  change (currentWidget w0) with (currentWidget w).
  unfold scheduledTarget in *.
  destruct (currentWidget w) eqn:Hcur;
    [|repeat wp_step; apply (Hend [] (or_introl eq_refl) eq_refl w0);
      auto using app_nil_r; symmetry; apply app_nil_r].
  destruct (linkedCellIdOf (cells w t)) as [l|] eqn:Hl;
    [|repeat wp_step; apply (Hend [] (or_introl eq_refl) eq_refl w0);
      auto using app_nil_r; symmetry; apply app_nil_r].
  destruct (Str.truthy l) eqn:Htruthy;
    [|repeat wp_step; apply (Hend [] (or_introl eq_refl) eq_refl w0);
      auto using app_nil_r; symmetry; apply app_nil_r].
  repeat wp_step.
  set (w1 := logCall (SearchId l) w0).
  assert (Hf1 : findCellById w1 l = findCellById w l).
  { apply findCellById_ext; [reflexivity|]. intros r. apply Hd0. }
  rewrite Hf1.
  destruct (findCellById w l) as [g|] eqn:Hfind.
  - repeat wp_step.
    destruct (deleteCell_final_frame g w1) as [Hc2 Hcw2].
    pose proof (deleteCell_final_widgets g w1) as Hw2.
    assert (Hwf2 : cursor_wf (deleteCell_final g w1))
      by (apply deleteCell_final_cursor_wf; exact Hwf).
    apply (wp_selectCellById host); [exact Hwf2|].
    intros w' (HcA & HwA & HdA & _) HwfA _ _ _.
    unfold sameCellData.
    rewrite HdA, HwA, HcA, Hc2, Hcw2, Hw2.
    assert (Hdel : deletable (cells w1 g) = deletable (cells w g)) by apply (Hd0 g).
    unfold isDeletable at 1. rewrite Hdel. fold (isDeletable (cells w g)).
    repeat split; try assumption; try apply Hd0; try apply Hmd0; try apply Hh0;
      try apply Hc0; try discriminate.
  - repeat wp_step.
    apply (Hend [SearchId l] (or_intror (ex_intro _ l eq_refl)) eq_refl w1);
      first [reflexivity | exact Hcur].
Qed.

(** ** Orchestrator: every branch of the [executed] handler *)

(** Without a current notebook the handler stops after the tagging. *)
Lemma onExecuted_no_widget (host : Host) (w : State) (t : ref) :
  currentWidget w = false ->
  isCellChapyterMagicCell (cells w t) true = true ->
  isCellNotGenerated (cells w t) = true ->
  onExecuted (mkArgs t true) w = (Normal tt, tagOriginal t w).
Proof.
  intros Hcur Hm Hn.
  unfold onExecuted. cbn [success cell].
  rewrite !bind_gets, Hm, Hn. cbn [andb].
  unfold getChapyterCell. rewrite bind_gets.
  rewrite (bind_normal _ _ w (tagOriginal t w) tt)
    by (unfold tagOriginal; destruct (ChapyterCell (cells w t)); reflexivity).
  rewrite !bind_gets.
  rewrite (proj1 (proj2 (tagOriginal_frame t w))), Hcur. reflexivity.
Qed.



(** X11: when a trigger cell without metadata has been run and the search
    finds no generated cell, or the tracker has no current notebook, the
    [executed] handler tags the trigger as [original] with no linked cell
    and changes nothing else: no other cell, no other field of the trigger,
    not the widget list and not the cursor. *)
Theorem onExecuted_tags_original (host : Host) (w : State) (t : ref) :
  isCellChapyterMagicCell (cells w t) true = true ->
  isCellNotGenerated (cells w t) = true ->
  ChapyterCell (cells w t) = None ->
  currentWidget w = false \/
  findCellByTemplateString w (ofExecutionCount (executionCount (cells w t)))
    = None ->
  exists w',
    onExecuted (mkArgs t true) w = (Normal tt, w') /\
    cells w' t = cell_setChapyterCell (mkMeta None original) (cells w t) /\
    (forall r, r <> t -> cells w' r = cells w r) /\
    widgets w' = widgets w /\
    activeCellIndex w' = activeCellIndex w /\
    deletedCells w' = deletedCells w.
Proof.
  intros Hm Hn Hmd Hwhy.
  assert (Htag : tagOriginal t w =
                 logCall (SetMetadata t (mkMeta None original))
                   (withCell t (cell_setChapyterCell (mkMeta None original)) w))
    by (unfold tagOriginal; rewrite Hmd; reflexivity).
  assert (Hrest : forall r, r <> t ->
            updateCell (r =? t)%nat (cell_setChapyterCell (mkMeta None original))
              (cells w r) = cells w r)
    by (intros r Hr; rewrite (proj2 (Nat.eqb_neq r t) Hr); reflexivity).
  destruct (currentWidget w) eqn:Hcur.
  - destruct Hwhy as [Hwhy|Hf]; [discriminate|].
    rewrite (onExecuted_search host w t Hcur Hm Hn). cbv zeta. rewrite Hf, Htag.
    eexists. split; [reflexivity|]. st_simpl. rewrite Nat.eqb_refl.
    repeat split; auto.
  - rewrite (onExecuted_no_widget host w t Hcur Hm Hn), Htag.
    eexists. split; [reflexivity|]. st_simpl. rewrite Nat.eqb_refl.
    repeat split; auto.
Qed.

Lemma onExecuted_tags_original_witness :
  let w := Sample.notebook
             [mkCell "t" code "%chat plot the data" (Some 3) None None false [];
              Sample.plain "n" "next"]
             [0%nat; 1%nat] 0 in
  exists w',
    onExecuted (host := jupyterHost) (mkArgs 0%nat true) w = (Normal tt, w') /\
    ChapyterCell (cells w' 0%nat) = Some (mkMeta None original) /\
    activeCellIndex w' = 0.
Proof.
  intros w.
  destruct (onExecuted_tags_original jupyterHost w 0%nat)
    as (w' & He & Ht & _ & _ & Ha & _);
    [reflexivity | reflexivity | reflexivity | right; reflexivity |].
  exists w'. split; [exact He|]. split; [rewrite Ht; reflexivity | exact Ha].
Defined.

(** X12: when the trigger's metadata names no cell (no metadata, no
    [linkedCellId] or an empty one), names an id that no cell has, or the
    tracker has no current notebook, the [executionScheduled] handler only
    toggles the trigger's executing class: no cell is deleted, the cursor
    and [deletedCells] stay, and no metadata is written. *)
Theorem onExecutionScheduled_without_link (host : Host) (w : State) (t : ref) :
  cursor_wf w ->
  isCellChapyterMagicCell (cells w t) false = true ->
  isCellNotGenerated (cells w t) = true ->
  currentWidget w = false \/
  linkedCellIdOf (cells w t) = None \/
  linkedCellIdOf (cells w t) = Some "" \/
  (exists l, linkedCellIdOf (cells w t) = Some l /\ findCellById w l = None) ->
  exists w' calls,
    onExecutionScheduled t w = (Normal tt, w') /\
    trace w' = trace w ++ ToggleClass t CHAPYTER_CHAT_CELL_EXECUTING :: calls /\
    (calls = [] \/ exists l, calls = [SearchId l]) /\
    widgets w' = widgets w /\
    activeCellIndex w' = activeCellIndex w /\
    deletedCells w' = deletedCells w /\
    (forall r, ChapyterCell (cells w' r) = ChapyterCell (cells w r)) /\
    (forall r, r <> t -> classes (cells w' r) = classes (cells w r)) /\
    classes (cells w' t) =
      classList_toggle CHAPYTER_CHAT_CELL_EXECUTING (classes (cells w t)).
Proof.
  intros Hwf Hm Hn Hwhy.
  assert (Hnone : scheduledTarget w t = None).
  { unfold scheduledTarget.
    destruct Hwhy as [->|[->|[->|(l & -> & Hf)]]]; try reflexivity.
    - destruct (currentWidget w); reflexivity.
    - destruct (currentWidget w); reflexivity.
    - rewrite Hf. destruct (currentWidget w), (Str.truthy l); reflexivity. }
  destruct (onExecutionScheduled_trigger host w t Hwf Hm Hn)
    as (w' & He & _ & _ & _ & Hmd & _ & Hc & Hct & Hw & Hrest).
  rewrite Hnone in Hw.
  destruct (Hrest Hnone) as (Ha & Hd & calls & Htr & Hcalls).
  exists w', calls. repeat split; assumption.
Qed.

Lemma onExecutionScheduled_without_link_witness :
  let w := Sample.notebook
             [mkCell "t" code "%chat plot the data" None
                (Some (mkMeta (Some "gone") original)) None false [];
              Sample.plain "n" "next"]
             [0%nat; 1%nat] 1 in
  exists w',
    onExecutionScheduled (host := jupyterHost) 0%nat w = (Normal tt, w') /\
    trace w' = [ToggleClass 0%nat CHAPYTER_CHAT_CELL_EXECUTING; SearchId "gone"] /\
    widgets w' = [0%nat; 1%nat] /\
    activeCellIndex w' = 1.
Proof.
  intros w.
  destruct (onExecutionScheduled_without_link jupyterHost w 0%nat)
    as (w' & calls & He & Htr & _ & Hw & Ha & _).
  - right. simpl. lia.
  - reflexivity.
  - reflexivity.
  - right. right. right. exists "gone". split; reflexivity.
  - exists w'. split; [exact He|]. split; [|split; [exact Hw | exact Ha]].
    assert (E : w' = snd (onExecutionScheduled (host := jupyterHost) 0%nat w))
      by (rewrite He; reflexivity).
    rewrite E. vm_compute. reflexivity.
Defined.

(** ** Orchestrator: what the handlers keep *)





(** ** Orchestrator: the marker classes *)

Lemma hasClass_app (c : string) (l1 l2 : list string) :
  hasClass c (l1 ++ l2) = hasClass c l1 || hasClass c l2.
Proof. unfold hasClass. apply existsb_app. Qed.

Lemma hasClass_remove (c c' : string) (cl : list string) :
  hasClass c (classList_remove c' cl) = negb (String.eqb c' c) && hasClass c cl.
Proof.
  unfold hasClass, classList_remove. induction cl as [|x cl IH]; simpl.
  - rewrite andb_false_r. reflexivity.
  - destruct (String.eqb_spec c' x) as [->|Hx]; simpl.
    + rewrite IH. destruct (String.eqb_spec c x) as [->|Hc]; simpl; [|reflexivity].
      rewrite String.eqb_refl. reflexivity.
    + rewrite IH. destruct (String.eqb_spec c x) as [->|Hc]; simpl; [|reflexivity].
      destruct (String.eqb_spec c' x); [contradiction|]. reflexivity.
Qed.


Lemma hasClass_toggle (c : string) (cl : list string) :
  hasClass c (classList_toggle c cl) = negb (hasClass c cl).
Proof.
  unfold classList_toggle. destruct (hasClass c cl) eqn:E.
  - rewrite hasClass_remove, String.eqb_refl. reflexivity.
  - rewrite hasClass_app, E. unfold hasClass. simpl.
    rewrite String.eqb_refl. reflexivity.
Qed.

(** X13: the [executionScheduled] handler toggles the executing class of a
    trigger cell rather than setting it: the cell carries the class
    afterwards exactly when it did not before, so a trigger that still
    carries it from a run that was never linked loses it on the next
    run. *)
Theorem onExecutionScheduled_toggles_marker (host : Host) (w : State) (t : ref) :
  cursor_wf w ->
  isCellChapyterMagicCell (cells w t) false = true ->
  isCellNotGenerated (cells w t) = true ->
  exists w',
    onExecutionScheduled t w = (Normal tt, w') /\
    hasClass CHAPYTER_CHAT_CELL_EXECUTING (classes (cells w' t)) =
      negb (hasClass CHAPYTER_CHAT_CELL_EXECUTING (classes (cells w t))) /\
    (forall c, c <> CHAPYTER_CHAT_CELL_EXECUTING ->
               hasClass c (classes (cells w' t)) = hasClass c (classes (cells w t))) /\
    (forall r, r <> t -> classes (cells w' r) = classes (cells w r)).
Proof.
  intros Hwf Hm Hn.
  destruct (onExecutionScheduled_trigger host w t Hwf Hm Hn)
    as (w' & He & _ & _ & _ & _ & _ & Hc & Hct & _).
  exists w'. split; [exact He|]. rewrite Hct.
  split; [apply hasClass_toggle|]. split; [|exact Hc].
  intros c Hne. unfold classList_toggle.
  destruct (hasClass CHAPYTER_CHAT_CELL_EXECUTING (classes (cells w t))).
  - rewrite hasClass_remove.
    destruct (String.eqb_spec CHAPYTER_CHAT_CELL_EXECUTING c); [congruence|].
    reflexivity.
  - rewrite hasClass_app. unfold hasClass at 2. simpl.
    destruct (String.eqb_spec c CHAPYTER_CHAT_CELL_EXECUTING); [contradiction|].
    rewrite !orb_false_r. reflexivity.
Qed.

Lemma onExecutionScheduled_toggles_marker_witness :
  let w := Sample.notebook
             [mkCell "t" code "%chat plot the data" None None None false
                [CHAPYTER_CHAT_CELL_EXECUTING]]
             [0%nat] 0 in
  exists w',
    onExecutionScheduled (host := jupyterHost) 0%nat w = (Normal tt, w') /\
    hasClass CHAPYTER_CHAT_CELL_EXECUTING (classes (cells w' 0%nat)) = false.
Proof.
  intros w.
  destruct (onExecutionScheduled_toggles_marker jupyterHost w 0%nat)
    as (w' & He & Hc & _).
  - right. simpl. lia.
  - reflexivity.
  - reflexivity.
  - exists w'. split; [exact He | exact Hc].
Defined.



(** ** Orchestrator: the cells that the handlers pass over *)

(** X15: a code cell tagged as [generated] is passed over by both handlers,
    even when its text starts with a magic command: they return with the
    state as it was. *)
Theorem generated_cell_ignored (host : Host) (w : State) (r : ref) (ok : bool)
  (m : ChapyterCellMetadata) :
  type (cells w r) = code ->
  ChapyterCell (cells w r) = Some m ->
  cellType m = generated ->
  onExecutionScheduled r w = (Normal tt, w) /\
  onExecuted (mkArgs r ok) w = (Normal tt, w).
Proof.
  intros Ht Hmd Hg.
  assert (Hn : isCellNotGenerated (cells w r) = false)
    by (unfold isCellNotGenerated; rewrite Ht, Hmd, Hg; reflexivity).
  split.
  - unfold onExecutionScheduled. rewrite !bind_gets, Hn, andb_false_r. reflexivity.
  - unfold onExecuted. destruct ok; [|reflexivity].
    cbn [success cell]. rewrite !bind_gets, Hn, andb_false_r. reflexivity.
Qed.

Lemma generated_cell_ignored_witness :
  let w := Sample.notebook
             [mkCell "g" code "%chat again" (Some 2)
                (Some (mkMeta (Some "t") generated)) None false []]
             [0%nat] 0 in
  onExecutionScheduled (host := jupyterHost) 0%nat w = (Normal tt, w) /\
  onExecuted (host := jupyterHost) (mkArgs 0%nat true) w = (Normal tt, w).
Proof.
  intros w.
  apply (generated_cell_ignored jupyterHost w 0%nat true (mkMeta (Some "t") generated));
    reflexivity.
Defined.


(** X16: a [%%chatonly] cell is a trigger for the [executionScheduled]
    handler and none for the [executed] handler: scheduling it deletes the
    cell that its metadata names, when there is a deletable one, and the
    [executed] handler then returns with the state as it was, linking
    nothing. *)
Theorem chatonly_cell_is_cleaned_not_linked (host : Host) (w : State) (t : ref)
  (ok : bool) :
  Str.startsWith (source (cells w t)) "%%chatonly" = true ->
  onExecuted (mkArgs t ok) w = (Normal tt, w) /\
  (cursor_wf w ->
   isCellNotGenerated (cells w t) = true ->
   exists w',
     onExecutionScheduled t w = (Normal tt, w') /\
     onExecuted (mkArgs t ok) w' = (Normal tt, w') /\
     widgets w' =
       match scheduledTarget w t with
       | Some g =>
           if isDeletable (cells w g)
           then filter (fun r => negb (Nat.eqb r g)) (widgets w)
           else widgets w
       | None => widgets w
       end).
Proof.
  intros Hc.
  assert (Hloose : isCellChapyterMagicCell (cells w t) false = true).
  { unfold isCellChapyterMagicCell. cbv zeta.
    rewrite (startsWith_chatonly_chat _ Hc), orb_true_r, orb_true_r. reflexivity. }
  assert (Hstrict : forall w', source (cells w' t) = source (cells w t) ->
            onExecuted (mkArgs t ok) w' = (Normal tt, w')).
  { intros w' Hs. unfold onExecuted. destruct ok; [|reflexivity].
    cbn [success cell]. rewrite !bind_gets.
    unfold isCellChapyterMagicCell. cbv zeta.
    rewrite Hs, Hc, (startsWith_chatonly_chat _ Hc), orb_true_r. reflexivity. }
  split; [apply Hstrict; reflexivity|].
  intros Hwf Hn.
  destruct (onExecutionScheduled_trigger host w t Hwf Hloose Hn)
    as (w' & He & _ & Hd & _ & _ & _ & _ & _ & Hw & _).
  exists w'. split; [exact He|]. split; [|exact Hw].
  apply Hstrict. apply Hd.
Qed.

Lemma chatonly_cell_is_cleaned_not_linked_witness :
  let w := Sample.notebook
             [mkCell "t" code "%%chatonly plot the data" (Some 1)
                (Some (mkMeta (Some "g") original)) None false [];
              mkCell "g" code "# Assistant Code for Cell [1]:" None
                (Some (mkMeta (Some "t") generated)) None false []]
             [0%nat; 1%nat] 0 in
  exists w',
    onExecutionScheduled (host := jupyterHost) 0%nat w = (Normal tt, w') /\
    onExecuted (host := jupyterHost) (mkArgs 0%nat true) w' = (Normal tt, w') /\
    widgets w' = [0%nat].
Proof.
  intros w.
  destruct (chatonly_cell_is_cleaned_not_linked jupyterHost w 0%nat true eq_refl)
    as [_ H].
  destruct H as (w' & He & He' & Hw).
  - right. simpl. lia.
  - reflexivity.
  - exists w'. split; [exact He|]. split; [exact He'|]. rewrite Hw. reflexivity.
Defined.

(** ** A link and the next run *)




(** ** The navigation on a host that passes over the hidden inputs *)

(** X18: with the cursor on a cell, [selectCellById] returns normally,
    changes nothing but the cursor and the record of calls, and issues one
    step towards the target for each position, from the cursor up to but
    excluding the target, whose cell shows its input; it leaves the state
    as it is when the id is not found or the target is already active.  On
    a host whose steps pass over the hidden inputs, as those of JupyterLab
    do, the cursor ends on the target whenever the active cell and the
    target show their input, whatever is hidden between them.  When no
    position on the way shows its input no step is issued and the cursor
    stays. *)
Theorem selectCellById_reaches_shown_target (host : Host) (w : State)
  (i : string) :
  cursor_wf w ->
  let a := activeCellIndex w in
  let t := findCellIndexById w i in
  exists w',
    selectCellById i w = (Normal tt, w') /\
    sameNotebook w w' /\
    trace w' = trace w ++ selectCellById_calls w i /\
    (t = -1 \/ t = a -> w' = w) /\
    (skipsHidden host -> t <> -1 ->
     inputShownAt w a = true -> inputShownAt w t = true ->
     activeCellIndex w' = t) /\
    (selectCellById_calls w i = [] -> activeCellIndex w' = a).
Proof.
  intros Hwf. cbv zeta.
  destruct (selectCellById_run host w i Hwf)
    as (w' & He & Hs & _ & Hnoop & _ & _ & Hc).
  destruct (selectCellById_trace host w i Hwf)
    as (w'' & He' & _ & _ & Htr & Hz & _).
  rewrite He in He'. injection He' as <-.
  exists w'. auto 10.
Qed.

Lemma selectCellById_reaches_shown_target_witness :
  let w := Sample.notebook
             [Sample.plain "a" "1";
              mkCell "b" code "2" None None None true [];
              Sample.plain "c" "3"]
             [0%nat; 1%nat; 2%nat] 0 in
  exists w',
    selectCellById (host := jupyterHost) "c" w = (Normal tt, w') /\
    trace w' = [SelectBelow] /\ activeCellIndex w' = 2.
Proof.
  intros w.
  destruct (selectCellById_reaches_shown_target jupyterHost w "c")
    as (w' & He & _ & Htr & _ & Hc & _).
  - right. simpl. lia.
  - exists w'. split; [exact He|]. split; [exact Htr|].
    apply (Hc jupyterHost_skipsHidden); [vm_compute; discriminate | reflexivity ..].
Defined.

(** ** The [executed] handler in safe mode *)

(** X19: for a trigger cell in safe mode whose generated cell is found, the
    [executed] handler returns normally; its calls are the tagging, the
    search, the navigation [selectCellById] to the generated cell and the
    final tagging, with no request to run, no write of [inputHidden] and no
    step after the navigation; the generated cell's [inputHidden] flag is
    as before.  On a host whose steps pass over the hidden inputs the
    cursor ends on the position of the generated cell's id, and on the
    generated cell when that id is its own, whenever the active cell and
    that position show their input.  When the navigation issues no step the
    cursor stays where it was. *)
Theorem onExecuted_safe_mode_run (host : Host) (w : State) (t a : ref) :
  currentWidget w = true ->
  cursor_wf w ->
  isCellChapyterMagicCell (cells w t) true = true ->
  isCellNotGenerated (cells w t) = true ->
  isCellChapyterMagicCellSafeMode (cells w t) = true ->
  findCellByTemplateString w (ofExecutionCount (executionCount (cells w t)))
    = Some a ->
  exists w' calls,
    onExecuted (mkArgs t true) w = (Normal tt, w') /\
    trace w' = trace w ++ calls /\
    calls =
      tagOriginal_calls t w
      ++ [SearchTemplate (ofExecutionCount (executionCount (cells w t)));
          SetMetadata a (mkMeta (Some (id (cells w t))) generated)]
      ++ selectCellById_calls w (id (cells w a))
      ++ [SetMetadata t (mkMeta (Some (id (cells w a))) original);
          AddClass t CHAPYTER_CHAT_CELL;
          RemoveClass t CHAPYTER_CHAT_CELL_EXECUTING;
          AddClass a CHAPYTER_ASSISTANCE_CELL] /\
    ~ In Run calls /\
    (forall r b, ~ In (SetInputHidden r b) calls) /\
    inputHidden (cells w' a) = inputHidden (cells w a) /\
    (skipsHidden host ->
     inputShownAt w (activeCellIndex w) = true ->
     inputShownAt w (findCellIndexById w (id (cells w a))) = true ->
     activeCellIndex w' = findCellIndexById w (id (cells w a)) /\
     ((forall r, In r (widgets w) -> id (cells w r) = id (cells w a) -> r = a) ->
      nth_error (widgets w') (Z.to_nat (activeCellIndex w')) = Some a)) /\
    (selectCellById_calls w (id (cells w a)) = [] ->
     activeCellIndex w' = activeCellIndex w).
Proof.
  intros Hcur Hwf Hm Hn Hs Hf.
  destruct (onExecuted_outcome host w t a Hcur Hwf Hm Hn Hf)
    as (c & w' & He & steps & Hc & Hw & _ & _ & _ & _ & _ & _ & Hh & _ & _ & _
        & _ & Htr & _ & Hz & Hcursor).
  cbv zeta in *. rewrite Hs in *. cbn [orb] in *. subst c.
  eexists w', _. split; [exact He|]. split; [exact Htr|].
  split; [rewrite !app_nil_l; reflexivity|].
  assert (Hno : forall c,
             In c (tagOriginal_calls t w
                   ++ [SearchTemplate (ofExecutionCount (executionCount (cells w t)));
                       SetMetadata a (mkMeta (Some (id (cells w t))) generated)]
                   ++ selectCellById_calls w (id (cells w a))
                   ++ []
                   ++ [SetMetadata t (mkMeta (Some (id (cells w a))) original);
                       AddClass t CHAPYTER_CHAT_CELL;
                       RemoveClass t CHAPYTER_CHAT_CELL_EXECUTING;
                       AddClass a CHAPYTER_ASSISTANCE_CELL]) ->
             c <> Run /\ forall r b, c <> SetInputHidden r b).
  { intros c Hin. rewrite !in_app_iff in Hin.
    destruct Hin as [Hin|[Hin|[Hin|[Hin|Hin]]]].
    - apply tagOriginal_calls_metadata in Hin. subst c. split; intros; discriminate.
    - simpl in Hin. destruct Hin as [<-|[<-|[]]]; split; intros; discriminate.
    - apply selectCellById_calls_steps in Hin.
      destruct Hin as [-> | ->]; split; intros; discriminate.
    - destruct Hin.
    - simpl in Hin. destruct Hin as [<-|[<-|[<-|[<-|[]]]]];
        split; intros; discriminate. }
  split; [intros Hin; apply (proj1 (Hno _ Hin)); reflexivity|].
  split; [intros r b Hin; apply (proj2 (Hno _ Hin) r b); reflexivity|].
  split; [exact Hh|].
  split; [|exact (Hz eq_refl)].
  intros Hskip Hsa Hst. specialize (Hcursor Hskip Hsa Hst).
  split; [exact Hcursor|].
  intros Huniq. rewrite Hcursor, Hw.
  destruct (findCellIndexById_spec w (id (cells w a)))
    as [(_ & _ & Hnone)|(_ & r & Hr & Hid & _)].
  - exfalso. apply (Hnone a); [|reflexivity].
    apply (findCellByTemplateString_found _ _ _ Hf).
  - rewrite Hr. f_equal. apply Huniq; [|exact Hid].
    apply (nth_error_In _ _ Hr).
Qed.

Lemma onExecuted_safe_mode_run_witness :
  let w := Sample.notebook
             [mkCell "t" code "%chat -s plot the data" (Some 3) None None false [];
              mkCell "h" code "import numpy" None None None true [];
              Sample.plain "g" "# Assistant Code for Cell [3]:
plot(data)"]
             [0%nat; 1%nat; 2%nat] 0 in
  exists w',
    onExecuted (host := jupyterHost) (mkArgs 0%nat true) w = (Normal tt, w') /\
    ~ In Run (trace w') /\
    inputHidden (cells w' 2%nat) = false /\
    nth_error (widgets w') (Z.to_nat (activeCellIndex w')) = Some 2%nat.
Proof.
  intros w.
  destruct (onExecuted_safe_mode_run jupyterHost w 0%nat 2%nat)
    as (w' & calls & He & Htr & _ & Hrun & _ & Hh & Hc & _);
    try reflexivity.
  - right. simpl. lia.
  - exists w'. split; [exact He|]. split; [rewrite Htr; exact Hrun|].
    split; [exact Hh|].
    apply (Hc jupyterHost_skipsHidden); [reflexivity | reflexivity |].
    intros r [<-|[<-|[<-|[]]]]; [discriminate | discriminate | reflexivity].
Defined.

(** ** The two halves of the link *)


